(** * The document text store of [app/redis_client.py]

    A shallow embedding of the Redis-backed document store (put / get / clear /
    health / chunk metadata) and the properties of its storage layout.

    Modelling conventions.
    - A Python [str] is a Rocq [string] holding the UTF-8 code units of the
      text; "valid text" is [utf8_valid].  [str.encode("utf-8")] is then the
      conversion to [list byte], and [bytes.decode("utf-8")] the checked
      conversion back.
    - Python [bytes] are [list byte]; Python integers are [Z].
    - The remote keyspace is a finite map from key strings to byte values, the
      in-process fallback [DOC_STORE] a finite map from identifiers to
      [(timestamp, text)].  [time.time()] reads a clock kept in the world; it
      is an integer number of seconds here.
    - Every command sent to Redis may raise.  The world carries a schedule of
      faults: each command consumes one entry, and raises without touching the
      keyspace when the entry is [true].  An exhausted schedule means a
      healthy backend.  A pipeline is one command.  Expiry of remote keys is
      an action of the backend between calls and is not part of the code
      modelled here; the [ttl] argument of [setex] is carried along only.
    - Python exceptions are an explicit outcome of the [Py] monad; [try] /
      [except Exception] is [try_except].  Logging has no effect on the
      state and is left out.
    - The client is created with [decode_responses=False], so Redis values
      are always [bytes]; the [isinstance] branches for other types are
      unreachable and left out.
    - [math.ceil(a / b)] is the exact integer ceiling, as the float quotient
      gives it for every size a process can hold.
    - [gzip], [json.loads] and the lossy preview helpers belong to the Python
      standard library.  They are the fields of the class [PyLib], together
      with the two laws of theirs that the store relies on; [reference_lib]
      is an instance.

    The blocks of the longer Python functions are named ([put_single_key],
    [put_chunked], [decode_chunked], [clear_redis], ...) and the functions
    are their composition, in the order of the source.

    The callers of the store are modelled with it: the file-name, text-file
    and keyword-search helpers of [app/storage.py], [handle_text_upload] of
    [app/upload_flow.py], and the multipart upload, [ask] and [healthz] of
    [app/routes.py].  What they take from Flask, the database and the
    extraction libraries is an argument or a parameter of theirs.  The
    store of the earlier application, [ai_document_working.py], is the
    module [Legacy]. *)

From Stdlib Require Import ZArith QArith String Ascii List Lia.
From Stdlib Require Import DecimalString DecimalZ Strings.Byte.
From stdpp Require Import base option gmap strings list list_numbers.

Open Scope Z_scope.

(** ** Bytes, text and Python built-ins *)

Abbreviation bytes := (list byte).

Definition len {A : Type} (l : list A) : Z := Z.of_nat (length l).

(** Slice indices follow Python: negative ones count from the end, and both
    ends are clipped to the sequence. *)
Definition clip_index (n i : Z) : Z :=
  if i <? 0 then Z.max (i + n) 0 else Z.min i n.

Definition py_slice {A : Type} (l : list A) (start stop : Z) : list A :=
  let s := clip_index (len l) start in
  let e := clip_index (len l) stop in
  take (Z.to_nat (e - s)) (drop (Z.to_nat s) l).

Fixpoint startswith (l prefix : bytes) : bool :=
  match prefix, l with
  | [], _ => true
  | p :: prefix', b :: l' => Byte.eqb b p && startswith l' prefix'
  | _ :: _, [] => false
  end.

Definition in_range (lo hi : N) (b : byte) : bool :=
  ((lo <=? Byte.to_N b) && (Byte.to_N b <=? hi))%N.

Definition continuation (b : byte) : bool := in_range 128 191 b.

(** Second byte of a three-byte sequence, by lead byte (no overlong forms,
    no surrogates). *)
Definition second_of_three (b0 b1 : byte) : bool :=
  (in_range 224 224 b0 && in_range 160 191 b1)
  || (in_range 225 236 b0 && continuation b1)
  || (in_range 237 237 b0 && in_range 128 159 b1)
  || (in_range 238 239 b0 && continuation b1).

(** Second byte of a four-byte sequence (nothing above U+10FFFF). *)
Definition second_of_four (b0 b1 : byte) : bool :=
  (in_range 240 240 b0 && in_range 144 191 b1)
  || (in_range 241 243 b0 && continuation b1)
  || (in_range 244 244 b0 && in_range 128 143 b1).

(** Well-formed UTF-8, the byte sequences [bytes.decode("utf-8")] accepts. *)
Fixpoint utf8_valid (l : bytes) : bool :=
  match l with
  | [] => true
  | b0 :: l1 =>
    if in_range 0 127 b0 then utf8_valid l1 else
    match l1 with
    | [] => false
    | b1 :: l2 =>
      if in_range 194 223 b0 then continuation b1 && utf8_valid l2 else
      match l2 with
      | [] => false
      | b2 :: l3 =>
        if in_range 224 239 b0
        then second_of_three b0 b1 && continuation b2 && utf8_valid l3
        else
          match l3 with
          | [] => false
          | b3 :: l4 =>
            second_of_four b0 b1 && continuation b2 && continuation b3
            && utf8_valid l4
          end
      end
    end
  end.

Definition utf8_encode (s : string) : bytes := list_byte_of_string s.

Definition utf8_decode (b : bytes) : option string :=
  if utf8_valid b then Some (string_of_list_byte b) else None.

(** A text is a string that [encode] accepts. *)
Definition is_text (s : string) : Prop := utf8_valid (utf8_encode s) = true.

Definition str_empty (s : string) : bool :=
  match s with EmptyString => true | String _ _ => false end.

Definition bytes_empty (b : bytes) : bool :=
  match b with [] => true | _ :: _ => false end.

(** [str(i)] for an integer. *)
Definition str_int (i : Z) : string := NilZero.string_of_int (Z.to_int i).

(** [math.ceil(a / b)]; [None] is [ZeroDivisionError]. *)
Definition ceil_div (a b : Z) : option Z :=
  if b =? 0 then None else Some (- ((- a) `div` b)).

(** ** JSON values and the meta record *)

#[warnings="-register-all"]
Inductive JVal : Type :=
| JNull
| JBool (b : bool)
| JInt (z : Z)
| JFloat (q : Q)
| JNonFinite
| JStr (s : string)
| JArr (items : list JVal)
| JObj (fields : list (string * JVal)).

Fixpoint assoc_get (k : string) (fields : list (string * JVal)) : option JVal :=
  match fields with
  | [] => None
  | (k', v) :: rest => if String.eqb k k' then Some v else assoc_get k rest
  end.

(** [meta.get(k, default)]; raises ([None]) when [meta] is not a dict. *)
Definition dict_get (meta : JVal) (k : string) (dflt : JVal) : option JVal :=
  match meta with
  | JObj fields => Some (default dflt (assoc_get k fields))
  | _ => None
  end.

Definition truthy (v : JVal) : bool :=
  match v with
  | JNull => false
  | JBool b => b
  | JInt z => negb (z =? 0)
  | JFloat q => negb (Qnum q =? 0)
  | JNonFinite => true
  | JStr s => negb (str_empty s)
  | JArr items => match items with [] => false | _ => true end
  | JObj fields => match fields with [] => false | _ => true end
  end.

Definition dquote : string := String "034"%char EmptyString.

Definition json_field (name value : string) : string :=
  dquote +:+ name +:+ dquote +:+ ": " +:+ value.

(** [json.dumps] of the dict literal built by [put_doc_text]. *)
Definition json_dumps_meta (chunks orig_bytes stored_bytes : Z) (compressed : bool)
  : string :=
  "{" +:+ json_field "chunks" (str_int chunks) +:+ ", "
      +:+ json_field "orig_bytes" (str_int orig_bytes) +:+ ", "
      +:+ json_field "stored_bytes" (str_int stored_bytes) +:+ ", "
      +:+ json_field "compressed" (if compressed then "true" else "false")
      +:+ "}".

Definition meta_dict (chunks orig_bytes stored_bytes : Z) (compressed : bool) : JVal :=
  JObj [("chunks", JInt chunks); ("orig_bytes", JInt orig_bytes);
        ("stored_bytes", JInt stored_bytes); ("compressed", JBool compressed)].

(** ** The Python standard library the module calls *)

Class PyLib : Type := {
  (** [gzip.compress(data, compresslevel=6)] *)
  gzip_compress : bytes → bytes;
  (** [gzip.decompress(data)]; [None] when it raises *)
  gzip_decompress : bytes → option bytes;
  (** [json.loads(s)]; [None] when it raises *)
  json_loads : string → option JVal;
  (** [int(s)] for a [str]; [None] when it raises *)
  int_of_str : string → option Z;
  (** [b.decode("utf-8", errors="replace")] *)
  decode_replace : bytes → string;
  (** [len(s.split())] *)
  split_count : string → Z;
  gzip_roundtrip : ∀ b, gzip_decompress (gzip_compress b) = Some b;
  json_loads_dumps : ∀ n o s c,
    json_loads (json_dumps_meta n o s c) = Some (meta_dict n o s c);
}.

(** [int(v)] for a decoded JSON value; [None] when it raises. *)
Definition py_int `{PyLib} (v : JVal) : option Z :=
  match v with
  | JBool b => Some (if b then 1 else 0)
  | JInt z => Some z
  | JFloat q => Some (Z.quot (Qnum q) (Zpos (Qden q)))
  | JStr s => int_of_str s
  | JNull | JNonFinite | JArr _ | JObj _ => None
  end.

(** ** Configuration and keys *)

Record Config : Type := mkConfig {
  REDIS_present : bool;        (* [REDIS is not None] *)
  DOC_TTL_SECONDS : Z;
  COMPRESS_THRESHOLD : Z;
  _CHUNK_SIZE : Z;
  _MAX_SINGLE_KEY : Z;
}.

Definition default_config (redis : bool) : Config :=
  mkConfig redis 86400 32768 (4 * 1024 * 1024) (100 * 1024 * 1024).

Definition _MARKER_COMPRESSED : bytes := list_byte_of_string "gzip:".
Definition _META_SUFFIX : string := ":meta".

Definition single_key (doc_id : string) : string := "doc:" +:+ doc_id.
Definition meta_key (doc_id : string) : string := "doc:" +:+ doc_id +:+ _META_SUFFIX.
Definition chunk_key (doc_id : string) (i : Z) : string :=
  "doc:" +:+ doc_id +:+ ":chunk:" +:+ str_int i.

(** ** The world and the monad of Python computations *)

Record World : Type := mkWorld {
  kv : gmap string bytes;
  DOC_STORE : gmap string (Z * string);
  clock : Z;
  faults : list bool;
}.

Definition with_kv (f : gmap string bytes → gmap string bytes) (w : World) : World :=
  mkWorld (f (kv w)) (DOC_STORE w) (clock w) (faults w).
Definition with_DOC_STORE
  (f : gmap string (Z * string) → gmap string (Z * string)) (w : World) : World :=
  mkWorld (kv w) (f (DOC_STORE w)) (clock w) (faults w).
Definition with_faults (fs : list bool) (w : World) : World :=
  mkWorld (kv w) (DOC_STORE w) (clock w) fs.

Inductive outcome (A : Type) : Type :=
| Returns (a : A)
| Raises.
Arguments Returns {A} a.
Arguments Raises {A}.

Definition Py (A : Type) : Type := World → outcome A * World.

Global Instance Py_ret : MRet Py := λ A a w, (Returns a, w).
Global Instance Py_bind : MBind Py := λ A B f m w,
  match m w with
  | (Returns a, w') => f a w'
  | (Raises, w') => (Raises, w')
  end.

Definition raise {A : Type} : Py A := λ w, (Raises, w).

Definition try_except {A : Type} (body handler : Py A) : Py A := λ w,
  match body w with
  | (Returns a, w') => (Returns a, w')
  | (Raises, w') => handler w'
  end.

(** An operation of the library that raises on [None]. *)
Definition or_raise {A : Type} (o : option A) : Py A :=
  match o with Some a => mret a | None => raise end.

Definition time_time : Py Z := λ w, (Returns (clock w), w).

Definition DOC_STORE_set (doc_id : string) (entry : Z * string) : Py unit :=
  λ w, (Returns (), with_DOC_STORE (insert doc_id entry) w).
Definition DOC_STORE_get (doc_id : string) : Py (option (Z * string)) :=
  λ w, (Returns (DOC_STORE w !! doc_id), w).
Definition DOC_STORE_pop (doc_id : string) : Py unit :=
  λ w, (Returns (), with_DOC_STORE (delete doc_id) w).

(** ** The Redis client *)

Definition redis_call : Py unit := λ w,
  match faults w with
  | [] => (Returns (), w)
  | false :: fs => (Returns (), with_faults fs w)
  | true :: fs => (Raises, with_faults fs w)
  end.

Definition read_kv {A : Type} (f : gmap string bytes → A) : Py A :=
  λ w, (Returns (f (kv w)), w).
Definition update_kv (f : gmap string bytes → gmap string bytes) : Py unit :=
  λ w, (Returns (), with_kv f w).

Definition REDIS_get (key : string) : Py (option bytes) :=
  redis_call;; read_kv (λ m, m !! key).

Definition REDIS_setex (key : string) (ttl : Z) (value : bytes) : Py unit :=
  redis_call;; update_kv (insert key value).

Definition count_present (m : gmap string bytes) (keys : list string) : Z :=
  len (filter (λ k, is_Some (m !! k)) (remove_dups keys)).

Definition delete_all (keys : list string) (m : gmap string bytes) : gmap string bytes :=
  foldr delete m keys.

(** [REDIS.delete] takes any number of keys and returns how many it removed. *)
Definition REDIS_delete (keys : list string) : Py Z :=
  redis_call;;
  n ← read_kv (λ m, count_present m keys);
  update_kv (delete_all keys);;
  mret n.

Definition REDIS_exists (key : string) : Py bool :=
  redis_call;; read_kv (λ m, bool_decide (is_Some (m !! key))).

Definition REDIS_ping : Py bool := redis_call;; mret true.

(** A pipeline buffers [setex] commands locally; [execute] sends them in one
    round trip. *)
Definition apply_setex (m : gmap string bytes) (cmd : string * Z * bytes)
  : gmap string bytes :=
  <[cmd.1.1 := cmd.2]> m.

Definition pipeline_execute (cmds : list (string * Z * bytes)) : Py unit :=
  redis_call;; update_kv (λ m, foldl apply_setex m cmds).

(** ** The document store *)

(** One entry of the list returned by [build_chunks_from_redis]. *)
Record ChunkInfo : Type := mkChunkInfo {
  chunk_id : option string;
  chunk_index : Z;
  redis_key : string;
  stored_bytes : Z;
  text_preview : option string;
  start_token : option Z;
  end_token : option Z;
  token_count : option Z;
}.

Section Docstore.
Context `{PyLib} (cfg : Config).

Definition _gzip_compress_bytes (data : bytes) : bytes := gzip_compress data.

Definition _gzip_decompress_bytes (data : bytes) : Py bytes :=
  or_raise (gzip_decompress data).

Definition _store_in_redis_raw (key : string) (value : bytes) (ttl : Z) : Py bool :=
  if negb (REDIS_present cfg) then mret false
  else try_except (REDIS_setex key ttl value;; mret true) (mret false).

(** *** [put_doc_text] *)

(** The "maybe compress" block: the bytes to store and the [compressed]
    flag.  [gzip.compress] is total on [bytes], so the handler that keeps
    the raw bytes is never entered. *)
Definition maybe_compress (raw_bytes : bytes) : bytes * bool :=
  if negb (COMPRESS_THRESHOLD cfg =? 0) && (COMPRESS_THRESHOLD cfg <=? len raw_bytes)
  then (_gzip_compress_bytes raw_bytes, true)
  else (raw_bytes, false).

Definition single_payload (to_store : bytes) (compressed : bool) : bytes :=
  if compressed then _MARKER_COMPRESSED ++ to_store else to_store.

(** The single-key block.  The result says whether the function has
    returned [True] ([true]) or falls through to chunking ([false]). *)
Definition put_single_key (doc_id : string) (to_store : bytes) (compressed : bool)
  : Py bool :=
  try_except
    (let payload := single_payload to_store compressed in
     ok ← _store_in_redis_raw (single_key doc_id) payload (DOC_TTL_SECONDS cfg);
     if ok : bool then
       try_except (REDIS_delete [meta_key doc_id];; mret ()) (mret ());;
       mret true
     else mret false)
    (mret false).

Definition chunk_slice (gz_bytes : bytes) (i : Z) : bytes :=
  let start := i * _CHUNK_SIZE cfg in
  py_slice gz_bytes start (start + _CHUNK_SIZE cfg).

Definition chunk_commands (doc_id : string) (gz_bytes : bytes) (n_chunks : Z)
  : list (string * Z * bytes) :=
  (λ i, (chunk_key doc_id i, DOC_TTL_SECONDS cfg, chunk_slice gz_bytes i))
    <$> seqZ 0 n_chunks.

Definition fallback_store (doc_id text : string) : Py bool :=
  now ← time_time;
  DOC_STORE_set doc_id (now, text);;
  mret true.

(** The chunked block, with its handler that falls back to [DOC_STORE]. *)
Definition put_chunked (doc_id text : string) (size : Z) (to_store : bytes)
    (compressed : bool) : Py bool :=
  try_except
    (let gz_bytes := to_store in
     n_chunks ← or_raise (ceil_div (len gz_bytes) (_CHUNK_SIZE cfg));
     let meta := json_dumps_meta n_chunks size (len gz_bytes) compressed in
     pipeline_execute
       (chunk_commands doc_id gz_bytes n_chunks
        ++ [(meta_key doc_id, DOC_TTL_SECONDS cfg, utf8_encode meta)]);;
     mret true)
    (fallback_store doc_id text).

Definition put_doc_text (doc_id text : string) : Py bool :=
  if str_empty doc_id then mret false else
  let raw_bytes := utf8_encode text in
  let size := len raw_bytes in
  let '(to_store, compressed) := maybe_compress raw_bytes in
  if negb (REDIS_present cfg) then fallback_store doc_id text
  else
    returned ← (if len to_store <=? _MAX_SINGLE_KEY cfg
                then put_single_key doc_id to_store compressed
                else mret false);
    if returned : bool then mret true
    else put_chunked doc_id text size to_store compressed.

(** *** [_decode_redis_value] and [get_doc_text] *)

(** The loop that fetches the chunks; [None] is the early [return ""] on a
    missing chunk. *)
Fixpoint read_chunks (doc_id : string) (indices : list Z) (chunks : list bytes)
  : Py (option (list bytes)) :=
  match indices with
  | [] => mret (Some chunks)
  | i :: rest =>
    c ← REDIS_get (chunk_key doc_id i);
    match c with
    | None => mret None
    | Some c => read_chunks doc_id rest (chunks ++ [c])
    end
  end.

(** [int(meta.get("chunks", 0))] after [json.loads(meta_raw.decode("utf-8"))]. *)
Definition parse_meta (meta_raw : bytes) : option (JVal * Z) :=
  s ← utf8_decode meta_raw;
  meta ← json_loads s;
  v ← dict_get meta "chunks" (JInt 0);
  n ← py_int v;
  Some (meta, n).

Definition decode_chunked (doc_id : string) : Py string :=
  try_except
    (meta_raw ← REDIS_get (meta_key doc_id);
     match meta_raw with
     | None => mret ""
     | Some meta_raw =>
       if bytes_empty meta_raw then mret "" else
       '(meta, n) ← or_raise (parse_meta meta_raw);
       r ← read_chunks doc_id (seqZ 0 n) [];
       match r with
       | None => mret ""
       | Some chunks =>
         let gz_all := concat chunks in
         c ← or_raise (dict_get meta "compressed" JNull);
         if truthy c then
           raw ← _gzip_decompress_bytes gz_all;
           or_raise (utf8_decode raw)
         else or_raise (utf8_decode gz_all)
       end
     end)
    (mret "").

Definition decode_single (raw_bytes : bytes) : Py string :=
  try_except
    (r ← (if startswith raw_bytes _MARKER_COMPRESSED then
            let gz := drop (length _MARKER_COMPRESSED) raw_bytes in
            try_except
              (decompressed ← _gzip_decompress_bytes gz;
               s ← or_raise (utf8_decode decompressed);
               mret (Some s))
              (mret None)
          else mret None);
     match r with
     | Some s => mret s
     | None => try_except (or_raise (utf8_decode raw_bytes)) (mret "")
     end)
    (mret "").

Definition _decode_redis_value (raw_val : option bytes) (doc_id : option string)
  : Py string :=
  match raw_val with
  | None =>
    match doc_id with
    | None => mret ""
    | Some doc_id =>
      if str_empty doc_id || negb (REDIS_present cfg) then mret ""
      else decode_chunked doc_id
    end
  | Some raw_bytes => decode_single raw_bytes
  end.

Definition fallback_lookup (doc_id : string) : Py string :=
  tup ← DOC_STORE_get doc_id;
  match tup with
  | Some (ts, txt) =>
    now ← time_time;
    if DOC_TTL_SECONDS cfg <? now - ts
    then DOC_STORE_pop doc_id;; mret ""
    else mret txt
  | None => mret ""
  end.

Definition get_doc_text (doc_id : string) : Py string :=
  if str_empty doc_id then mret "" else
  found ← (if REDIS_present cfg then
             try_except
               (raw ← REDIS_get (single_key doc_id);
                result ← _decode_redis_value raw (Some doc_id);
                mret (if str_empty result then None else Some result))
               (mret None)
           else mret None);
  match found with
  | Some result => mret result
  | None => fallback_lookup doc_id
  end.

(** *** [clear_doc] and [redis_healthy] *)

(** The [while True] probe of [clear_doc].  Every round that continues has
    removed a key, so [S (size keyspace)] rounds are always enough
    ([clear_chunks_healthy]). *)
Fixpoint probe_delete (fuel : nat) (doc_id : string) (i : Z) : Py unit :=
  match fuel with
  | O => mret ()
  | S fuel' =>
    n ← REDIS_delete [chunk_key doc_id i];
    if n =? 0 then mret () else probe_delete fuel' doc_id (i + 1)
  end.

Definition clear_chunks (doc_id : string) (meta_raw : bytes) : Py unit :=
  try_except
    ('(_, cnt) ← or_raise (parse_meta meta_raw);
     let keys := chunk_key doc_id <$> seqZ 0 cnt in
     match keys with
     | [] => mret ()
     | _ :: _ => REDIS_delete keys;; mret ()
     end)
    (fuel ← read_kv size;
     probe_delete (S fuel) doc_id 0).

(** The Redis half of [clear_doc], inside its [try]. *)
Definition clear_redis (doc_id : string) : Py bool :=
  REDIS_delete [single_key doc_id];;
  meta_raw ← REDIS_get (meta_key doc_id);
  match meta_raw with
  | None => mret true
  | Some meta_raw =>
    if bytes_empty meta_raw then mret true else
    clear_chunks doc_id meta_raw;;
    REDIS_delete [meta_key doc_id];;
    mret true
  end.

(** [if doc_id in DOC_STORE: DOC_STORE.pop(doc_id, None)] *)
Definition forget_fallback (doc_id : string) : Py unit :=
  tup ← DOC_STORE_get doc_id;
  match tup with
  | Some _ => DOC_STORE_pop doc_id
  | None => mret ()
  end.

Definition clear_doc (doc_id : option string) : Py bool :=
  match doc_id with
  | None => mret false
  | Some doc_id =>
    if str_empty doc_id then mret false else
    success ← (if REDIS_present cfg
               then try_except (clear_redis doc_id) (mret false)
               else mret true);
    forget_fallback doc_id;;
    mret success
  end.

Definition redis_healthy : Py bool :=
  if negb (REDIS_present cfg) then mret false
  else try_except REDIS_ping (mret false).

(** *** [build_chunks_from_redis] *)

Definition preview_count (preview : string) : option Z :=
  if str_empty preview then None else Some (split_count preview).

(** Preview and token count of a single-key value. *)
Definition single_preview (raw : bytes) (preview_chars : Z)
  : option string * option Z :=
  if startswith raw _MARKER_COMPRESSED then
    match gzip_decompress (drop (length _MARKER_COMPRESSED) raw) with
    | Some dec =>
      let preview := decode_replace (py_slice dec 0 preview_chars) in
      (Some preview, Some (split_count preview))
    | None => (None, None)
    end
  else
    let preview := decode_replace (py_slice raw 0 preview_chars) in
    (Some preview, preview_count preview).

(** Preview and token count of one chunk. *)
Definition chunk_preview (val : option bytes) (preview_chars : Z)
  : option string * option Z :=
  match val with
  | Some ((_ :: _) as val) =>
    let preview := decode_replace (py_slice val 0 preview_chars) in
    (Some preview, preview_count preview)
  | _ => (None, None)
  end.

(** The [while REDIS.exists(...)] probe.  The chunk keys found are distinct
    keys of the keyspace, so [S (size keyspace)] rounds are always enough
    ([probe_chunk_count_healthy]). *)
Fixpoint count_chunks (fuel : nat) (doc_id : string) (n_chunks : Z) : Py Z :=
  match fuel with
  | O => mret n_chunks
  | S fuel' =>
    e ← REDIS_exists (chunk_key doc_id n_chunks);
    if e : bool then count_chunks fuel' doc_id (n_chunks + 1) else mret n_chunks
  end.

Fixpoint chunk_entries (doc_id : string) (indices : list Z) (preview_chars : Z)
  : Py (list ChunkInfo) :=
  match indices with
  | [] => mret []
  | i :: rest =>
    let key := chunk_key doc_id i in
    val ← REDIS_get key;
    let stored := match val with Some v => len v | None => 0 end in
    let '(preview, tokens) := chunk_preview val preview_chars in
    out ← chunk_entries doc_id rest preview_chars;
    mret (mkChunkInfo None i key stored preview None None tokens :: out)
  end.

(** The number of chunks when there is no usable meta record; [None] is
    the early [return out]. *)
Definition probe_chunk_count (doc_id : string) : Py (option Z) :=
  e ← REDIS_exists (chunk_key doc_id 0);
  if e : bool then
    fuel ← read_kv size;
    n ← count_chunks (S fuel) doc_id 0;
    mret (Some n)
  else mret None.

(** Step 2 of the builder: the entries of the chunked form, given what
    was read under the meta key. *)
Definition chunked_entries (doc_id : string) (preview_chars : Z)
    (meta_raw : option bytes) : Py (list ChunkInfo) :=
  n_chunks ← match meta_raw with
             | Some ((_ :: _) as meta_raw) =>
               mret (Some (default 0 (snd <$> parse_meta meta_raw)))
             | _ => probe_chunk_count doc_id
             end;
  match n_chunks with
  | None => mret []
  | Some n_chunks => chunk_entries doc_id (seqZ 0 n_chunks) preview_chars
  end.

Definition build_chunks_from_redis (doc_id : string) (preview_chars : Z)
  : Py (list ChunkInfo) :=
  if str_empty doc_id then mret [] else
  let prefix := single_key doc_id in
  if negb (REDIS_present cfg) then mret [] else
  try_except
    (raw ← REDIS_get prefix;
     match raw with
     | Some raw =>
       let '(preview, tokens) := single_preview raw preview_chars in
       mret [mkChunkInfo None 0 prefix (len raw) preview None None tokens]
     | None =>
       meta_raw ← REDIS_get (meta_key doc_id);
       chunked_entries doc_id preview_chars meta_raw
     end)
    (mret []).

End Docstore.


(** ** Layouts and frames

    The vocabulary of the properties below: the keyspace a write leaves
    behind, the entry the builder makes for a chunk, and what a computation
    leaves unchanged. *)

(** The chunked form of a payload: a meta record and one chunk per index. *)
Definition chunked_form (cfg : Config) (doc_id : string) (gz : bytes)
    (size : Z) (compressed : bool) (m : gmap string bytes) : Prop :=
  ∃ n, ceil_div (len gz) (_CHUNK_SIZE cfg) = Some n
    ∧ m !! meta_key doc_id
      = Some (utf8_encode (json_dumps_meta n size (len gz) compressed))
    ∧ ∀ i, 0 ≤ i < n → m !! chunk_key doc_id i = Some (chunk_slice cfg gz i).

Section Layout.
Context `{PyLib} (cfg : Config).

(** The keyspace after the pipeline of the chunked block has run. *)
Definition chunked_write (doc_id : string) (gz : bytes) (size : Z)
    (compressed : bool) (n : Z) (m : gmap string bytes) : gmap string bytes :=
  foldl apply_setex m
    (chunk_commands cfg doc_id gz n
     ++ [(meta_key doc_id, DOC_TTL_SECONDS cfg,
          utf8_encode (json_dumps_meta n size (len gz) compressed))]).

(** The keyspace [put_doc_text] produces on a healthy backend. *)
Definition stored_keyspace (doc_id text : string) (m : gmap string bytes)
  : gmap string bytes :=
  let raw_bytes := utf8_encode text in
  let '(to_store, compressed) := maybe_compress cfg raw_bytes in
  if len to_store <=? _MAX_SINGLE_KEY cfg then
    delete (meta_key doc_id)
      (<[single_key doc_id := single_payload to_store compressed]> m)
  else
    chunked_write doc_id to_store (len raw_bytes) compressed
      (default 0 (ceil_div (len to_store) (_CHUNK_SIZE cfg))) m.

(** The entry [build_chunks_from_redis] makes for chunk [i]. *)
Definition chunk_entry (doc_id : string) (preview_chars : Z)
    (m : gmap string bytes) (i : Z) : ChunkInfo :=
  let val := m !! chunk_key doc_id i in
  mkChunkInfo None i (chunk_key doc_id i)
    (match val with Some v => len v | None => 0 end)
    (chunk_preview val preview_chars).1 None None
    (chunk_preview val preview_chars).2.


End Layout.

(** [m] takes every world to one related to it by [R]. *)
Definition preserves (R : relation World) {A : Type} (m : Py A) : Prop :=
  ∀ w, R w (m w).2.

(** Nothing but the fault schedule changes: a read-only computation. *)
Definition same_stores (w w' : World) : Prop :=
  kv w' = kv w ∧ DOC_STORE w' = DOC_STORE w ∧ clock w' = clock w.

(** The fallback map and the clock are left alone. *)
Definition same_fallback (w w' : World) : Prop :=
  DOC_STORE w' = DOC_STORE w ∧ clock w' = clock w.

(** The keys of the remote keyspace that belong to [doc_id]. *)
Definition own_key (doc_id key : string) : Prop :=
  key = single_key doc_id ∨ key = meta_key doc_id
  ∨ ∃ i, key = chunk_key doc_id i.

(** Whatever does not belong to [doc_id] is left as it was. *)
Definition same_elsewhere (doc_id : string) (w w' : World) : Prop :=
  (∀ key, ¬ own_key doc_id key → kv w' !! key = kv w !! key)
  ∧ (∀ other, other ≠ doc_id → DOC_STORE w' !! other = DOC_STORE w !! other)
  ∧ clock w' = clock w.

(** Two worlds that look the same to a reader of [doc_id]. *)
Definition agree_on (doc_id : string) (w1 w2 : World) : Prop :=
  (∀ key, own_key doc_id key → kv w1 !! key = kv w2 !! key)
  ∧ DOC_STORE w1 !! doc_id = DOC_STORE w2 !! doc_id
  ∧ clock w1 = clock w2
  ∧ faults w1 = faults w2.

(** [m] cannot tell worlds related by [R] apart, and keeps them related. *)
Definition respects (R : relation World) {A : Type} (m : Py A) : Prop :=
  ∀ w1 w2, R w1 w2 → (m w1).1 = (m w2).1 ∧ R (m w1).2 (m w2).2.

(** No [":"] in an identifier, as in the UUIDs the upload flow draws. *)
Definition colon_free (s : string) : bool :=
  forallb (λ a, negb (Ascii.eqb a ":"%char)) (list_ascii_of_string s).

(** Whatever [m] returns satisfies [P]. *)
Definition ensures {A : Type} (P : A → Prop) (m : Py A) : Prop :=
  ∀ w a w', m w = (Returns a, w') → P a.

(** An entry of the builder that describes a key of [doc_id]: the single
    key with index 0 or the chunk key of its index, a size, and none of the
    fields the builder leaves to the database layer. *)
Definition entry_of (doc_id : string) (e : ChunkInfo) : Prop :=
  (redis_key e = single_key doc_id ∧ chunk_index e = 0
   ∨ redis_key e = chunk_key doc_id (chunk_index e))
  ∧ 0 ≤ stored_bytes e
  ∧ chunk_id e = None ∧ start_token e = None ∧ end_token e = None
  ∧ (text_preview e = None → token_count e = None).

(** A read under a fault schedule: [m] changes nothing but the schedule,
    and it answers as it does on a healthy backend, or raises, or returns
    the degraded answer [d] when there is one. *)
Definition degrades {A : Type} (d : option A) (m : Py A) : Prop :=
  ∀ w fs, ∃ o o' fs',
    m (with_faults [] w) = (o, with_faults [] w)
    ∧ m (with_faults fs w) = (o', with_faults fs' w)
    ∧ (o' = o ∨ o' = Raises ∨ ∃ x, d = Some x ∧ o' = Returns x).

(** ** The health endpoint of [app/routes.py] *)

(** The dict [{"ok": ..., "redis": ...}] that [healthz] returns as JSON. *)
Record Status : Type := mkStatus { status_ok : bool; status_redis : bool }.

(** [healthz]; [redis_url_set] is ["REDIS_URL" in os.environ]. *)
Definition healthz (cfg : Config) (redis_url_set : bool) : Py Status :=
  r ← redis_healthy cfg;
  let status := mkStatus true r in
  if negb (status_redis status) then
    if redis_url_set then mret (mkStatus false (status_redis status))
    else mret status
  else mret status.

(** ** [app/storage.py]: file names, text files and the keyword search

    The methods of [str] that depend on the Unicode tables ([lower], [strip],
    [split], [splitlines]) are fields of the class [PyStr], with what they do
    on ASCII text as laws.  [len], [in] and [rsplit] on a ["."] are functions
    of the code units and are defined here. *)

Definition is_ascii (s : string) : bool :=
  forallb (in_range 0 127) (utf8_encode s).

(** [len(s)] for a text: its number of code points. *)
Definition str_len (s : string) : Z :=
  len (List.filter (λ b, negb (continuation b)) (utf8_encode s)).

Fixpoint str_prefix (p s : string) : bool :=
  match p, s with
  | EmptyString, _ => true
  | String a p', String b s' => Ascii.eqb a b && str_prefix p' s'
  | String _ _, EmptyString => false
  end.

(** [needle in hay] *)
Fixpoint str_contains (needle hay : string) : bool :=
  str_prefix needle hay
  || match hay with
     | EmptyString => false
     | String _ hay' => str_contains needle hay'
     end.

(** ["." in s] *)
Definition has_dot (s : string) : bool :=
  existsb (Ascii.eqb "."%char) (list_ascii_of_string s).

(** [s.rsplit(".", 1)[-1]]: what follows the last ["."], or all of [s]. *)
Fixpoint rsplit_last (s : string) : string :=
  match s with
  | EmptyString => EmptyString
  | String a s' =>
    if has_dot s' then rsplit_last s'
    else if Ascii.eqb a "."%char then s' else s
  end.

(** [sep.join(items)] *)
Fixpoint str_join (sep : string) (items : list string) : string :=
  match items with
  | [] => ""
  | [x] => x
  | x :: rest => x +:+ sep +:+ str_join sep rest
  end.

(** [lower] and [strip] on ASCII text. *)
Definition lower_char (a : ascii) : ascii :=
  let n := N_of_ascii a in
  if ((65 <=? n) && (n <=? 90))%N then ascii_of_N (n + 32) else a.

Fixpoint ascii_lower (s : string) : string :=
  match s with
  | EmptyString => EmptyString
  | String a s' => String (lower_char a) (ascii_lower s')
  end.

(** The ASCII characters for which [str.isspace] holds. *)
Definition ascii_space (a : ascii) : bool :=
  let n := N_of_ascii a in
  (((9 <=? n) && (n <=? 13)) || ((28 <=? n) && (n <=? 32)))%N.

Fixpoint lstrip (s : string) : string :=
  match s with
  | EmptyString => EmptyString
  | String a s' => if ascii_space a then lstrip s' else s
  end.

Definition str_rev (s : string) : string :=
  string_of_list_ascii (rev (list_ascii_of_string s)).

Definition ascii_strip (s : string) : string :=
  str_rev (lstrip (str_rev (lstrip s))).

Class PyStr : Type := {
  (** [s.lower()] *)
  str_lower : string → string;
  (** [s.strip()] *)
  str_strip : string → string;
  (** [s.split()] *)
  str_split : string → list string;
  (** [s.splitlines()] *)
  str_splitlines : string → list string;
  str_lower_ascii : ∀ s, is_ascii s = true → str_lower s = ascii_lower s;
  str_strip_ascii : ∀ s, is_ascii s = true → str_strip s = ascii_strip s;
}.

Definition ALLOWED_EXT : gset string :=
  list_to_set ["pdf"; "docx"; "png"; "jpg"; "jpeg"; "webp"; "bmp"; "tiff";
               "txt"; "csv"; "md"].

Definition nl : string := String "010"%char EmptyString.

(** The three characters in front of every hit, as the source file has
    them (code points U+00E2, U+20AC, U+00A2), and a space. *)
Definition bullet : string :=
  String "195" (String "162" (String "226" (String "130" (String "172"
    (String "194" (String "162" (String " " EmptyString))))))).

Definition no_match_message : string :=
  "I couldn't find a direct keyword match. "
  +:+ "Once wired to your Python LLM pipeline, I'll answer semantically. Try different keywords for now.".

(** [b.decode("latin-1")] of one byte: the code point of the same number. *)
Definition latin1_char (b : byte) : string :=
  let n := Byte.to_N b in
  if (n <? 128)%N then String (ascii_of_byte b) EmptyString
  else String (ascii_of_N (192 + n / 64))
         (String (ascii_of_N (128 + n mod 64)) EmptyString).

(** [b.decode("latin-1", errors="ignore")]; every byte is a Latin-1
    character, so there is nothing to ignore. *)
Definition latin1_decode (b : bytes) : string :=
  foldr (λ x s, latin1_char x +:+ s) EmptyString b.

(** [f] is what [f.read()] gives: the bytes of the file, or the message of
    the exception it raises. *)
Definition read_text_file (f : bytes + string) : string :=
  match f with
  | inl b =>
    match utf8_decode b with
    | Some s => s
    | None => latin1_decode b
    end
  | inr e => "[Text read error] " +:+ e
  end.

Section Storage.
Context `{PyStr}.

Definition ext_of (filename : string) : string :=
  str_strip (if has_dot filename then str_lower (rsplit_last filename) else "").

Definition is_allowed (filename : string) : bool :=
  bool_decide (ext_of filename ∈ ALLOWED_EXT).

(** [lines = [ln.strip() for ln in haystack.splitlines() if ln.strip()]] *)
Definition search_lines (haystack : string) : list string :=
  str_strip <$> List.filter (λ ln, negb (str_empty (str_strip ln)))
                  (str_splitlines haystack).

(** [q_words = [w for w in query.lower().split() if len(w) > 2]] *)
Definition search_words (query : string) : list string :=
  List.filter (λ w, 2 <? str_len w) (str_split (str_lower query)).

(** [all(w in ln_low for w in q_words)] *)
Definition line_matches (q_words : list string) (ln : string) : bool :=
  let ln_low := str_lower ln in
  forallb (λ w, str_contains w ln_low) q_words.

(** The [for] loop with its [break]. *)
Fixpoint search_loop (q_words lines hits : list string) : list string :=
  match lines with
  | [] => hits
  | ln :: rest =>
    let hits := if line_matches q_words ln then hits ++ [ln] else hits in
    if 8 <=? len hits then hits else search_loop q_words rest hits
  end.

Definition naive_search_answer (haystack query : string) : string :=
  let lines := search_lines haystack in
  let q_words := search_words query in
  let hits := search_loop q_words lines [] in
  match hits with
  | [] => no_match_message
  | _ :: _ =>
    "Here are some lines that look relevant:" +:+ nl +:+ nl
    +:+ str_join nl ((λ h, bullet +:+ h) <$> hits)
  end.

End Storage.

(** An instance of [PyStr] for ASCII text with LF line ends: [lower] and
    [strip] as the laws have them, [split] at ASCII white space and
    [splitlines] at line feeds. *)
Module ReferenceStr.

Fixpoint fields (sep : ascii → bool) (keep_empty : bool) (l cur : list ascii)
  : list string :=
  match l with
  | [] => match cur with [] => [] | _ :: _ => [string_of_list_ascii cur] end
  | a :: l' =>
    if sep a then
      match cur with
      | [] => if keep_empty then EmptyString :: fields sep keep_empty l' []
              else fields sep keep_empty l' []
      | _ :: _ => string_of_list_ascii cur :: fields sep keep_empty l' []
      end
    else fields sep keep_empty l' (cur ++ [a])
  end.

Definition split (s : string) : list string :=
  fields ascii_space false (list_ascii_of_string s) [].

Definition splitlines (s : string) : list string :=
  fields (Ascii.eqb "010"%char) true (list_ascii_of_string s) [].

End ReferenceStr.

#[export] Instance reference_str : PyStr := {|
  str_lower := ascii_lower;
  str_strip := ascii_strip;
  str_split := ReferenceStr.split;
  str_splitlines := ReferenceStr.splitlines;
  str_lower_ascii := λ s _, eq_refl;
  str_strip_ascii := λ s _, eq_refl;
|}.

(** ** [app/upload_flow.py] and the upload route

    The identifier is drawn by [uuid.uuid4()]; it is an argument here.  The
    page count of a PDF ([pypdf]), the text extractors and the database
    insert of [app/ingest_db.py] are parameters. *)

(** The keyword arguments of [insert_document]. *)
Record DocumentRow : Type := mkDocumentRow {
  row_doc_id : string;
  row_user_id : option string;
  row_filename : string;
  row_size_bytes : Z;
  row_storage : string;
  row_total_pages : option Z;
  row_pdf_bytes : option bytes;
}.

(** What the route returns: a redirect, or a JSON error with status 400. *)
Inductive Response : Type :=
| RedirectTo (location : string)
| BadRequest (error : string).

Section Upload.
Context `{PyLib} `{PyStr} (cfg : Config).
(** [len(PdfReader(io.BytesIO(pdf_bytes)).pages)]; [None] when it raises *)
Variable pdf_page_count : bytes → option Z.
Variable insert_document : DocumentRow → Py unit.
Variables extract_pdf_text extract_docx_text ocr_image_to_text : bytes → string.

Definition handle_text_upload (uuid4 : string) (user_id : option string)
    (filename text : string) (pdf_bytes : option bytes) : Py string :=
  let doc_id := uuid4 in
  let given := match pdf_bytes with Some (_ :: _) => true | _ => false end in
  let size_bytes :=
    if given then len (default [] pdf_bytes) else len (utf8_encode text) in
  let total_pages :=
    if given then pdf_page_count (default [] pdf_bytes) else None in
  ok ← put_doc_text cfg doc_id text;
  if negb ok then raise else
  insert_document
    (mkDocumentRow doc_id user_id filename size_bytes "redis" total_pages None);;
  mret doc_id.

(** The multipart branch of [upload], from [secure_filename] on;
    [filename] is the secured name and [data] what [f.read()] gave.  The
    local [pdf_bytes] is bound in the PDF branch only: [None] is the unbound
    local, and reading it raises [UnboundLocalError].  The session entries
    written just before the redirect are left out. *)
Definition upload_file (uuid4 : string) (user_id : option string)
    (filename : string) (data : bytes) : Py Response :=
  if negb (is_allowed filename)
  then mret (BadRequest ("unsupported file type: " +:+ ext_of filename))
  else
    let ext := ext_of filename in
    let '(text, pdf_bytes) :=
      if String.eqb ext "pdf" then (extract_pdf_text data, Some data)
      else if String.eqb ext "docx" then (extract_docx_text data, None)
      else if bool_decide (ext ∈ ["png"; "jpg"; "jpeg"; "webp"; "bmp"; "tiff"])
      then (ocr_image_to_text data, None)
      else if bool_decide (ext ∈ ["txt"; "csv"; "md"])
      then (read_text_file (inl data), None)
      else (EmptyString, None) in
    pdf_bytes ← or_raise pdf_bytes;
    doc_id ← handle_text_upload uuid4 user_id filename text (Some pdf_bytes);
    mret (RedirectTo ("/chat/" +:+ doc_id)).


End Upload.

(** ** The store of [ai_document_working.py]

    The earlier single-file application keeps a store of its own: one key
    per document, no chunks, no compression, and a fallback map from
    identifiers to texts that is used only when no client is configured.
    Its client is created with [decode_responses=True], so values go in and
    come out as [str]: the keyspace is a map from keys to texts.  The
    functions are written in state-passing style; [redis] says whether
    [REDIS] is set. *)
Module Legacy.

Record World : Type := mkWorld {
  kv : gmap string string;
  DOC_STORE : gmap string string;
  faults : list bool;
}.

(** A command sent to Redis consumes one entry of the fault schedule. *)
Definition redis_call (w : World) : outcome unit * World :=
  match faults w with
  | [] => (Returns (), w)
  | false :: fs => (Returns (), mkWorld (kv w) (DOC_STORE w) fs)
  | true :: fs => (Raises, mkWorld (kv w) (DOC_STORE w) fs)
  end.

Definition put_doc_text (redis : bool) (doc_id text : string) (w : World)
  : outcome unit * World :=
  if redis then
    match redis_call w with
    | (Returns _, w1) =>
      (Returns (),
       mkWorld (<[single_key doc_id := text]> (kv w1)) (DOC_STORE w1) (faults w1))
    | (Raises, w1) => (Raises, w1)
    end
  else
    (Returns (), mkWorld (kv w) (<[doc_id := text]> (DOC_STORE w)) (faults w)).

Definition get_doc_text (redis : bool) (doc_id : string) (w : World)
  : outcome string * World :=
  if str_empty doc_id then (Returns EmptyString, w) else
  if redis then
    match redis_call w with
    | (Returns _, w1) =>
      (Returns (default EmptyString (kv w1 !! single_key doc_id)), w1)
    | (Raises, w1) => (Raises, w1)
    end
  else (Returns (default EmptyString (DOC_STORE w !! doc_id)), w).

Definition clear_doc (redis : bool) (doc_id : option string) (w : World)
  : outcome unit * World :=
  match doc_id with
  | None => (Returns (), w)
  | Some doc_id =>
    if str_empty doc_id then (Returns (), w) else
    if redis then
      match redis_call w with
      | (Returns _, w1) =>
        (Returns (),
         mkWorld (delete (single_key doc_id) (kv w1)) (DOC_STORE w1) (faults w1))
      | (Raises, w1) => (Returns (), w1)
      end
    else
      (Returns (), mkWorld (kv w) (delete doc_id (DOC_STORE w)) (faults w))
  end.

End Legacy.

(** ** A reference instance of the library

    A small codec with gzip's observable contract (two magic bytes in front,
    the empty input decompresses to the empty output as it does in CPython)
    and a parser that accepts exactly the meta records [json.dumps] prints.
    It shows that the laws of [PyLib] can be met and lets the store run on
    concrete inputs. *)
Module Reference.

Definition compress (data : bytes) : bytes := x1f :: x8b :: data.

Definition decompress (data : bytes) : option bytes :=
  match data with
  | [] => Some []
  | x1f :: x8b :: rest => Some rest
  | _ => None
  end.

Fixpoint strip_prefix (p s : string) : option string :=
  match p, s with
  | EmptyString, _ => Some s
  | String a p', String b s' => if Ascii.eqb a b then strip_prefix p' s' else None
  | String _ _, EmptyString => None
  end.

(** The characters before the first [stop], and the rest from [stop] on. *)
Fixpoint span_until (stop : ascii) (s : string) : string * string :=
  match s with
  | EmptyString => (EmptyString, EmptyString)
  | String a s' =>
    if Ascii.eqb a stop then (EmptyString, s)
    else let '(before, rest) := span_until stop s' in (String a before, rest)
  end.

(** A decimal integer in the form [str_int] prints, up to [stop]. *)
Definition read_int (stop : ascii) (s : string) : option (Z * string) :=
  let '(digits, rest) := span_until stop s in
  d ← NilZero.int_of_string digits;
  let z := Z.of_int d in
  if String.eqb (str_int z) digits then Some (z, rest) else None.

Definition read_bool (s : string) : option bool :=
  if String.eqb s "true}" then Some true
  else if String.eqb s "false}" then Some false
  else None.

Definition loads (s : string) : option JVal :=
  s ← strip_prefix ("{" +:+ json_field "chunks" "") s;
  '(n, s) ← read_int "," s;
  s ← strip_prefix (", " +:+ json_field "orig_bytes" "") s;
  '(o, s) ← read_int "," s;
  s ← strip_prefix (", " +:+ json_field "stored_bytes" "") s;
  '(st, s) ← read_int "," s;
  s ← strip_prefix (", " +:+ json_field "compressed" "") s;
  c ← read_bool s;
  Some (meta_dict n o st c).

Definition int_of_decimal (s : string) : option Z :=
  Z.of_int <$> NilZero.int_of_string s.

Definition decode_or_mark (b : bytes) : string :=
  default "?" (utf8_decode b).

Definition is_space (a : ascii) : bool :=
  Ascii.eqb a " " || ((9 <=? N_of_ascii a) && (N_of_ascii a <=? 13))%N.

(** Number of maximal runs of non-blank characters. *)
Fixpoint count_words (in_word : bool) (s : string) : Z :=
  match s with
  | EmptyString => 0
  | String a s' =>
    if is_space a then count_words false s'
    else (if in_word then 0 else 1) + count_words true s'
  end.

Fixpoint all_chars (P : ascii → bool) (s : string) : bool :=
  match s with
  | EmptyString => true
  | String a s' => P a && all_chars P s'
  end.

Definition not_comma (a : ascii) : bool := negb (Ascii.eqb a ",").

End Reference.

(** * Properties *)

(** ** Decimal printing and keys *)

Lemma to_int_printable (z : Z) :
  Z.to_int z ≠ Decimal.Pos Decimal.Nil ∧ Z.to_int z ≠ Decimal.Neg Decimal.Nil.
Proof.
  destruct z as [|p|p]; simpl; split; try discriminate;
    intros [= Hp]; exact (DecimalPos.Unsigned.to_uint_nonnil p Hp).
Qed.

Lemma int_of_str_int (z : Z) :
  NilZero.int_of_string (str_int z) = Some (Z.to_int z).
Proof.
  unfold str_int. destruct (to_int_printable z). by apply NilZero.isi.
Qed.

Global Instance str_int_inj : Inj (=) (=) str_int.
Proof.
  intros a b Hab. apply DecimalZ.to_int_inj.
  assert (Hs : Some (Z.to_int a) = Some (Z.to_int b))
    by (rewrite <- !int_of_str_int; by rewrite Hab).
  by injection Hs.
Qed.

Global Instance chunk_key_inj (doc_id : string) : Inj (=) (=) (chunk_key doc_id).
Proof.
  intros i j Hij. unfold chunk_key in Hij.
  by do 3 apply String.app_inj in Hij; apply str_int_inj.
Qed.

Lemma string_app_length (s1 s2 : string) :
  String.length (s1 +:+ s2) = (String.length s1 + String.length s2)%nat.
Proof.
  induction s1 as [|a s1 IH]; [done|].
  change (S (String.length (s1 +:+ s2)) = S (String.length s1 + String.length s2))%nat.
  by rewrite IH.
Qed.

Lemma single_key_ne_meta_key (doc_id : string) : single_key doc_id ≠ meta_key doc_id.
Proof.
  unfold single_key, meta_key. intros Heq.
  apply (f_equal String.length) in Heq.
  rewrite !string_app_length in Heq. simpl in Heq. lia.
Qed.

Lemma single_key_ne_chunk_key (doc_id : string) (i : Z) :
  single_key doc_id ≠ chunk_key doc_id i.
Proof.
  unfold single_key, chunk_key. intros Heq.
  apply (f_equal String.length) in Heq.
  rewrite !string_app_length in Heq. simpl in Heq. lia.
Qed.

Lemma meta_key_ne_chunk_key (doc_id : string) (i : Z) :
  meta_key doc_id ≠ chunk_key doc_id i.
Proof.
  unfold meta_key, chunk_key. intros Heq.
  do 2 apply String.app_inj in Heq. discriminate Heq.
Qed.

(** ** The reference instance meets the laws *)

Module ReferenceLaws.
Import Reference.
#[local] Arguments String.append : simpl nomatch.

Lemma uint_not_comma (d : Decimal.uint) :
  all_chars not_comma (NilEmpty.string_of_uint d) = true.
Proof. induction d; simpl; auto. Qed.

Lemma str_int_not_comma (z : Z) : all_chars not_comma (str_int z) = true.
Proof.
  unfold str_int.
  destruct (Z.to_int z) as [d|d]; simpl; destruct d; simpl;
    auto using uint_not_comma.
Qed.

Lemma strip_prefix_app (p s : string) : strip_prefix p (p +:+ s) = Some s.
Proof.
  induction p as [|a p IH]; simpl; [by destruct s|].
  by rewrite Ascii.eqb_refl.
Qed.

Lemma span_until_app (s r : string) :
  all_chars not_comma s = true →
  span_until "," (s +:+ String "," r) = (s, String "," r).
Proof.
  induction s as [|a s IH]; simpl; [done|].
  intros [Ha Hs]%andb_true_iff. unfold not_comma in Ha.
  apply negb_true_iff in Ha. rewrite Ha, IH by done. done.
Qed.

Lemma read_int_str_int (z : Z) (r : string) :
  read_int "," (str_int z +:+ String "," r) = Some (z, String "," r).
Proof.
  unfold read_int. rewrite span_until_app by apply str_int_not_comma.
  rewrite int_of_str_int. simpl.
  rewrite DecimalZ.of_to, String.eqb_refl. done.
Qed.

Lemma app_assoc_string (a b c : string) : (a +:+ b) +:+ c = a +:+ (b +:+ c).
Proof. induction a as [|x a IH]; simpl; [done | by rewrite IH]. Qed.

Lemma loads_dumps (n o s : Z) (c : bool) :
  loads (json_dumps_meta n o s c) = Some (meta_dict n o s c).
Proof.
  unfold loads, json_dumps_meta, json_field.
  rewrite !app_assoc_string.
  change (", " +:+ ?x) with (String "," (" " +:+ x)).
  repeat (rewrite ?strip_prefix_app; simpl;
          rewrite ?Ascii.eqb_refl, ?read_int_str_int; simpl).
  by destruct c.
Qed.

End ReferenceLaws.

#[export] Instance reference_lib : PyLib := {|
  gzip_compress := Reference.compress;
  gzip_decompress := Reference.decompress;
  json_loads := Reference.loads;
  int_of_str := Reference.int_of_decimal;
  decode_replace := Reference.decode_or_mark;
  split_count := Reference.count_words false;
  gzip_roundtrip := λ b, eq_refl;
  json_loads_dumps := ReferenceLaws.loads_dumps;
|}.

(** ** Worked scenarios *)

(** Configurations and worlds for the worked examples. *)
Module Examples.
(** No compression, two-byte chunks, at most four bytes under one key. *)
Definition small_chunks : Config := mkConfig true 86400 0 2 4.
(** Compression from three bytes on, at most eight bytes under one key. *)
Definition small_compressing : Config := mkConfig true 86400 3 2 8.
(** The defaults with [COMPRESS_THRESHOLD=0]. *)
Definition threshold_zero : Config :=
  mkConfig true 86400 0 (4 * 1024 * 1024) (100 * 1024 * 1024).
(** An empty keyspace, an empty fallback map, a healthy backend. *)
Definition fresh : World := mkWorld ∅ ∅ 0 [].
End Examples.

(** The same document written, overwritten, cleared and damaged. *)
Module Scenario.
Import Examples.

(** ["a"] written under ["d"]: single-key form. *)
Definition small_written : World :=
  (put_doc_text small_chunks "d" "a" fresh).2.

(** Then ["abcdefg"] written under ["d"]: seven bytes, more than fit under
    one key, so chunked form. *)
Definition large_over_small : World :=
  (put_doc_text small_chunks "d" "abcdefg" small_written).2.

(** ["abcdefg"] written under a fresh ["d"]: chunked form. *)
Definition large_written : World :=
  (put_doc_text small_chunks "d" "abcdefg" fresh).2.

(** Then ["xy"] written under ["d"]: single-key form. *)
Definition small_over_large : World :=
  (put_doc_text small_chunks "d" "xy" large_written).2.

(** ... and the document cleared. *)
Definition cleared : World :=
  (clear_doc small_chunks (Some "d") small_over_large).2.

End Scenario.

(** ** Running the primitives *)

Ltac py_unfold :=
  repeat
    (progress
       (unfold mbind, mret, Py_bind, Py_ret, try_except, or_raise, raise,
          redis_call, REDIS_get, REDIS_setex, REDIS_delete, REDIS_exists,
          REDIS_ping, pipeline_execute, read_kv, update_kv, time_time,
          DOC_STORE_set, DOC_STORE_get, DOC_STORE_pop,
          with_kv, with_DOC_STORE, with_faults in *;
        cbn [kv DOC_STORE clock faults fst snd negb] in *)).

Lemma str_empty_false (s : string) : s ≠ "" → str_empty s = false.
Proof. by destruct s. Qed.

Lemma str_empty_true (s : string) : str_empty s = true → s = "".
Proof. by destruct s. Qed.

Lemma bytes_empty_false (b : bytes) : b ≠ [] → bytes_empty b = false.
Proof. by destruct b. Qed.

Lemma forget_fallback_run (doc_id : string) (w : World) :
  forget_fallback doc_id w = (Returns (), with_DOC_STORE (delete doc_id) w).
Proof.
  unfold forget_fallback. py_unfold.
  destruct (DOC_STORE w !! doc_id) eqn:Hd; [done|].
  destruct w as [m d c fs]. cbn in *. by rewrite delete_id.
Qed.

(** ** Fallback mode *)

Section Fallback.
Context `{PyLib} (cfg : Config).
Hypothesis no_redis : REDIS_present cfg = false.

Lemma put_fallback (doc_id text : string) (w : World) :
  doc_id ≠ "" →
  put_doc_text cfg doc_id text w
  = (Returns true, with_DOC_STORE (insert doc_id (clock w, text)) w).
Proof.
  intros Hid. unfold put_doc_text. rewrite str_empty_false by done.
  destruct (maybe_compress _ _) as [to_store compressed].
  rewrite no_redis. reflexivity.
Qed.

Lemma get_fallback (doc_id : string) (w : World) :
  get_doc_text cfg doc_id w = fallback_lookup cfg doc_id w ∨ doc_id = "".
Proof.
  destruct doc_id; [by right|left].
  unfold get_doc_text. rewrite no_redis. reflexivity.
Qed.

Lemma clear_fallback (doc_id : string) (w : World) :
  doc_id ≠ "" →
  clear_doc cfg (Some doc_id) w
  = (Returns true, with_DOC_STORE (delete doc_id) w).
Proof.
  intros Hid. unfold clear_doc. rewrite str_empty_false by done.
  rewrite no_redis. unfold mbind, Py_bind, mret, Py_ret.
  by rewrite forget_fallback_run.
Qed.
End Fallback.

(** C8. With no remote backend, [put_doc_text] records the raw text with the
    current time in [DOC_STORE] and returns [True]; [get_doc_text] returns
    the recorded text unless [now - timestamp > DOC_TTL_SECONDS], in which
    case it evicts the entry and returns the empty string; [clear_doc]
    removes the entry; [redis_healthy] returns [False].  No call touches the
    remote keyspace. *)
Theorem fallback_mode `{PyLib} (cfg : Config) (doc_id text : string) (w : World) :
  REDIS_present cfg = false →
  doc_id ≠ "" →
  put_doc_text cfg doc_id text w
    = (Returns true, with_DOC_STORE (insert doc_id (clock w, text)) w)
  ∧ (∀ ts txt, DOC_STORE w !! doc_id = Some (ts, txt) →
       get_doc_text cfg doc_id w
       = if DOC_TTL_SECONDS cfg <? clock w - ts
         then (Returns "", with_DOC_STORE (delete doc_id) w)
         else (Returns txt, w))
  ∧ (DOC_STORE w !! doc_id = None → get_doc_text cfg doc_id w = (Returns "", w))
  ∧ clear_doc cfg (Some doc_id) w
    = (Returns true, with_DOC_STORE (delete doc_id) w)
  ∧ redis_healthy cfg w = (Returns false, w).
Proof.
  intros Hno Hid. repeat split.
  - by apply put_fallback.
  - intros ts txt Hd.
    destruct (get_fallback cfg Hno doc_id w) as [-> | ?]; [|done].
    unfold fallback_lookup. py_unfold. rewrite Hd. py_unfold.
    by destruct (_ <? _).
  - intros Hd.
    destruct (get_fallback cfg Hno doc_id w) as [-> | ?]; [|done].
    unfold fallback_lookup. py_unfold. by rewrite Hd.
  - by apply clear_fallback.
  - unfold redis_healthy. by rewrite Hno.
Qed.

Lemma fallback_mode_witness :
  let cfg := default_config false in
  let w := mkWorld ∅ ∅ 100 [] in
  put_doc_text cfg "d1" "hello world" w
    = (Returns true, with_DOC_STORE (insert "d1" (100, "hello world")) w)
  ∧ redis_healthy cfg w = (Returns false, w).
Proof.
  intros cfg w.
  destruct (fallback_mode cfg "d1" "hello world" w) as (Hput & _ & _ & _ & Hh);
    [reflexivity | discriminate | by split].
Defined.

(** ** Slices and chunk counts *)

Lemma len_nonneg {A : Type} (l : list A) : 0 ≤ len l.
Proof. unfold len. lia. Qed.

Lemma len_app {A : Type} (l k : list A) : len (l ++ k) = len l + len k.
Proof. unfold len. rewrite length_app. lia. Qed.

(** With ordinary bounds a slice is [take] after [drop]. *)
Lemma py_slice_take_drop {A : Type} (l : list A) (start stop : Z) :
  0 ≤ start ≤ stop →
  py_slice l start stop
  = take (Z.to_nat (stop - start)) (drop (Z.to_nat start) l).
Proof.
  intros Hb. unfold py_slice, clip_index, len.
  destruct (Z.ltb_spec start 0), (Z.ltb_spec stop 0); try lia.
  destruct (Z.le_gt_cases (Z.of_nat (length l)) start) as [Hge|Hlt].
  - rewrite !Z.min_r by lia.
    rewrite (drop_ge l (Z.to_nat start)), drop_ge by lia. by rewrite !take_nil.
  - rewrite (Z.min_l start) by lia. apply Z.min_case_strong; intros Hm; [done|].
    rewrite !take_ge; [done | rewrite length_drop; lia ..].
Qed.

Lemma ceil_div_spec (a b n : Z) :
  ceil_div a b = Some n → 0 < b → (n - 1) * b < a ≤ n * b.
Proof.
  unfold ceil_div. destruct (Z.eqb_spec b 0); [done|]. intros [= <-] Hb.
  pose proof (Z.div_mod (- a) b ltac:(lia)).
  pose proof (Z.mod_pos_bound (- a) b Hb). nia.
Qed.

Lemma ceil_div_pos (a b : Z) : b ≠ 0 → is_Some (ceil_div a b).
Proof. intros Hb. unfold ceil_div. destruct (Z.eqb_spec b 0); [done|eauto]. Qed.

Section Chunks.
Context (cfg : Config).
Hypothesis chunk_size_pos : 0 < _CHUNK_SIZE cfg.

(** Chunk [i] is the byte range from [i * C] of length at most [C]. *)
Lemma chunk_slice_range (gz : bytes) (i : Z) :
  0 ≤ i →
  chunk_slice cfg gz i
  = take (Z.to_nat (_CHUNK_SIZE cfg)) (drop (Z.to_nat (i * _CHUNK_SIZE cfg)) gz).
Proof.
  intros Hi. unfold chunk_slice. rewrite py_slice_take_drop by nia.
  do 2 f_equal. lia.
Qed.


(** The first [k] chunks, concatenated, are the first [k * C] bytes. *)
Lemma concat_chunks_take (gz : bytes) (k : nat) :
  concat (chunk_slice cfg gz <$> seqZ 0 (Z.of_nat k))
  = take (Z.to_nat (Z.of_nat k * _CHUNK_SIZE cfg)) gz.
Proof.
  induction k as [|k IH].
  - by rewrite seqZ_nil.
  - rewrite seqZ_S, fmap_app, concat_app, IH. cbn [fmap list_fmap concat].
    rewrite app_nil_r, chunk_slice_range by lia.
    rewrite Z.add_0_l, take_take_drop. f_equal. nia.
Qed.

Lemma concat_chunks (gz : bytes) (n : Z) :
  ceil_div (len gz) (_CHUNK_SIZE cfg) = Some n →
  concat (chunk_slice cfg gz <$> seqZ 0 n) = gz.
Proof.
  intros Hn. pose proof (ceil_div_spec _ _ _ Hn chunk_size_pos) as Hb.
  pose proof (len_nonneg gz) as Hl.
  assert (0 ≤ n) by nia.
  rewrite <- (Z2Nat.id n) by done.
  rewrite concat_chunks_take, take_ge; [done|]. unfold len in *. nia.
Qed.

(** What the buffered chunk writes leave in the keyspace. *)
Lemma chunk_commands_lookup (doc_id : string) (gz : bytes) (k : nat)
    (m : gmap string bytes) :
  let m' := foldl apply_setex m (chunk_commands cfg doc_id gz (Z.of_nat k)) in
  (∀ i, 0 ≤ i < Z.of_nat k →
     m' !! chunk_key doc_id i = Some (chunk_slice cfg gz i))
  ∧ (∀ key, (∀ i, 0 ≤ i < Z.of_nat k → key ≠ chunk_key doc_id i) →
       m' !! key = m !! key).
Proof.
  induction k as [|k [IHin IHout]]; cbn zeta.
  - split; [lia|]. intros key _. unfold chunk_commands. by rewrite seqZ_nil.
  - unfold chunk_commands in *. rewrite seqZ_S, fmap_app, foldl_app.
    cbn [fmap list_fmap foldl]. unfold apply_setex at 1 3. cbn [fst snd].
    rewrite Z.add_0_l. split.
    + intros i Hi. destruct (decide (i = Z.of_nat k)) as [->|Hne].
      * by rewrite lookup_insert_eq.
      * rewrite lookup_insert_ne by (intros Heq; by apply chunk_key_inj in Heq).
        apply IHin. lia.
    + intros key Hkey. rewrite lookup_insert_ne by (apply not_eq_sym, Hkey; lia).
      apply IHout. intros i Hi. apply Hkey. lia.
Qed.
End Chunks.

(** ** What [put_doc_text] leaves behind *)

Lemma with_faults_id (w : World) : with_faults (faults w) w = w.
Proof. by destruct w. Qed.

(** A command either goes through or raises; either way it only consumes
    the fault schedule. *)
Lemma redis_call_cases (w : World) :
  ∃ fs, redis_call w = (Returns (), with_faults fs w)
      ∨ redis_call w = (Raises, with_faults fs w).
Proof.
  destruct w as [m d c [|[] fs]];
    [exists []; by left | exists fs; by right | exists fs; by left].
Qed.

Section Put.
Context `{PyLib} (cfg : Config).

Lemma chunk_writes_lookup (doc_id : string) (gz : bytes) (n : Z)
    (m : gmap string bytes) :
  let m' := foldl apply_setex m (chunk_commands cfg doc_id gz n) in
  (∀ i, 0 ≤ i < n → m' !! chunk_key doc_id i = Some (chunk_slice cfg gz i))
  ∧ (∀ key, (∀ i, 0 ≤ i < n → key ≠ chunk_key doc_id i) → m' !! key = m !! key).
Proof.
  destruct (Z.le_gt_cases n 0) as [Hn|Hn].
  - unfold chunk_commands. rewrite seqZ_nil by done. split; [lia|done].
  - rewrite <- (Z2Nat.id n) by lia. apply chunk_commands_lookup.
Qed.

Lemma chunked_write_unfold (doc_id : string) (gz : bytes) (size : Z)
    (compressed : bool) (n : Z) (m : gmap string bytes) :
  chunked_write cfg doc_id gz size compressed n m
  = <[meta_key doc_id :=
        utf8_encode (json_dumps_meta n size (len gz) compressed)]>
      (foldl apply_setex m (chunk_commands cfg doc_id gz n)).
Proof. unfold chunked_write. by rewrite foldl_snoc. Qed.

Lemma chunked_write_lookup (doc_id : string) (gz : bytes) (size : Z)
    (compressed : bool) (n : Z) (m : gmap string bytes) :
  let m' := chunked_write cfg doc_id gz size compressed n m in
  m' !! meta_key doc_id
    = Some (utf8_encode (json_dumps_meta n size (len gz) compressed))
  ∧ (∀ i, 0 ≤ i < n → m' !! chunk_key doc_id i = Some (chunk_slice cfg gz i))
  ∧ (∀ key, key ≠ meta_key doc_id →
       (∀ i, 0 ≤ i < n → key ≠ chunk_key doc_id i) → m' !! key = m !! key).
Proof.
  cbn zeta. rewrite chunked_write_unfold.
  destruct (chunk_writes_lookup doc_id gz n m) as [Hin Hout].
  repeat split.
  - by rewrite lookup_insert_eq.
  - intros i Hi. rewrite lookup_insert_ne by apply meta_key_ne_chunk_key. auto.
  - intros key Hmeta Hkey. rewrite lookup_insert_ne by done. auto.
Qed.

Lemma chunked_write_form (doc_id : string) (gz : bytes) (size : Z)
    (compressed : bool) (n : Z) (m : gmap string bytes) :
  ceil_div (len gz) (_CHUNK_SIZE cfg) = Some n →
  chunked_form cfg doc_id gz size compressed
    (chunked_write cfg doc_id gz size compressed n m).
Proof.
  intros Hn. exists n.
  destruct (chunked_write_lookup doc_id gz size compressed n m) as (? & ? & _).
  done.
Qed.


End Put.

Section PutAlways.
Context `{PyLib} (cfg : Config).



End PutAlways.


(** ** A healthy backend *)

Section Healthy.
Context `{PyLib} (cfg : Config).
Hypothesis redis : REDIS_present cfg = true.

Lemma put_single_key_healthy (doc_id : string) (to_store : bytes)
    (compressed : bool) (m : gmap string bytes) (d : gmap string (Z * string))
    (c : Z) :
  put_single_key cfg doc_id to_store compressed (mkWorld m d c [])
  = (Returns true,
     mkWorld (delete (meta_key doc_id)
                (<[single_key doc_id := single_payload to_store compressed]> m))
             d c []).
Proof.
  unfold put_single_key, _store_in_redis_raw. rewrite redis. reflexivity.
Qed.

Lemma put_chunked_healthy (doc_id text : string) (size : Z) (to_store : bytes)
    (compressed : bool) (n : Z) (m : gmap string bytes)
    (d : gmap string (Z * string)) (c : Z) :
  ceil_div (len to_store) (_CHUNK_SIZE cfg) = Some n →
  put_chunked cfg doc_id text size to_store compressed (mkWorld m d c [])
  = (Returns true,
     mkWorld (chunked_write cfg doc_id to_store size compressed n m) d c []).
Proof.
  intros Hn. unfold put_chunked. py_unfold. rewrite Hn. reflexivity.
Qed.

Lemma put_doc_text_healthy (doc_id text : string) (m : gmap string bytes)
    (d : gmap string (Z * string)) (c : Z) :
  doc_id ≠ "" →
  _CHUNK_SIZE cfg ≠ 0 →
  put_doc_text cfg doc_id text (mkWorld m d c [])
  = (Returns true, mkWorld (stored_keyspace cfg doc_id text m) d c []).
Proof.
  intros Hid Hc. unfold put_doc_text, stored_keyspace.
  rewrite (str_empty_false _ Hid), redis.
  destruct (maybe_compress cfg (utf8_encode text)) as [to_store compressed].
  cbn [negb]. unfold mbind, Py_bind.
  destruct (len to_store <=? _MAX_SINGLE_KEY cfg).
  - by rewrite put_single_key_healthy.
  - unfold mret, Py_ret.
    destruct (ceil_div_pos (len to_store) _ Hc) as [n Hn].
    rewrite Hn. by apply put_chunked_healthy.
Qed.
End Healthy.




(** ** The compression policy *)

Lemma startswith_app (prefix rest : bytes) : startswith (prefix ++ rest) prefix = true.
Proof.
  induction prefix as [|b prefix IH]; [by destruct rest|].
  cbn. rewrite IH. by rewrite (byte_dec_lb eq_refl).
Qed.

Lemma maybe_compress_flag `{PyLib} (cfg : Config) (raw_bytes : bytes) :
  (maybe_compress cfg raw_bytes).2 = true
  ↔ COMPRESS_THRESHOLD cfg ≠ 0 ∧ COMPRESS_THRESHOLD cfg ≤ len raw_bytes.
Proof.
  unfold maybe_compress.
  destruct (Z.eqb_spec (COMPRESS_THRESHOLD cfg) 0),
    (Z.leb_spec (COMPRESS_THRESHOLD cfg) (len raw_bytes)); cbn; intuition lia.
Qed.

Lemma maybe_compress_bytes `{PyLib} (cfg : Config) (raw_bytes : bytes) :
  (maybe_compress cfg raw_bytes).1
  = if (maybe_compress cfg raw_bytes).2 then gzip_compress raw_bytes else raw_bytes.
Proof. unfold maybe_compress. by destruct (_ && _). Qed.

(** C4, as the code has it.  [put_doc_text] compresses exactly when
    [COMPRESS_THRESHOLD] is non-zero and the UTF-8 byte length of the text is
    at least [COMPRESS_THRESHOLD]: a text of [COMPRESS_THRESHOLD - 1] bytes is
    kept raw, one of exactly [COMPRESS_THRESHOLD] (non-zero) bytes is
    compressed whatever the result's size.  The single-key value is the
    marker [gzip:] followed by the gzip stream when the text was compressed,
    and the raw UTF-8 bytes, with nothing put in front, when it was not. *)
Theorem compression_policy `{PyLib} (cfg : Config) (doc_id text : string)
    (w : World) :
  let T := COMPRESS_THRESHOLD cfg in
  let raw_bytes := utf8_encode text in
  let compressed := (maybe_compress cfg raw_bytes).2 in
  let to_store := (maybe_compress cfg raw_bytes).1 in
  (compressed = true ↔ T ≠ 0 ∧ T ≤ len raw_bytes)
  ∧ (len raw_bytes = T - 1 → compressed = false)
  ∧ (len raw_bytes = T → T ≠ 0 → compressed = true)
  ∧ to_store = (if compressed then gzip_compress raw_bytes else raw_bytes)
  ∧ (REDIS_present cfg = true → faults w = [] → doc_id ≠ "" →
     len to_store ≤ _MAX_SINGLE_KEY cfg →
     ∃ w', put_doc_text cfg doc_id text w = (Returns true, w')
       ∧ kv w' !! single_key doc_id
         = Some (if compressed
                 then _MARKER_COMPRESSED ++ gzip_compress raw_bytes
                 else raw_bytes)
       ∧ (compressed = true →
          ∃ v, kv w' !! single_key doc_id = Some v
             ∧ startswith v _MARKER_COMPRESSED = true)).
Proof.
  cbn zeta. pose proof (maybe_compress_flag cfg (utf8_encode text)) as Hflag.
  pose proof (maybe_compress_bytes cfg (utf8_encode text)) as Hbytes.
  split; [done|]. split; [|split; [|split; [done|]]].
  - intros Hlen. destruct (maybe_compress _ _).2; [|done].
    destruct Hflag as [Hflag _]. specialize (Hflag eq_refl). lia.
  - intros Hlen HT. apply Hflag. lia.
  - intros Hredis Hf Hid Hfit.
    destruct w as [m d c fs]. cbn in Hf. subst fs.
    unfold put_doc_text. rewrite (str_empty_false _ Hid), Hredis.
    destruct (maybe_compress cfg (utf8_encode text)) as [to_store compressed].
    cbn [fst snd negb] in *. unfold mbind, Py_bind.
    destruct (Z.leb_spec (len to_store) (_MAX_SINGLE_KEY cfg)); [|lia].
    rewrite put_single_key_healthy by done.
    eexists. split; [reflexivity|]. cbn [kv].
    rewrite lookup_delete_ne by apply not_eq_sym, single_key_ne_meta_key.
    rewrite lookup_insert_eq. unfold single_payload. subst to_store.
    split; [by destruct compressed|].
    intros ->. eexists. split; [reflexivity|]. apply startswith_app.
Qed.

Lemma compression_policy_witness :
  ∃ w', put_doc_text Examples.small_compressing "d" "abc" Examples.fresh
        = (Returns true, w')
      ∧ kv w' !! single_key "d"
        = Some (_MARKER_COMPRESSED ++ gzip_compress (utf8_encode "abc")).
Proof.
  pose proof (compression_policy Examples.small_compressing "d" "abc"
                Examples.fresh) as (_ & _ & _ & _ & Hput).
  destruct Hput as (w' & Hput & Hkv & _);
    [reflexivity | reflexivity | discriminate | vm_compute; discriminate |].
  exists w'. split; [exact Hput | exact Hkv].
Defined.

(** The claim as stated fails twice.  With [COMPRESS_THRESHOLD=0] a text of
    three bytes has at least [COMPRESS_THRESHOLD] bytes and is stored raw;
    with the default threshold the short text [gzip:abc] is not compressed,
    yet its single-key value begins with the bytes [gzip:]. *)
Lemma compression_policy_counterexample :
  (COMPRESS_THRESHOLD Examples.threshold_zero ≤ len (utf8_encode "abc")
   ∧ (maybe_compress Examples.threshold_zero (utf8_encode "abc")).2 = false
   ∧ kv (put_doc_text Examples.threshold_zero "d" "abc" Examples.fresh).2
       !! single_key "d"
     = Some (utf8_encode "abc"))
  ∧ ((maybe_compress (default_config true) (utf8_encode "gzip:abc")).2 = false
     ∧ kv (put_doc_text (default_config true) "d" "gzip:abc" Examples.fresh).2
         !! single_key "d"
       = Some (utf8_encode "gzip:abc")
     ∧ startswith (utf8_encode "gzip:abc") _MARKER_COMPRESSED = true).
Proof. by vm_compute. Qed.

(** ** Reading under any fault schedule *)


Lemma REDIS_get_cases (key : string) (w : World) :
  ∃ fs, REDIS_get key w = (Returns (kv w !! key), with_faults fs w)
      ∨ REDIS_get key w = (Raises, with_faults fs w).
Proof.
  destruct w as [m d c [|[] fs]];
    [exists []; by left | exists fs; by right | exists fs; by left].
Qed.

Section Reading.
Context `{PyLib} (cfg : Config).




End Reading.



(** ** Decoding a single-key value *)

Lemma utf8_decode_encode (t : string) :
  is_text t → utf8_decode (utf8_encode t) = Some t.
Proof.
  unfold is_text, utf8_decode, utf8_encode. intros ->.
  by rewrite string_of_list_byte_of_string.
Qed.

Lemma utf8_encode_empty (t : string) : utf8_encode t = [] → t = "".
Proof.
  intros Ht. rewrite <- (string_of_list_byte_of_string t).
  unfold utf8_encode in Ht. by rewrite Ht.
Qed.

Section Decoding.
Context `{PyLib}.

(** A value that does not start with the marker, or whose remainder does
    not decompress, is decoded as it stands. *)
Lemma decode_single_raw (raw_bytes : bytes) (w : World) :
  (startswith raw_bytes _MARKER_COMPRESSED = true →
   gzip_decompress (drop (length _MARKER_COMPRESSED) raw_bytes) = None) →
  decode_single raw_bytes w = (Returns (default "" (utf8_decode raw_bytes)), w).
Proof.
  intros Hgz. unfold decode_single, _gzip_decompress_bytes.
  destruct (startswith raw_bytes _MARKER_COMPRESSED).
  - rewrite Hgz by done. py_unfold. by destruct (utf8_decode raw_bytes).
  - py_unfold. by destruct (utf8_decode raw_bytes).
Qed.

Lemma decode_single_compressed (gz data : bytes) (s : string) (w : World) :
  gzip_decompress gz = Some data →
  utf8_decode data = Some s →
  decode_single (_MARKER_COMPRESSED ++ gz) w = (Returns s, w).
Proof.
  intros Hgz Hs. unfold decode_single, _gzip_decompress_bytes.
  rewrite startswith_app, drop_app_length, Hgz. py_unfold.
  by rewrite Hs.
Qed.
End Decoding.

(** C10.  A text whose UTF-8 encoding begins with the bytes [gzip:] and goes
    on with bytes that [gzip.decompress] rejects, stored raw under the single
    key, is read back unchanged: decompression of the remainder fails, and
    the reader decodes the whole stored value, marker bytes included. *)
Theorem marker_prefixed_text_is_read_back `{PyLib} (cfg : Config)
    (doc_id t : string) (rest : bytes) (w : World) :
  REDIS_present cfg = true →
  faults w = [] →
  doc_id ≠ "" →
  is_text t →
  utf8_encode t = _MARKER_COMPRESSED ++ rest →
  gzip_decompress rest = None →
  kv w !! single_key doc_id = Some (utf8_encode t) →
  _gzip_decompress_bytes (drop (length _MARKER_COMPRESSED) (utf8_encode t)) w
    = (Raises, w)
  ∧ decode_single (utf8_encode t) w = (Returns t, w)
  ∧ get_doc_text cfg doc_id w = (Returns t, w).
Proof.
  intros Hredis Hf Hid Ht Hrest Hgz Hkv.
  assert (Hdrop : drop (length _MARKER_COMPRESSED) (utf8_encode t) = rest)
    by (by rewrite Hrest, drop_app_length).
  assert (Hdec : decode_single (utf8_encode t) w = (Returns t, w)).
  { rewrite decode_single_raw by (by rewrite Hdrop).
    by rewrite utf8_decode_encode. }
  split; [|split; [done|]].
  - unfold _gzip_decompress_bytes. by rewrite Hdrop, Hgz.
  - destruct w as [m d c fs]. cbn in Hf, Hkv. subst fs.
    unfold get_doc_text. rewrite (str_empty_false _ Hid), Hredis.
    py_unfold. rewrite Hkv. cbn [_decode_redis_value]. rewrite Hdec.
    destruct t; [discriminate Hrest | done].
Qed.

Lemma marker_prefixed_text_is_read_back_witness :
  get_doc_text (default_config true) "d"
    (mkWorld {[ single_key "d" := utf8_encode "gzip:abc" ]} ∅ 0 [])
  = (Returns "gzip:abc",
     mkWorld {[ single_key "d" := utf8_encode "gzip:abc" ]} ∅ 0 []).
Proof.
  apply (marker_prefixed_text_is_read_back (default_config true) "d" "gzip:abc"
           (utf8_encode "abc"));
    [reflexivity | reflexivity | discriminate | reflexivity | reflexivity
    | reflexivity | reflexivity].
Defined.

(** ** Deleting keys *)

Lemma count_present_single (m : gmap string bytes) (key : string) :
  count_present m [key] = match m !! key with Some _ => 1 | None => 0 end.
Proof.
  unfold count_present. cbn [remove_dups].
  destruct (decide_rel elem_of key []) as [Hin|_]; [by apply elem_of_nil in Hin|].
  rewrite filter_cons, filter_nil.
  destruct (m !! key) eqn:Hkey; case_decide as Hd; try done.
  destruct Hd. by eauto.
Qed.

Lemma lookup_delete_all (keys : list string) (m : gmap string bytes) (key : string) :
  delete_all keys m !! key = if decide (key ∈ keys) then None else m !! key.
Proof.
  induction keys as [|k keys IH]; cbn [delete_all foldr].
  - by rewrite decide_False by apply not_elem_of_nil.
  - fold (delete_all keys m). destruct (decide (k = key)) as [->|Hne].
    + rewrite lookup_delete_eq. by rewrite decide_True by apply list_elem_of_here.
    + rewrite lookup_delete_ne, IH by done.
      destruct (decide (key ∈ keys)).
      * by rewrite decide_True by (by apply list_elem_of_further).
      * rewrite decide_False; [done|].
        intros [? | ?]%elem_of_cons; [by subst | done].
Qed.

Lemma delete_all_delete (keys : list string) (key : string) (m : gmap string bytes) :
  delete_all keys (delete key m) = delete key (delete_all keys m).
Proof.
  induction keys as [|k keys IH]; [done|]. cbn [delete_all foldr].
  fold (delete_all keys (delete key m)) (delete_all keys m).
  by rewrite IH, delete_delete.
Qed.

(** Distinct keys that are all present cannot outnumber the keyspace. *)
Lemma present_keys_bound (f : Z → string) `{!Inj (=) (=) f} (k : nat)
    (m : gmap string bytes) :
  (∀ i, 0 ≤ i < Z.of_nat k → is_Some (m !! f i)) → (k ≤ size m)%nat.
Proof.
  revert m. induction k as [|k IH]; intros m Hpresent; [lia|].
  assert (Hk : is_Some (m !! f (Z.of_nat k))) by (apply Hpresent; lia).
  pose proof (map_size_delete_Some (f (Z.of_nat k)) m Hk) as Hsize.
  assert (size m ≠ 0%nat).
  { intros Hz%map_size_empty_iff. rewrite Hz, lookup_empty in Hk.
    by destruct Hk. }
  assert (k ≤ size (delete (f (Z.of_nat k)) m))%nat; [|lia].
  apply IH. intros i Hi. rewrite lookup_delete_ne; [apply Hpresent; lia|].
  intros Heq. apply (inj f) in Heq. lia.
Qed.

(** A finite keyspace has a first missing chunk index, so both probes have
    a place to stop. *)
Lemma first_missing_chunk (doc_id : string) (m : gmap string bytes) :
  ∃ k, 0 ≤ k ≤ Z.of_nat (size m)
     ∧ (∀ i, 0 ≤ i < k → is_Some (m !! chunk_key doc_id i))
     ∧ m !! chunk_key doc_id k = None.
Proof.
  assert (Hsearch : ∀ n : nat,
    (∀ i, 0 ≤ i < Z.of_nat n → is_Some (m !! chunk_key doc_id i))
    ∨ ∃ k, 0 ≤ k < Z.of_nat n
         ∧ (∀ i, 0 ≤ i < k → is_Some (m !! chunk_key doc_id i))
         ∧ m !! chunk_key doc_id k = None).
  { induction n as [|n [IH | IH]].
    - left. lia.
    - destruct (m !! chunk_key doc_id (Z.of_nat n)) as [v|] eqn:Hn.
      + left. intros i Hi. destruct (decide (i = Z.of_nat n)) as [->|?].
        * by rewrite Hn.
        * apply IH. lia.
      + right. exists (Z.of_nat n). repeat split; [lia | lia | done | done].
    - right. destruct IH as (k & Hk & Hrest). exists k. split; [lia | done]. }
  destruct (Hsearch (S (size m))) as [Hall | (k & Hk & Hpresent & Hmiss)].
  - pose proof (present_keys_bound (chunk_key doc_id) (S (size m)) m Hall). lia.
  - exists k. split; [lia | done].
Qed.

Section Probing.
Context (doc_id : string).

(** The probe of [clear_doc] on a healthy backend: it removes the chunks
    up to the first missing index [k] and stops there. *)
Lemma probe_delete_healthy (fuel : nat) (j k : Z) (m : gmap string bytes)
    (d : gmap string (Z * string)) (c : Z) :
  j ≤ k →
  (Z.to_nat (k - j) < fuel)%nat →
  (∀ i, j ≤ i < k → is_Some (m !! chunk_key doc_id i)) →
  m !! chunk_key doc_id k = None →
  probe_delete fuel doc_id j (mkWorld m d c [])
  = (Returns (),
     mkWorld (delete_all (chunk_key doc_id <$> seqZ j (k - j)) m) d c []).
Proof.
  revert j m. induction fuel as [|fuel IH]; intros j m Hjk Hfuel Hpresent Hk;
    [lia|].
  cbn [probe_delete]. py_unfold. rewrite count_present_single.
  destruct (decide (j = k)) as [->|Hne].
  - rewrite Hk. cbn. rewrite Z.sub_diag, seqZ_nil by done. cbn.
    by rewrite delete_id.
  - destruct (Hpresent j ltac:(lia)) as [v Hv]. rewrite Hv.
    py_unfold. cbn [Z.eqb delete_all foldr].
    rewrite IH; [|lia|lia|..].
    + rewrite (seqZ_cons j (k - j)) by lia.
      replace (Z.succ j) with (j + 1) by lia.
      replace (Z.pred (k - j)) with (k - (j + 1)) by lia.
      cbn [fmap list_fmap delete_all foldr].
      fold (delete_all (chunk_key doc_id <$> seqZ (j + 1) (k - (j + 1))) m).
      by rewrite delete_all_delete.
    + intros i Hi. rewrite lookup_delete_ne; [apply Hpresent; lia|].
      intros Heq. apply chunk_key_inj in Heq. lia.
    + rewrite lookup_delete_ne; [done|].
      intros Heq. apply chunk_key_inj in Heq. lia.
Qed.

(** Whatever the fuel, the probe returns and touches chunk keys only. *)
Lemma probe_delete_frame (fuel : nat) (j : Z) (m : gmap string bytes)
    (d : gmap string (Z * string)) (c : Z) :
  ∃ m', probe_delete fuel doc_id j (mkWorld m d c [])
        = (Returns (), mkWorld m' d c [])
      ∧ ∀ key, (∀ i, key ≠ chunk_key doc_id i) → m' !! key = m !! key.
Proof.
  revert j m. induction fuel as [|fuel IH]; intros j m.
  { by exists m. }
  cbn [probe_delete]. py_unfold. cbn [delete_all foldr].
  destruct (_ =? 0); py_unfold.
  - eexists. split; [reflexivity|]. intros key Hkey.
    by rewrite lookup_delete_ne.
  - destruct (IH (j + 1) (delete (chunk_key doc_id j) m)) as (m' & -> & Hm').
    exists m'. split; [done|]. intros key Hkey.
    rewrite Hm' by done. by rewrite lookup_delete_ne.
Qed.
End Probing.

(** ** [clear_doc] on a healthy backend *)

Section Clearing.
Context `{PyLib} (cfg : Config).
Hypothesis redis : REDIS_present cfg = true.

(** A document with no single key, no usable meta record and no fallback
    entry reads as the empty string. *)
Lemma get_doc_text_absent (doc_id : string) (m : gmap string bytes)
    (d : gmap string (Z * string)) (c : Z) :
  doc_id ≠ "" →
  m !! single_key doc_id = None →
  m !! meta_key doc_id = None ∨ m !! meta_key doc_id = Some [] →
  d !! doc_id = None →
  get_doc_text cfg doc_id (mkWorld m d c [])
  = (Returns "", mkWorld m d c []).
Proof.
  intros Hid Hsingle Hmeta Hd. unfold get_doc_text, fallback_lookup.
  rewrite (str_empty_false _ Hid), redis. py_unfold. rewrite Hsingle.
  cbn [_decode_redis_value]. rewrite (str_empty_false _ Hid), redis.
  cbn [orb negb]. unfold decode_chunked. py_unfold.
  destruct Hmeta as [-> | ->]; cbn [bytes_empty str_empty]; py_unfold;
    cbn [str_empty]; py_unfold; by rewrite Hd.
Qed.

(** The effect of [clear_chunks]: it returns, and leaves alone every key
    that is not a chunk key of [doc_id]. *)
Lemma clear_chunks_healthy (doc_id : string) (meta_raw : bytes)
    (m : gmap string bytes) (d : gmap string (Z * string)) (c : Z) :
  ∃ m', clear_chunks doc_id meta_raw (mkWorld m d c [])
        = (Returns (), mkWorld m' d c [])
      ∧ (∀ key, (∀ i, key ≠ chunk_key doc_id i) → m' !! key = m !! key)
      ∧ (∀ meta cnt, parse_meta meta_raw = Some (meta, cnt) →
           m' = delete_all (chunk_key doc_id <$> seqZ 0 cnt) m)
      ∧ (parse_meta meta_raw = None →
         ∀ k, 0 ≤ k →
           (∀ i, 0 ≤ i < k → is_Some (m !! chunk_key doc_id i)) →
           m !! chunk_key doc_id k = None →
           m' = delete_all (chunk_key doc_id <$> seqZ 0 k) m).
Proof.
  unfold clear_chunks.
  destruct (parse_meta meta_raw) as [[meta cnt]|] eqn:Hparse; py_unfold.
  - exists (delete_all (chunk_key doc_id <$> seqZ 0 cnt) m). split.
    { by destruct (chunk_key doc_id <$> seqZ 0 cnt). }
    split; [|split; [by intros ?? [= _ <-] | done]].
    intros key Hkey. rewrite lookup_delete_all.
    rewrite decide_False; [done|].
    intros (i & -> & _)%list_elem_of_fmap. by apply (Hkey i).
  - destruct (probe_delete_frame doc_id (S (size m)) 0 m d c) as (m' & Hrun & Hframe).
    exists m'. split; [done|]. split; [done|]. split; [done|].
    intros _ k Hk Hpresent Hmiss.
    rewrite (probe_delete_healthy doc_id (S (size m)) 0 k m d c) in Hrun;
      [|done| |by intros; apply Hpresent|done].
    + rewrite Z.sub_0_r in Hrun. by injection Hrun as <-.
    + rewrite Z.sub_0_r.
      pose proof (present_keys_bound (chunk_key doc_id) (Z.to_nat k) m) as Hb.
      rewrite Z2Nat.id in Hb by done. specialize (Hb Hpresent). lia.
Qed.

Lemma clear_redis_healthy (doc_id : string) (m : gmap string bytes)
    (d : gmap string (Z * string)) (c : Z) :
  ∃ m', clear_redis doc_id (mkWorld m d c [])
        = (Returns true, mkWorld m' d c [])
      ∧ m' !! single_key doc_id = None
      ∧ (m !! meta_key doc_id = None ∨ m !! meta_key doc_id = Some [] →
         m' = delete (single_key doc_id) m)
      ∧ (∀ meta_raw, m !! meta_key doc_id = Some meta_raw → meta_raw ≠ [] →
           m' !! meta_key doc_id = None
           ∧ (∀ meta cnt, parse_meta meta_raw = Some (meta, cnt) →
                m' = delete (meta_key doc_id)
                       (delete_all (chunk_key doc_id <$> seqZ 0 cnt)
                          (delete (single_key doc_id) m)))
           ∧ (parse_meta meta_raw = None →
              ∀ k, 0 ≤ k →
                (∀ i, 0 ≤ i < k → is_Some (m !! chunk_key doc_id i)) →
                m !! chunk_key doc_id k = None →
                m' = delete (meta_key doc_id)
                       (delete_all (chunk_key doc_id <$> seqZ 0 k)
                          (delete (single_key doc_id) m)))).
Proof.
  unfold clear_redis. py_unfold. cbn [delete_all foldr].
  rewrite lookup_delete_ne by apply single_key_ne_meta_key.
  destruct (m !! meta_key doc_id) as [[|b meta_raw]|] eqn:Hmeta;
    cbn [bytes_empty].
  - exists (delete (single_key doc_id) m).
    split; [done|]. split; [apply lookup_delete_eq|]. split; [done|].
    intros ? [= <-] ?. done.
  - destruct (clear_chunks_healthy doc_id (b :: meta_raw)
                (delete (single_key doc_id) m) d c)
      as (m' & -> & Hframe & Hparsed & Hprobed).
    exists (delete (meta_key doc_id) m').
    split; [done|]. split.
    { rewrite lookup_delete_ne by apply not_eq_sym, single_key_ne_meta_key.
      rewrite Hframe by (intros i; apply single_key_ne_chunk_key).
      apply lookup_delete_eq. }
    split; [by intros [[=] | [=]]|].
    intros ? [= <-] _. split; [apply lookup_delete_eq|]. split.
    + intros meta cnt Hp. by rewrite (Hparsed meta cnt Hp).
    + intros Hp k Hk Hpresent Hmiss. rewrite (Hprobed Hp k Hk); [done| |].
      * intros i Hi.
        rewrite lookup_delete_ne by apply single_key_ne_chunk_key. auto.
      * by rewrite lookup_delete_ne by apply single_key_ne_chunk_key.
  - exists (delete (single_key doc_id) m).
    split; [done|]. split; [apply lookup_delete_eq|]. split; [done|].
    intros ? [=].
Qed.

Lemma clear_doc_healthy (doc_id : string) (m : gmap string bytes)
    (d : gmap string (Z * string)) (c : Z) :
  doc_id ≠ "" →
  ∃ m', clear_doc cfg (Some doc_id) (mkWorld m d c [])
        = (Returns true, mkWorld m' (delete doc_id d) c [])
      ∧ m' !! single_key doc_id = None
      ∧ (m !! meta_key doc_id = None ∨ m !! meta_key doc_id = Some [] →
         m' = delete (single_key doc_id) m)
      ∧ (∀ meta_raw, m !! meta_key doc_id = Some meta_raw → meta_raw ≠ [] →
           m' !! meta_key doc_id = None
           ∧ (∀ meta cnt, parse_meta meta_raw = Some (meta, cnt) →
                m' = delete (meta_key doc_id)
                       (delete_all (chunk_key doc_id <$> seqZ 0 cnt)
                          (delete (single_key doc_id) m)))
           ∧ (parse_meta meta_raw = None →
              ∀ k, 0 ≤ k →
                (∀ i, 0 ≤ i < k → is_Some (m !! chunk_key doc_id i)) →
                m !! chunk_key doc_id k = None →
                m' = delete (meta_key doc_id)
                       (delete_all (chunk_key doc_id <$> seqZ 0 k)
                          (delete (single_key doc_id) m)))).
Proof.
  intros Hid. unfold clear_doc. rewrite (str_empty_false _ Hid), redis.
  destruct (clear_redis_healthy doc_id m d c) as (m' & Hrun & Hm').
  exists m'. split; [|done].
  unfold try_except, mbind, Py_bind, mret, Py_ret.
  by rewrite Hrun, forget_fallback_run.
Qed.
End Clearing.

(** ** What a computation leaves unchanged *)

Global Instance same_stores_preorder : PreOrder same_stores.
Proof.
  split; [by intros w|].
  intros w1 w2 w3 (? & ? & ?) (? & ? & ?). repeat split; congruence.
Qed.

Global Instance same_fallback_preorder : PreOrder same_fallback.
Proof.
  split; [by intros w|].
  intros w1 w2 w3 (? & ?) (? & ?). split; congruence.
Qed.


Section Preserves.
Context (R : relation World) `{!PreOrder R}.

Lemma preserves_ret {A : Type} (a : A) : preserves R (mret a).
Proof. intros w. reflexivity. Qed.

Lemma preserves_raise {A : Type} : preserves R (@raise A).
Proof. intros w. reflexivity. Qed.

Lemma preserves_or_raise {A : Type} (o : option A) : preserves R (or_raise o).
Proof. destruct o; [apply preserves_ret | apply preserves_raise]. Qed.

Lemma preserves_bind {A B : Type} (m : Py A) (f : A → Py B) :
  preserves R m → (∀ a, preserves R (f a)) → preserves R (m ≫= f).
Proof.
  intros Hm Hf w. unfold mbind, Py_bind. specialize (Hm w).
  destruct (m w) as [[a|] w1]; [|done].
  etransitivity; [exact Hm | apply Hf].
Qed.

Lemma preserves_try_except {A : Type} (body handler : Py A) :
  preserves R body → preserves R handler → preserves R (try_except body handler).
Proof.
  intros Hb Hh w. unfold try_except. specialize (Hb w).
  destruct (body w) as [[a|] w1]; [done|].
  etransitivity; [exact Hb | apply Hh].
Qed.

(** A handler that returns makes the whole [try] return. *)
Lemma try_except_returns {A : Type} (body handler : Py A) (w : World) :
  (∀ w1, ∃ a w2, handler w1 = (Returns a, w2)) →
  ∃ a w', try_except body handler w = (Returns a, w').
Proof.
  intros Hh. unfold try_except. destruct (body w) as [[a|] w1]; eauto.
Qed.
End Preserves.

Lemma redis_call_same_stores : preserves same_stores redis_call.
Proof. intros [m d c [|[] fs]]; by repeat split. Qed.

Lemma REDIS_get_same_stores (key : string) : preserves same_stores (REDIS_get key).
Proof.
  apply preserves_bind; [apply _ | apply redis_call_same_stores|].
  by intros _ w.
Qed.

Lemma REDIS_exists_same_stores (key : string) :
  preserves same_stores (REDIS_exists key).
Proof.
  apply preserves_bind; [apply _ | apply redis_call_same_stores|].
  by intros _ w.
Qed.

Lemma read_kv_same_stores {A : Type} (f : gmap string bytes → A) :
  preserves same_stores (read_kv f).
Proof. by intros w. Qed.





Section ClearAlways.
Context `{PyLib} (cfg : Config).



End ClearAlways.



(** ** The chunk metadata builder *)

Section Building.
Context `{PyLib} (cfg : Config).

Lemma chunk_entries_healthy (doc_id : string) (indices : list Z)
    (preview_chars : Z) (m : gmap string bytes) (d : gmap string (Z * string))
    (c : Z) :
  chunk_entries doc_id indices preview_chars (mkWorld m d c [])
  = (Returns (chunk_entry doc_id preview_chars m <$> indices), mkWorld m d c []).
Proof.
  induction indices as [|i indices IH]; [done|].
  cbn [chunk_entries]. py_unfold.
  destruct (chunk_preview (m !! chunk_key doc_id i) preview_chars)
    as [preview tokens] eqn:Hp.
  py_unfold. rewrite IH. cbn [fmap list_fmap]. unfold chunk_entry at 2.
  by rewrite Hp.
Qed.


Lemma count_chunks_same_stores (fuel : nat) (doc_id : string) (n : Z) :
  preserves same_stores (count_chunks fuel doc_id n).
Proof.
  revert n. induction fuel as [|fuel IH]; intros n; cbn [count_chunks].
  - apply preserves_ret; apply _.
  - apply preserves_bind; [apply _ | apply REDIS_exists_same_stores | intros e].
    destruct e; [apply IH | apply preserves_ret; apply _].
Qed.

Lemma chunk_entries_same_stores (doc_id : string) (indices : list Z)
    (preview_chars : Z) :
  preserves same_stores (chunk_entries doc_id indices preview_chars).
Proof.
  induction indices as [|i indices IH]; cbn [chunk_entries].
  - apply preserves_ret; apply _.
  - apply preserves_bind; [apply _ | apply REDIS_get_same_stores | intros val].
    destruct (chunk_preview val preview_chars) as [preview tokens].
    apply preserves_bind; [apply _ | apply IH | intros out].
    apply preserves_ret; apply _.
Qed.

Lemma probe_chunk_count_same_stores (doc_id : string) :
  preserves same_stores (probe_chunk_count doc_id).
Proof.
  unfold probe_chunk_count.
  apply preserves_bind; [apply _ | apply REDIS_exists_same_stores | intros e].
  destruct e; [|apply preserves_ret; apply _].
  apply preserves_bind; [apply _ | apply read_kv_same_stores | intros fuel].
  apply preserves_bind; [apply _ | apply count_chunks_same_stores | intros n].
  apply preserves_ret; apply _.
Qed.


Lemma chunked_entries_same_stores (doc_id : string) (preview_chars : Z)
    (meta_raw : option bytes) :
  preserves same_stores (chunked_entries doc_id preview_chars meta_raw).
Proof.
  unfold chunked_entries.
  apply preserves_bind; [apply _ | | intros [n|]].
  - destruct meta_raw as [[|b meta_raw]|];
      [apply probe_chunk_count_same_stores | | apply probe_chunk_count_same_stores].
    apply preserves_ret; apply _.
  - apply chunk_entries_same_stores.
  - apply preserves_ret; apply _.
Qed.

Lemma chunked_entries_meta (doc_id : string) (preview_chars : Z)
    (meta_raw : bytes) (m : gmap string bytes) (d : gmap string (Z * string))
    (c : Z) :
  meta_raw ≠ [] →
  chunked_entries doc_id preview_chars (Some meta_raw) (mkWorld m d c [])
  = (Returns (chunk_entry doc_id preview_chars m
                <$> seqZ 0 (default 0 (snd <$> parse_meta meta_raw))),
     mkWorld m d c []).
Proof.
  intros Hne. unfold chunked_entries.
  destruct meta_raw as [|b meta_raw]; [done|]. py_unfold.
  by rewrite chunk_entries_healthy.
Qed.


(** The builder only reads, and it never raises. *)
Lemma build_chunks_read_only (doc_id : string) (preview_chars : Z) (w : World) :
  ∃ out w', build_chunks_from_redis cfg doc_id preview_chars w = (Returns out, w')
          ∧ same_stores w w'.
Proof.
  unfold build_chunks_from_redis.
  destruct (str_empty doc_id); [by eexists _, _|].
  destruct (negb (REDIS_present cfg)); [by eexists _, _|].
  match goal with |- context [try_except ?b ?h] =>
    assert (Hp : preserves same_stores (try_except b h));
    [|destruct (try_except_returns b h w) as (out & w' & Hrun);
      [by eexists _, _|]]
  end.
  2: { exists out, w'. split; [done|]. specialize (Hp w). by rewrite Hrun in Hp. }
  apply preserves_try_except; [apply _ | | apply preserves_ret; apply _].
  apply preserves_bind; [apply _ | apply REDIS_get_same_stores | intros raw].
  destruct raw as [raw|].
  { destruct (single_preview raw preview_chars). apply preserves_ret; apply _. }
  apply preserves_bind; [apply _ | apply REDIS_get_same_stores | intros meta_raw].
  apply chunked_entries_same_stores.
Qed.

Hypothesis redis : REDIS_present cfg = true.

Lemma build_chunks_single (doc_id : string) (preview_chars : Z) (raw : bytes)
    (m : gmap string bytes) (d : gmap string (Z * string)) (c : Z) :
  doc_id ≠ "" →
  m !! single_key doc_id = Some raw →
  build_chunks_from_redis cfg doc_id preview_chars (mkWorld m d c [])
  = (Returns [mkChunkInfo None 0 (single_key doc_id) (len raw)
                (single_preview raw preview_chars).1 None None
                (single_preview raw preview_chars).2],
     mkWorld m d c []).
Proof.
  intros Hid Hraw. unfold build_chunks_from_redis.
  rewrite (str_empty_false _ Hid), redis. py_unfold. rewrite Hraw.
  by destruct (single_preview raw preview_chars).
Qed.

Lemma build_chunks_chunked (doc_id : string) (preview_chars : Z)
    (m : gmap string bytes) (d : gmap string (Z * string)) (c : Z) :
  doc_id ≠ "" →
  m !! single_key doc_id = None →
  build_chunks_from_redis cfg doc_id preview_chars (mkWorld m d c [])
  = try_except
      (chunked_entries doc_id preview_chars (m !! meta_key doc_id))
      (mret []) (mkWorld m d c []).
Proof.
  intros Hid Hraw. unfold build_chunks_from_redis.
  rewrite (str_empty_false _ Hid), redis. py_unfold. by rewrite Hraw.
Qed.
End Building.



(** ** Reading back what was written *)

Lemma utf8_valid_ascii (l : bytes) :
  forallb (in_range 0 127) l = true → utf8_valid l = true.
Proof.
  induction l as [|b l IH]; [done|]. cbn [forallb utf8_valid].
  intros [-> Hl]%andb_true_iff. auto.
Qed.

Lemma utf8_encode_app (s1 s2 : string) :
  utf8_encode (s1 +:+ s2) = utf8_encode s1 ++ utf8_encode s2.
Proof.
  unfold utf8_encode, list_byte_of_string.
  induction s1 as [|a s1 IH]; [done|].
  change (String a s1 +:+ s2) with (String a (s1 +:+ s2)).
  cbn [list_ascii_of_string List.map]. by rewrite IH.
Qed.

Lemma utf8_encode_cons (a : ascii) (s : string) :
  utf8_encode (String a s) = byte_of_ascii a :: utf8_encode s.
Proof. reflexivity. Qed.

Lemma uint_ascii (d : Decimal.uint) :
  forallb (in_range 0 127) (utf8_encode (NilEmpty.string_of_uint d)) = true.
Proof.
  induction d as [|d IH|d IH|d IH|d IH|d IH|d IH|d IH|d IH|d IH|d IH];
    [done | cbn [NilEmpty.string_of_uint];
            rewrite utf8_encode_cons; cbn [forallb]; by rewrite IH ..].
Qed.

Lemma str_int_ascii (z : Z) :
  forallb (in_range 0 127) (utf8_encode (str_int z)) = true.
Proof.
  unfold str_int.
  destruct (Z.to_int z) as [d|d]; cbn [NilZero.string_of_int];
    [|change (String "-" ?s) with ("-" +:+ s);
      rewrite utf8_encode_app, forallb_app; apply andb_true_iff; split; [done|]];
    (destruct d; [done | apply uint_ascii ..]).
Qed.

Lemma json_dumps_meta_is_text (n o s : Z) (c : bool) :
  is_text (json_dumps_meta n o s c).
Proof.
  apply utf8_valid_ascii. unfold json_dumps_meta, json_field.
  rewrite !utf8_encode_app, !forallb_app, !str_int_ascii.
  by destruct c.
Qed.

Lemma json_dumps_meta_nonempty (n o s : Z) (c : bool) :
  utf8_encode (json_dumps_meta n o s c) ≠ [].
Proof. unfold json_dumps_meta. by rewrite utf8_encode_app. Qed.

Section ReadingBack.
Context `{PyLib} (cfg : Config).

Lemma parse_meta_dumps (n o s : Z) (c : bool) :
  parse_meta (utf8_encode (json_dumps_meta n o s c))
  = Some (meta_dict n o s c, n).
Proof.
  unfold parse_meta.
  rewrite utf8_decode_encode by apply json_dumps_meta_is_text.
  cbn [mbind option_bind]. by rewrite json_loads_dumps.
Qed.

Lemma read_chunks_healthy (doc_id : string) (f : Z → bytes) (indices : list Z)
    (chunks : list bytes) (m : gmap string bytes)
    (d : gmap string (Z * string)) (c : Z) :
  (∀ i, i ∈ indices → m !! chunk_key doc_id i = Some (f i)) →
  read_chunks doc_id indices chunks (mkWorld m d c [])
  = (Returns (Some (chunks ++ (f <$> indices))), mkWorld m d c []).
Proof.
  revert chunks. induction indices as [|i indices IH]; intros chunks Hin.
  - cbn. by rewrite app_nil_r.
  - cbn [read_chunks]. py_unfold.
    rewrite (Hin i) by apply list_elem_of_here.
    rewrite IH by (intros j Hj; by apply Hin, list_elem_of_further).
    by rewrite <- app_assoc.
Qed.

(** Reassembly of a complete chunked form. *)
Lemma decode_chunked_healthy (doc_id : string) (gz : bytes) (size : Z)
    (compressed : bool) (m : gmap string bytes) (d : gmap string (Z * string))
    (c : Z) :
  0 < _CHUNK_SIZE cfg →
  chunked_form cfg doc_id gz size compressed m →
  decode_chunked doc_id (mkWorld m d c [])
  = (Returns
       (default ""
          (data ← (if compressed then gzip_decompress gz else Some gz);
           utf8_decode data)),
     mkWorld m d c []).
Proof.
  intros Hc (n & Hn & Hmeta & Hchunks). unfold decode_chunked. py_unfold.
  rewrite Hmeta, (bytes_empty_false _ (json_dumps_meta_nonempty _ _ _ _)).
  rewrite parse_meta_dumps. py_unfold.
  rewrite (read_chunks_healthy doc_id (chunk_slice cfg gz))
    by (intros i Hi%elem_of_seqZ; apply Hchunks; lia).
  cbn [app]. rewrite (concat_chunks cfg Hc gz n Hn).
  cbn [meta_dict dict_get assoc_get String.eqb Ascii.eqb Bool.eqb default truthy].
  unfold _gzip_decompress_bytes.
  destruct compressed; py_unfold; cbn [mbind option_bind].
  - destruct (gzip_decompress gz) as [data|]; py_unfold; cbn [option_bind];
      [|done]. by destruct (utf8_decode data).
  - by destruct (utf8_decode gz).
Qed.
End ReadingBack.

Section RoundTrip.
Context `{PyLib} (cfg : Config).
Hypothesis redis : REDIS_present cfg = true.

(** [get_doc_text] on a healthy backend returns what decoding gives, when
    that is a non-empty text or the fallback map has nothing to add. *)
Lemma get_doc_text_healthy (doc_id result : string) (m : gmap string bytes)
    (d : gmap string (Z * string)) (c : Z) :
  doc_id ≠ "" →
  _decode_redis_value cfg (m !! single_key doc_id) (Some doc_id) (mkWorld m d c [])
  = (Returns result, mkWorld m d c []) →
  (result = "" → d !! doc_id = None) →
  get_doc_text cfg doc_id (mkWorld m d c []) = (Returns result, mkWorld m d c []).
Proof.
  intros Hid Hdecode Hd. unfold get_doc_text.
  rewrite (str_empty_false _ Hid), redis.
  py_unfold. rewrite Hdecode.
  destruct result; cbn [str_empty]; [|done].
  unfold fallback_lookup. py_unfold. by rewrite Hd.
Qed.

(** The round trip, on a healthy backend and within what the layout
    supports: no older single-key value survives under a chunked write, a
    raw text that starts with the marker goes on with bytes that do not
    decompress, and an empty text finds no older entry in the fallback
    map.  Then [get_doc_text] after [put_doc_text] returns the text. *)
Lemma put_get_roundtrip (doc_id t : string) (w : World) :
  faults w = [] →
  0 < _CHUNK_SIZE cfg →
  doc_id ≠ "" →
  is_text t →
  let raw_bytes := utf8_encode t in
  let to_store := (maybe_compress cfg raw_bytes).1 in
  let compressed := (maybe_compress cfg raw_bytes).2 in
  (_MAX_SINGLE_KEY cfg < len to_store → kv w !! single_key doc_id = None) →
  (compressed = false → startswith raw_bytes _MARKER_COMPRESSED = true →
   gzip_decompress (drop (length _MARKER_COMPRESSED) raw_bytes) = None) →
  (t = "" → DOC_STORE w !! doc_id = None) →
  ∃ w', put_doc_text cfg doc_id t w = (Returns true, w')
      ∧ get_doc_text cfg doc_id w' = (Returns t, w').
Proof.
  intros Hf Hc Hid Ht. cbn zeta. intros Hstale Hmarker Hempty.
  destruct w as [m d c fs]. cbn in Hf, Hstale, Hempty. subst fs.
  rewrite put_doc_text_healthy by (done || lia).
  eexists. split; [reflexivity|].
  apply get_doc_text_healthy; [done| |done].
  unfold stored_keyspace.
  pose proof (maybe_compress_bytes cfg (utf8_encode t)) as Hbytes.
  destruct (maybe_compress cfg (utf8_encode t)) as [to_store compressed].
  cbn [fst snd] in *.
  destruct (Z.leb_spec (len to_store) (_MAX_SINGLE_KEY cfg)) as [Hfit|Hbig].
  - rewrite lookup_delete_ne by apply not_eq_sym, single_key_ne_meta_key.
    rewrite lookup_insert_eq. cbn [_decode_redis_value].
    unfold single_payload. subst to_store. destruct compressed.
    + apply (decode_single_compressed _ (utf8_encode t));
        [apply gzip_roundtrip | by apply utf8_decode_encode].
    + rewrite decode_single_raw by auto. by rewrite utf8_decode_encode.
  - destruct (ceil_div_pos (len to_store) (_CHUNK_SIZE cfg)) as [n Hn]; [lia|].
    rewrite Hn. cbn [default].
    destruct (chunked_write_lookup cfg doc_id to_store (len (utf8_encode t))
                compressed n m) as (_ & _ & Hout).
    rewrite Hout, Hstale;
      [|done|apply single_key_ne_meta_key|intros; apply single_key_ne_chunk_key].
    cbn [_decode_redis_value]. rewrite (str_empty_false _ Hid), redis.
    cbn [orb negb].
    rewrite (decode_chunked_healthy cfg doc_id to_store (len (utf8_encode t))
               compressed) by (done || by apply chunked_write_form).
    subst to_store. destruct compressed.
    + rewrite gzip_roundtrip. cbn [mbind option_bind].
      by rewrite utf8_decode_encode.
    + cbn [mbind option_bind]. by rewrite utf8_decode_encode.
Qed.
(** Where the round trip breaks: a text stored raw under the single key
    outlives a later chunked write for the same identifier, and is what
    [get_doc_text] returns afterwards. *)
Lemma stale_single_key_shadows (doc_id old t : string) (w : World) :
  faults w = [] →
  0 < _CHUNK_SIZE cfg →
  doc_id ≠ "" →
  is_text old →
  old ≠ "" →
  (startswith (utf8_encode old) _MARKER_COMPRESSED = true →
   gzip_decompress (drop (length _MARKER_COMPRESSED) (utf8_encode old)) = None) →
  kv w !! single_key doc_id = Some (utf8_encode old) →
  _MAX_SINGLE_KEY cfg < len (maybe_compress cfg (utf8_encode t)).1 →
  ∃ w', put_doc_text cfg doc_id t w = (Returns true, w')
      ∧ kv w' !! single_key doc_id = Some (utf8_encode old)
      ∧ get_doc_text cfg doc_id w' = (Returns old, w').
Proof.
  intros Hf Hc Hid Hold Hne Hmarker Hkv Hbig.
  destruct w as [m d c fs]. cbn in Hf, Hkv. subst fs.
  rewrite put_doc_text_healthy by (done || lia).
  eexists. split; [reflexivity|]. cbn [kv].
  assert (Hstays : stored_keyspace cfg doc_id t m !! single_key doc_id
                   = Some (utf8_encode old)).
  { unfold stored_keyspace.
    destruct (maybe_compress cfg (utf8_encode t)) as [to_store compressed].
    cbn [fst] in Hbig.
    destruct (Z.leb_spec (len to_store) (_MAX_SINGLE_KEY cfg)); [lia|].
    destruct (chunked_write_lookup cfg doc_id to_store (len (utf8_encode t))
                compressed
                (default 0 (ceil_div (len to_store) (_CHUNK_SIZE cfg))) m)
      as (_ & _ & Hout).
    rewrite Hout;
      [done | apply single_key_ne_meta_key | intros; apply single_key_ne_chunk_key]. }
  split; [done|].
  apply get_doc_text_healthy; [done| |done].
  rewrite Hstays. cbn [_decode_redis_value].
  rewrite decode_single_raw by done. by rewrite utf8_decode_encode.
Qed.

End RoundTrip.

(** ** The defects at work *)

(** C1, at its failing input.  With ["a"] stored under ["d"], storing the
    longer text ["abcdefg"] under ["d"] returns [True], and the next
    [get_doc_text] returns ["a"]: the chunked write leaves the old single-key
    value in place and the reader looks there first. *)
Theorem round_trip_fails_over_single_key :
  put_doc_text Examples.small_chunks "d" "a" Examples.fresh
    = (Returns true, Scenario.small_written)
  ∧ put_doc_text Examples.small_chunks "d" "abcdefg" Scenario.small_written
    = (Returns true, Scenario.large_over_small)
  ∧ get_doc_text Examples.small_chunks "d" Scenario.large_over_small
    = (Returns "a", Scenario.large_over_small)
  ∧ get_doc_text Examples.small_chunks "d" Scenario.large_written
    = (Returns "abcdefg", Scenario.large_written).
Proof. by vm_compute. Qed.

(** C2, at its failing inputs.  After single-key then chunked writes both
    forms exist and [get_doc_text] returns the older value.  After chunked
    then single-key writes the meta key is gone but the four chunk keys
    remain; [get_doc_text] returns the newer value, and once the document is
    cleared [build_chunks_from_redis] lists the four stale chunks. *)
Theorem both_forms_after_put :
  (kv Scenario.large_over_small !! single_key "d" = Some (utf8_encode "a")
   ∧ is_Some (kv Scenario.large_over_small !! meta_key "d")
   ∧ kv Scenario.large_over_small !! chunk_key "d" 0 = Some (utf8_encode "ab")
   ∧ (get_doc_text Examples.small_chunks "d" Scenario.large_over_small).1
     = Returns "a")
  ∧ (kv Scenario.small_over_large !! single_key "d" = Some (utf8_encode "xy")
     ∧ kv Scenario.small_over_large !! meta_key "d" = None
     ∧ kv Scenario.small_over_large !! chunk_key "d" 0 = Some (utf8_encode "ab")
     ∧ kv Scenario.small_over_large !! chunk_key "d" 3 = Some (utf8_encode "g")
     ∧ (get_doc_text Examples.small_chunks "d" Scenario.small_over_large).1
       = Returns "xy"
     ∧ kv Scenario.cleared !! chunk_key "d" 0 = Some (utf8_encode "ab")
     ∧ ∃ out, (build_chunks_from_redis Examples.small_chunks "d" 256
                 Scenario.cleared).1 = Returns out
            ∧ redis_key <$> out = chunk_key "d" <$> [0; 1; 2; 3]).
Proof. vm_compute. repeat split; eauto. Qed.

(** The other texts [get_doc_text] does not return after a successful put
    on the reference codec: the five-byte text ["gzip:"] is stored raw, its
    empty remainder decompresses to nothing, and the empty result sends the
    reader on to the fallback map. *)
Example marker_only_text_reads_empty :
  (get_doc_text (default_config true) "d"
     (put_doc_text (default_config true) "d" "gzip:" Examples.fresh).2).1
  = Returns "".
Proof. by vm_compute. Qed.




(** * Further properties of the store *)

(** ** The round trip for a new document *)

(** X1.  On a healthy backend with a positive chunk size, for an identifier
    that has neither a single-key value nor a fallback entry yet, and a text
    that does not begin with the bytes [gzip:], [get_doc_text] after
    [put_doc_text] returns the text, whatever the threshold and the size
    limits are: raw or compressed, under one key or chunked. *)
Theorem round_trip_new_document `{PyLib} (cfg : Config) (doc_id t : string)
    (w : World) :
  REDIS_present cfg = true →
  faults w = [] →
  0 < _CHUNK_SIZE cfg →
  doc_id ≠ "" →
  is_text t →
  startswith (utf8_encode t) _MARKER_COMPRESSED = false →
  kv w !! single_key doc_id = None →
  DOC_STORE w !! doc_id = None →
  ∃ w', put_doc_text cfg doc_id t w = (Returns true, w')
      ∧ get_doc_text cfg doc_id w' = (Returns t, w').
Proof.
  intros Hredis Hf Hc Hid Ht Hmarker Hsingle Hd.
  apply put_get_roundtrip; try done.
  intros _ Hstarts. congruence.
Qed.

Lemma round_trip_new_document_witness :
  ∃ w', put_doc_text Examples.small_compressing "d" "abcdefg" Examples.fresh
        = (Returns true, w')
      ∧ get_doc_text Examples.small_compressing "d" w' = (Returns "abcdefg", w').
Proof.
  apply (round_trip_new_document Examples.small_compressing "d" "abcdefg"
           Examples.fresh);
    [reflexivity | reflexivity | reflexivity | discriminate | reflexivity
    | reflexivity | reflexivity | reflexivity].
Defined.

(** ** When the backend fails *)

Section Outage.
Context `{PyLib} (cfg : Config).

(** With nothing for [doc_id] in Redis, a live fallback entry is what
    [get_doc_text] returns, whatever the backend does meanwhile. *)
Lemma get_doc_text_from_fallback (doc_id txt : string) (ts : Z) (w : World) :
  doc_id ≠ "" →
  kv w !! single_key doc_id = None →
  kv w !! meta_key doc_id = None →
  DOC_STORE w !! doc_id = Some (ts, txt) →
  clock w - ts ≤ DOC_TTL_SECONDS cfg →
  ∃ fs, get_doc_text cfg doc_id w = (Returns txt, with_faults fs w).
Proof.
  intros Hid Hsingle Hmeta Hd Hlive.
  assert (Hfb : ∀ fs, fallback_lookup cfg doc_id (with_faults fs w)
                      = (Returns txt, with_faults fs w)).
  { intros fs. unfold fallback_lookup. py_unfold. rewrite Hd. py_unfold.
    by destruct (Z.ltb_spec (DOC_TTL_SECONDS cfg) (clock w - ts)); [lia|]. }
  unfold get_doc_text. rewrite (str_empty_false _ Hid).
  destruct (REDIS_present cfg) eqn:Hredis.
  - unfold try_except, mbind, Py_bind.
    destruct (REDIS_get_cases (single_key doc_id) w) as [fs [-> | ->]];
      [|exists fs; apply Hfb].
    rewrite Hsingle. cbn [_decode_redis_value].
    rewrite (str_empty_false _ Hid), Hredis. cbn [orb negb].
    unfold decode_chunked, try_except, mbind, Py_bind.
    destruct (REDIS_get_cases (meta_key doc_id) (with_faults fs w))
      as [fs' [-> | ->]]; cbn [kv with_faults]; rewrite ?Hmeta;
      exists fs'; apply (Hfb fs').
  - exists (faults w). specialize (Hfb (faults w)).
    rewrite with_faults_id in Hfb |- *.
    unfold mbind, mret, Py_bind, Py_ret. exact Hfb.
Qed.

(** [put_doc_text] when the backend rejects its commands. *)
Lemma put_doc_text_outage (doc_id text : string) (fs : list bool) (w : World) :
  REDIS_present cfg = true →
  doc_id ≠ "" →
  faults w = true :: true :: fs →
  ∃ fs', put_doc_text cfg doc_id text w
         = (Returns true,
            mkWorld (kv w) (<[doc_id := (clock w, text)]> (DOC_STORE w))
                    (clock w) fs').
Proof.
  intros Hredis Hid Hf. destruct w as [m d c fs0]. cbn in Hf. subst fs0.
  unfold put_doc_text. rewrite (str_empty_false _ Hid), Hredis.
  destruct (maybe_compress cfg (utf8_encode text)) as [to_store compressed].
  cbn [negb]. unfold put_single_key, _store_in_redis_raw, put_chunked, fallback_store.
  rewrite Hredis.
  destruct (len to_store <=? _MAX_SINGLE_KEY cfg);
    destruct (ceil_div (len to_store) (_CHUNK_SIZE cfg)) eqn:Hn;
    py_unfold; rewrite ?Hn; py_unfold; by eexists.
Qed.
End Outage.

(** X2.  A put during a backend outage is not lost.  When the backend is
    configured but rejects the commands of [put_doc_text], the call still
    returns [True], leaves the keyspace as it was and records the text with
    the current time in [DOC_STORE]; and as long as Redis holds neither a
    single-key value nor a meta record for the identifier and no more than
    [DOC_TTL_SECONDS] have passed, [get_doc_text] returns the text, whether
    the backend has recovered or not. *)
Theorem put_survives_outage `{PyLib} (cfg : Config) (doc_id text : string)
    (fs : list bool) (w : World) :
  REDIS_present cfg = true →
  doc_id ≠ "" →
  faults w = true :: true :: fs →
  kv w !! single_key doc_id = None →
  kv w !! meta_key doc_id = None →
  ∃ w', put_doc_text cfg doc_id text w = (Returns true, w')
      ∧ kv w' = kv w
      ∧ DOC_STORE w' !! doc_id = Some (clock w, text)
      ∧ ∀ now later_faults,
          now - clock w ≤ DOC_TTL_SECONDS cfg →
          ∃ fs', get_doc_text cfg doc_id
                   (mkWorld (kv w') (DOC_STORE w') now later_faults)
                 = (Returns text, mkWorld (kv w') (DOC_STORE w') now fs').
Proof.
  intros Hredis Hid Hf Hsingle Hmeta.
  destruct (put_doc_text_outage cfg doc_id text fs w Hredis Hid Hf) as [fs0 ->].
  eexists. split; [reflexivity|]. cbn [kv DOC_STORE].
  split; [done|]. split; [apply lookup_insert_eq|].
  intros now later_faults Hlive.
  destruct (get_doc_text_from_fallback cfg doc_id text (clock w)
              (mkWorld (kv w) (<[doc_id := (clock w, text)]> (DOC_STORE w))
                       now later_faults)) as [fs' Hget];
    [done | done | done | apply lookup_insert_eq | done |].
  by exists fs'.
Qed.

Lemma put_survives_outage_witness :
  ∃ w', put_doc_text Examples.small_chunks "d" "abcdefg"
          (mkWorld ∅ ∅ 10 [true; true]) = (Returns true, w')
      ∧ DOC_STORE w' !! "d" = Some (10, "abcdefg").
Proof.
  destruct (put_survives_outage Examples.small_chunks "d" "abcdefg" []
              (mkWorld ∅ ∅ 10 [true; true]))
    as (w' & Hput & _ & Hd & _);
    [reflexivity | discriminate | reflexivity | reflexivity | reflexivity |].
  exists w'. split; [exact Hput | exact Hd].
Defined.

(** ** One document at a time

    [put_doc_text] and [clear_doc] write the keys of their own identifier
    only, and [get_doc_text] reads no others. *)

Global Instance same_elsewhere_preorder (doc_id : string) :
  PreOrder (same_elsewhere doc_id).
Proof.
  split; [by intros w|].
  intros w1 w2 w3 (Hk & Hd & Hc) (Hk' & Hd' & Hc'). split; [|split].
  - intros key Hkey. by rewrite Hk', Hk.
  - intros other Hother. by rewrite Hd', Hd.
  - congruence.
Qed.

Section Elsewhere.
Context (doc_id : string).

Lemma same_stores_elsewhere {A : Type} (m : Py A) :
  preserves same_stores m → preserves (same_elsewhere doc_id) m.
Proof.
  intros Hm w. destruct (Hm w) as (Hk & Hd & Hc).
  split; [|split]; [intros; by rewrite Hk | intros; by rewrite Hd | done].
Qed.

Lemma update_kv_elsewhere (f : gmap string bytes → gmap string bytes) :
  (∀ m key, ¬ own_key doc_id key → f m !! key = m !! key) →
  preserves (same_elsewhere doc_id) (update_kv f).
Proof. intros Hf w. split; [|done]. intros key Hkey. apply Hf, Hkey. Qed.

Lemma own_single_key : own_key doc_id (single_key doc_id).
Proof. by left. Qed.

Lemma own_meta_key : own_key doc_id (meta_key doc_id).
Proof. by right; left. Qed.

Lemma own_chunk_key (i : Z) : own_key doc_id (chunk_key doc_id i).
Proof. right; right. by exists i. Qed.

Lemma REDIS_setex_elsewhere (key : string) (ttl : Z) (value : bytes) :
  own_key doc_id key →
  preserves (same_elsewhere doc_id) (REDIS_setex key ttl value).
Proof.
  intros Hown. unfold REDIS_setex.
  apply preserves_bind;
    [apply _ | apply same_stores_elsewhere, redis_call_same_stores | intros _].
  apply update_kv_elsewhere. intros m key' Hkey'.
  apply lookup_insert_ne. by intros ->.
Qed.

Lemma REDIS_delete_elsewhere (keys : list string) :
  Forall (own_key doc_id) keys →
  preserves (same_elsewhere doc_id) (REDIS_delete keys).
Proof.
  intros Hown. unfold REDIS_delete.
  apply preserves_bind;
    [apply _ | apply same_stores_elsewhere, redis_call_same_stores | intros _].
  apply preserves_bind;
    [apply _ | apply same_stores_elsewhere, read_kv_same_stores | intros n].
  apply preserves_bind; [apply _ | | intros _; apply preserves_ret; apply _].
  apply update_kv_elsewhere. intros m key Hkey.
  rewrite lookup_delete_all. destruct (decide (key ∈ keys)) as [Hin|]; [|done].
  rewrite Forall_forall in Hown. destruct (Hkey (Hown key Hin)).
Qed.

Lemma pipeline_execute_elsewhere (cmds : list (string * Z * bytes)) :
  Forall (λ cmd, own_key doc_id cmd.1.1) cmds →
  preserves (same_elsewhere doc_id) (pipeline_execute cmds).
Proof.
  intros Hown. unfold pipeline_execute.
  apply preserves_bind;
    [apply _ | apply same_stores_elsewhere, redis_call_same_stores | intros _].
  apply update_kv_elsewhere. intros m key Hkey. revert m.
  induction Hown as [|cmd cmds Hcmd _ IH]; intros m; [done|].
  cbn [foldl]. rewrite IH. unfold apply_setex.
  apply lookup_insert_ne. by intros <-.
Qed.

Lemma DOC_STORE_set_elsewhere (entry : Z * string) :
  preserves (same_elsewhere doc_id) (DOC_STORE_set doc_id entry).
Proof.
  intros w. split; [done|]. split; [|done].
  intros other Hother. by apply lookup_insert_ne.
Qed.

Lemma DOC_STORE_pop_elsewhere :
  preserves (same_elsewhere doc_id) (DOC_STORE_pop doc_id).
Proof.
  intros w. split; [done|]. split; [|done].
  intros other Hother. by apply lookup_delete_ne.
Qed.

Lemma forget_fallback_elsewhere :
  preserves (same_elsewhere doc_id) (forget_fallback doc_id).
Proof.
  unfold forget_fallback.
  apply preserves_bind; [apply _ | by intros w | intros [entry|]].
  - apply DOC_STORE_pop_elsewhere.
  - apply preserves_ret; apply _.
Qed.

Lemma fallback_store_elsewhere (text : string) :
  preserves (same_elsewhere doc_id) (fallback_store doc_id text).
Proof.
  unfold fallback_store.
  apply preserves_bind; [apply _ | by intros w | intros now].
  apply preserves_bind;
    [apply _ | apply DOC_STORE_set_elsewhere | intros _; apply preserves_ret; apply _].
Qed.

Lemma probe_delete_elsewhere (fuel : nat) (i : Z) :
  preserves (same_elsewhere doc_id) (probe_delete fuel doc_id i).
Proof.
  revert i. induction fuel as [|fuel IH]; intros i; cbn [probe_delete].
  - apply preserves_ret; apply _.
  - apply preserves_bind; [apply _ | | intros n].
    + apply REDIS_delete_elsewhere. constructor; [apply own_chunk_key | constructor].
    + destruct (n =? 0); [apply preserves_ret; apply _ | apply IH].
Qed.

Context `{PyLib} (cfg : Config).

Lemma put_doc_text_elsewhere (text : string) :
  preserves (same_elsewhere doc_id) (put_doc_text cfg doc_id text).
Proof.
  unfold put_doc_text.
  destruct (str_empty doc_id); [apply preserves_ret; apply _|].
  destruct (maybe_compress cfg (utf8_encode text)) as [to_store compressed].
  destruct (negb (REDIS_present cfg)); [apply fallback_store_elsewhere|].
  apply preserves_bind; [apply _ | | intros returned].
  - destruct (len to_store <=? _MAX_SINGLE_KEY cfg); [|apply preserves_ret; apply _].
    unfold put_single_key, _store_in_redis_raw.
    apply preserves_try_except; [apply _ | | apply preserves_ret; apply _].
    apply preserves_bind; [apply _ | | intros ok].
    + destruct (negb (REDIS_present cfg)); [apply preserves_ret; apply _|].
      apply preserves_try_except; [apply _ | | apply preserves_ret; apply _].
      apply preserves_bind;
        [apply _ | apply REDIS_setex_elsewhere, own_single_key
        | intros _; apply preserves_ret; apply _].
    + destruct ok; [|apply preserves_ret; apply _].
      apply preserves_bind;
        [apply _ | | intros _; apply preserves_ret; apply _].
      apply preserves_try_except; [apply _ | | apply preserves_ret; apply _].
      apply preserves_bind;
        [apply _ | | intros _; apply preserves_ret; apply _].
      apply REDIS_delete_elsewhere. constructor; [apply own_meta_key | constructor].
  - destruct returned; [apply preserves_ret; apply _|].
    unfold put_chunked.
    apply preserves_try_except; [apply _ | | apply fallback_store_elsewhere].
    apply preserves_bind; [apply _ | apply preserves_or_raise; apply _ | intros n].
    apply preserves_bind;
      [apply _ | | intros _; apply preserves_ret; apply _].
    apply pipeline_execute_elsewhere. rewrite Forall_app. split.
    + unfold chunk_commands. rewrite Forall_fmap. apply Forall_forall.
      intros i _. apply own_chunk_key.
    + constructor; [apply own_meta_key | constructor].
Qed.

Lemma clear_redis_elsewhere : preserves (same_elsewhere doc_id) (clear_redis doc_id).
Proof.
  unfold clear_redis, clear_chunks.
  apply preserves_bind; [apply _ | | intros _].
  { apply REDIS_delete_elsewhere. constructor; [apply own_single_key | constructor]. }
  apply preserves_bind;
    [apply _ | apply same_stores_elsewhere, REDIS_get_same_stores | intros meta_raw].
  destruct meta_raw as [meta_raw|]; [|apply preserves_ret; apply _].
  destruct (bytes_empty meta_raw); [apply preserves_ret; apply _|].
  apply preserves_bind; [apply _ | | intros _].
  - apply preserves_try_except; [apply _ | |].
    + apply preserves_bind;
        [apply _ | apply preserves_or_raise; apply _ | intros [meta cnt]].
      destruct (chunk_key doc_id <$> seqZ 0 cnt) as [|key keys] eqn:Hkeys;
        [apply preserves_ret; apply _|].
      apply preserves_bind;
        [apply _ | | intros _; apply preserves_ret; apply _].
      apply REDIS_delete_elsewhere. rewrite <- Hkeys, Forall_fmap.
      apply Forall_forall. intros i _. apply own_chunk_key.
    + apply preserves_bind;
        [apply _ | apply same_stores_elsewhere, read_kv_same_stores | intros fuel].
      apply probe_delete_elsewhere.
  - apply preserves_bind;
      [apply _ | | intros _; apply preserves_ret; apply _].
    apply REDIS_delete_elsewhere. constructor; [apply own_meta_key | constructor].
Qed.

Lemma clear_doc_elsewhere :
  preserves (same_elsewhere doc_id) (clear_doc cfg (Some doc_id)).
Proof.
  unfold clear_doc.
  destruct (str_empty doc_id); [apply preserves_ret; apply _|].
  apply preserves_bind; [apply _ | | intros success].
  - destruct (REDIS_present cfg); [|apply preserves_ret; apply _].
    apply preserves_try_except;
      [apply _ | apply clear_redis_elsewhere | apply preserves_ret; apply _].
  - apply preserves_bind;
      [apply _ | apply forget_fallback_elsewhere
      | intros _; apply preserves_ret; apply _].
Qed.
End Elsewhere.

(** X3.  Under any fault schedule [put_doc_text] changes nothing but what
    belongs to its identifier: every key other than [doc:{id}],
    [doc:{id}:meta] and the chunk keys [doc:{id}:chunk:{i}] holds what it
    held, every other identifier's fallback entry is as it was, and the clock
    is not touched. *)
Theorem put_doc_text_writes_own_keys_only `{PyLib} (cfg : Config)
    (doc_id text : string) (w : World) :
  let w' := (put_doc_text cfg doc_id text w).2 in
  (∀ key, key ≠ single_key doc_id → key ≠ meta_key doc_id →
          (∀ i, key ≠ chunk_key doc_id i) → kv w' !! key = kv w !! key)
  ∧ (∀ other, other ≠ doc_id → DOC_STORE w' !! other = DOC_STORE w !! other)
  ∧ clock w' = clock w.
Proof.
  destruct (put_doc_text_elsewhere doc_id cfg text w) as (Hk & Hd & Hc).
  split; [|done]. intros key Hs Hm Hc'. apply Hk.
  intros [-> | [-> | [i ->]]]; [done | done | by apply (Hc' i)].
Qed.

(** X4.  Under any fault schedule [clear_doc] removes nothing but what
    belongs to its identifier: keys other than [doc:{id}], [doc:{id}:meta]
    and [doc:{id}:chunk:{i}] keep their values, and the fallback entries of
    other identifiers stay. *)
Theorem clear_doc_removes_own_keys_only `{PyLib} (cfg : Config)
    (doc_id : string) (w : World) :
  let w' := (clear_doc cfg (Some doc_id) w).2 in
  (∀ key, key ≠ single_key doc_id → key ≠ meta_key doc_id →
          (∀ i, key ≠ chunk_key doc_id i) → kv w' !! key = kv w !! key)
  ∧ (∀ other, other ≠ doc_id → DOC_STORE w' !! other = DOC_STORE w !! other)
  ∧ clock w' = clock w.
Proof.
  destruct (clear_doc_elsewhere doc_id cfg w) as (Hk & Hd & Hc).
  split; [|done]. intros key Hs Hm Hc'. apply Hk.
  intros [-> | [-> | [i ->]]]; [done | done | by apply (Hc' i)].
Qed.

(** ** What [get_doc_text] looks at *)

Section Respects.
Context (R : relation World).

Lemma respects_ret {A : Type} (a : A) : respects R (mret a).
Proof. by intros w1 w2 HR. Qed.

Lemma respects_raise {A : Type} : respects R (@raise A).
Proof. by intros w1 w2 HR. Qed.

Lemma respects_or_raise {A : Type} (o : option A) : respects R (or_raise o).
Proof. destruct o; [apply respects_ret | apply respects_raise]. Qed.

Lemma respects_bind {A B : Type} (m : Py A) (f : A → Py B) :
  respects R m → (∀ a, respects R (f a)) → respects R (m ≫= f).
Proof.
  intros Hm Hf w1 w2 HR. unfold mbind, Py_bind.
  destruct (Hm w1 w2 HR) as [Hout Hw].
  destruct (m w1) as [[a1|] w1'], (m w2) as [[a2|] w2'];
    cbn [fst snd] in *; try discriminate; [|done].
  injection Hout as ->. by apply Hf.
Qed.

Lemma respects_try_except {A : Type} (body handler : Py A) :
  respects R body → respects R handler → respects R (try_except body handler).
Proof.
  intros Hb Hh w1 w2 HR. unfold try_except.
  destruct (Hb w1 w2 HR) as [Hout Hw].
  destruct (body w1) as [[a1|] w1'], (body w2) as [[a2|] w2'];
    cbn [fst snd] in *; try discriminate; [done|].
  by apply Hh.
Qed.
End Respects.

Section Reader.
Context (doc_id : string).

Lemma redis_call_agree : respects (agree_on doc_id) redis_call.
Proof.
  intros [m1 d1 c1 fs1] [m2 d2 c2 fs2] (Hk & Hd & Hc & Hf).
  cbn in Hf. subst fs2. unfold redis_call. cbn [faults].
  by destruct fs1 as [|[] fs].
Qed.

Lemma REDIS_get_agree (key : string) :
  own_key doc_id key → respects (agree_on doc_id) (REDIS_get key).
Proof.
  intros Hown. unfold REDIS_get.
  apply respects_bind; [apply redis_call_agree | intros _].
  intros w1 w2 HR. split; [|done].
  unfold read_kv. cbn [fst]. f_equal. by apply HR.
Qed.

Lemma read_chunks_agree (indices : list Z) (chunks : list bytes) :
  respects (agree_on doc_id) (read_chunks doc_id indices chunks).
Proof.
  revert chunks. induction indices as [|i indices IH]; intros chunks;
    cbn [read_chunks]; [apply respects_ret|].
  apply respects_bind; [apply REDIS_get_agree, own_chunk_key | intros [c|]];
    [apply IH | apply respects_ret].
Qed.

Context `{PyLib} (cfg : Config).

Lemma decode_single_respects (R : relation World) (raw_bytes : bytes) :
  respects R (decode_single raw_bytes).
Proof.
  unfold decode_single, _gzip_decompress_bytes.
  apply respects_try_except; [|apply respects_ret].
  apply respects_bind; [|intros [s|]].
  - destruct (startswith raw_bytes _MARKER_COMPRESSED); [|apply respects_ret].
    apply respects_try_except; [|apply respects_ret].
    apply respects_bind; [apply respects_or_raise | intros decompressed].
    apply respects_bind; [apply respects_or_raise | intros s].
    apply respects_ret.
  - apply respects_ret.
  - apply respects_try_except; [apply respects_or_raise | apply respects_ret].
Qed.

Lemma decode_chunked_agree : respects (agree_on doc_id) (decode_chunked doc_id).
Proof.
  unfold decode_chunked, _gzip_decompress_bytes.
  apply respects_try_except; [|apply respects_ret].
  apply respects_bind; [apply REDIS_get_agree, own_meta_key | intros [meta_raw|]];
    [|apply respects_ret].
  destruct (bytes_empty meta_raw); [apply respects_ret|].
  apply respects_bind; [apply respects_or_raise | intros [meta n]].
  apply respects_bind; [apply read_chunks_agree | intros [chunks|]];
    [|apply respects_ret].
  apply respects_bind; [apply respects_or_raise | intros c].
  destruct (truthy c); [|apply respects_or_raise].
  apply respects_bind; [apply respects_or_raise | intros raw].
  apply respects_or_raise.
Qed.

Lemma fallback_lookup_agree : respects (agree_on doc_id) (fallback_lookup cfg doc_id).
Proof.
  intros [m1 d1 c1 fs1] [m2 d2 c2 fs2] (Hk & Hd & Hc & Hf).
  cbn in Hk, Hd, Hc, Hf. subst c2 fs2.
  unfold fallback_lookup. py_unfold. rewrite <- Hd.
  destruct (d1 !! doc_id) as [[ts txt]|] eqn:Hd1; py_unfold;
    [|split; [done|]; repeat split; cbn; auto; congruence].
  destruct (DOC_TTL_SECONDS cfg <? c1 - ts); py_unfold;
    (split; [done|]); repeat split; cbn; auto; [|congruence].
  by rewrite !lookup_delete_eq.
Qed.

Lemma get_doc_text_agree : respects (agree_on doc_id) (get_doc_text cfg doc_id).
Proof.
  unfold get_doc_text. destruct (str_empty doc_id) eqn:Hempty;
    [apply respects_ret|].
  apply respects_bind; [|intros [result|]];
    [|apply respects_ret | apply fallback_lookup_agree].
  destruct (REDIS_present cfg) eqn:Hredis; [|apply respects_ret].
  apply respects_try_except; [|apply respects_ret].
  apply respects_bind; [apply REDIS_get_agree, own_single_key | intros raw].
  apply respects_bind; [|intros result; apply respects_ret].
  destruct raw as [raw|]; cbn [_decode_redis_value];
    [apply decode_single_respects|].
  rewrite Hempty, Hredis. apply decode_chunked_agree.
Qed.
End Reader.

(** *** Identifiers without a colon own disjoint keys *)

Lemma colon_free_cons (a : ascii) (s : string) :
  colon_free (String a s) = negb (Ascii.eqb a ":"%char) && colon_free s.
Proof. reflexivity. Qed.

Lemma colon_free_no_colon (b x : string) :
  colon_free (b +:+ String ":"%char x) = false.
Proof.
  induction b as [|c b IH]; [done|].
  change (String c b +:+ String ":"%char x)
    with (String c (b +:+ String ":"%char x)).
  rewrite colon_free_cons, IH. apply andb_false_r.
Qed.

Lemma colon_free_split (a b x y : string) :
  colon_free a = true → colon_free b = true →
  a +:+ String ":"%char x = b +:+ String ":"%char y → a = b.
Proof.
  revert b. induction a as [|c a IH]; intros [|c' b] Ha Hb Heq; [done| | |].
  - change ("" +:+ String ":"%char x) with (String ":"%char x) in Heq.
    change (String c' b +:+ String ":"%char y)
      with (String c' (b +:+ String ":"%char y)) in Heq.
    injection Heq as <- _. discriminate Hb.
  - change ("" +:+ String ":"%char y) with (String ":"%char y) in Heq.
    change (String c a +:+ String ":"%char x)
      with (String c (a +:+ String ":"%char x)) in Heq.
    injection Heq as -> _. discriminate Ha.
  - change (String c a +:+ String ":"%char x)
      with (String c (a +:+ String ":"%char x)) in Heq.
    change (String c' b +:+ String ":"%char y)
      with (String c' (b +:+ String ":"%char y)) in Heq.
    injection Heq as -> Heq.
    rewrite colon_free_cons in Ha, Hb.
    apply andb_true_iff in Ha as [_ Ha]. apply andb_true_iff in Hb as [_ Hb].
    f_equal. by apply IH.
Qed.

Lemma meta_key_colon (doc_id : string) :
  meta_key doc_id = "doc:" +:+ doc_id +:+ String ":"%char "meta".
Proof. reflexivity. Qed.

Lemma chunk_key_colon (doc_id : string) (i : Z) :
  chunk_key doc_id i
  = "doc:" +:+ doc_id +:+ String ":"%char ("chunk:" +:+ str_int i).
Proof. reflexivity. Qed.

Lemma own_keys_disjoint (a b key : string) :
  colon_free a = true → colon_free b = true → a ≠ b →
  own_key a key → ¬ own_key b key.
Proof.
  intros Ha Hb Hne Hown Hown'.
  assert (Hcolon : ∀ s x, colon_free s = true → s ≠ s +:+ String ":"%char x).
  { intros s x Hs Heq. rewrite Heq, colon_free_no_colon in Hs. discriminate. }
  assert (Hfree : ∀ s t x, colon_free s = true → s = t +:+ String ":"%char x → False).
  { intros s t x Hs ->. by rewrite colon_free_no_colon in Hs. }
  destruct Hown as [-> | [-> | [i ->]]], Hown' as [Heq | [Heq | [j Heq]]];
    rewrite ?meta_key_colon, ?chunk_key_colon in Heq;
    unfold single_key in Heq; apply String.app_inj in Heq;
    first [ by apply Hne
          | exact (Hfree a _ _ Ha Heq)
          | exact (Hfree b _ _ Hb (eq_sym Heq))
          | exact (Hne (colon_free_split _ _ _ _ Ha Hb Heq)) ].
Qed.

(** A write or a clear of [b] cannot be seen by a reader of [a]. *)
Lemma elsewhere_agree (a b : string) (fs : list bool) (w w' : World) :
  colon_free a = true → colon_free b = true → a ≠ b →
  same_elsewhere b w w' →
  agree_on a (with_faults fs w') (with_faults fs w).
Proof.
  intros Ha Hb Hne (Hk & Hd & Hc). repeat split; cbn; [|by apply Hd | done].
  intros key Hown. apply Hk. by apply (own_keys_disjoint a b).
Qed.

(** X5.  Documents do not interfere.  For two different identifiers without
    a colon in them (UUIDs, as the upload flow draws them), storing or
    clearing one of them does not change what [get_doc_text] returns for the
    other, whatever the backend does during either call. *)
Theorem documents_do_not_interfere `{PyLib} (cfg : Config) (a b text : string)
    (fs : list bool) (w : World) :
  colon_free a = true →
  colon_free b = true →
  a ≠ b →
  (get_doc_text cfg a (with_faults fs (put_doc_text cfg b text w).2)).1
    = (get_doc_text cfg a (with_faults fs w)).1
  ∧ (get_doc_text cfg a (with_faults fs (clear_doc cfg (Some b) w).2)).1
    = (get_doc_text cfg a (with_faults fs w)).1.
Proof.
  intros Ha Hb Hne. split.
  - apply get_doc_text_agree, (elsewhere_agree a b); try done.
    apply put_doc_text_elsewhere.
  - apply get_doc_text_agree, (elsewhere_agree a b); try done.
    apply clear_doc_elsewhere.
Qed.

Lemma documents_do_not_interfere_witness :
  (get_doc_text Examples.small_chunks "a" (with_faults []
     (put_doc_text Examples.small_chunks "b" "abcdefg" Scenario.small_written).2)).1
  = (get_doc_text Examples.small_chunks "a"
       (with_faults [] Scenario.small_written)).1.
Proof.
  exact (proj1 (documents_do_not_interfere Examples.small_chunks "a" "b"
                  "abcdefg" [] Scenario.small_written
                  eq_refl eq_refl ltac:(discriminate))).
Defined.

(** ** Reading never fails *)

Section ReadOnly.
Context `{PyLib} (cfg : Config).

Lemma read_chunks_same_stores (doc_id : string) (indices : list Z)
    (chunks : list bytes) :
  preserves same_stores (read_chunks doc_id indices chunks).
Proof.
  revert chunks. induction indices as [|i indices IH]; intros chunks;
    cbn [read_chunks]; [apply preserves_ret; apply _|].
  apply preserves_bind; [apply _ | apply REDIS_get_same_stores | intros [c|]];
    [apply IH | apply preserves_ret; apply _].
Qed.

(** Decoding a value that is there is a pure function of the value. *)
Lemma decode_single_closed (raw_bytes : bytes) (w : World) :
  decode_single raw_bytes w
  = (Returns
       (match (if startswith raw_bytes _MARKER_COMPRESSED
               then gzip_decompress (drop (length _MARKER_COMPRESSED) raw_bytes)
                      ≫= utf8_decode
               else None) with
        | Some s => s
        | None => default "" (utf8_decode raw_bytes)
        end), w).
Proof.
  unfold decode_single, _gzip_decompress_bytes.
  destruct (startswith raw_bytes _MARKER_COMPRESSED).
  - destruct (gzip_decompress _) as [data|]; cbn [mbind option_bind];
      py_unfold; [|by destruct (utf8_decode raw_bytes)].
    destruct (utf8_decode data) as [s|]; py_unfold;
      [done | by destruct (utf8_decode raw_bytes)].
  - py_unfold. by destruct (utf8_decode raw_bytes).
Qed.

Lemma decode_redis_value_same_stores (raw : option bytes) (doc_id : string) :
  preserves same_stores (_decode_redis_value cfg raw (Some doc_id)).
Proof.
  destruct raw as [raw|]; cbn [_decode_redis_value].
  { intros w. by rewrite decode_single_closed. }
  destruct (str_empty doc_id || negb (REDIS_present cfg));
    [apply preserves_ret; apply _|].
  unfold decode_chunked, _gzip_decompress_bytes.
  apply preserves_try_except; [apply _ | | apply preserves_ret; apply _].
  apply preserves_bind;
    [apply _ | apply REDIS_get_same_stores | intros [meta_raw|]];
    [|apply preserves_ret; apply _].
  destruct (bytes_empty meta_raw); [apply preserves_ret; apply _|].
  apply preserves_bind;
    [apply _ | apply preserves_or_raise; apply _ | intros [meta n]].
  apply preserves_bind;
    [apply _ | apply read_chunks_same_stores | intros [chunks|]];
    [|apply preserves_ret; apply _].
  apply preserves_bind;
    [apply _ | apply preserves_or_raise; apply _ | intros c].
  destruct (truthy c); [|apply preserves_or_raise; apply _].
  apply preserves_bind;
    [apply _ | apply preserves_or_raise; apply _ | intros raw].
  apply preserves_or_raise; apply _.
Qed.

(** The Redis half of [get_doc_text]. *)
Lemma get_from_redis_read_only (doc_id : string) (w : World) :
  ∃ found w1,
    (if REDIS_present cfg then
       try_except
         (raw ← REDIS_get (single_key doc_id);
          result ← _decode_redis_value cfg raw (Some doc_id);
          mret (if str_empty result then None else Some result))
         (mret None)
     else mret None) w = (Returns found, w1)
    ∧ same_stores w w1 ∧ found ≠ Some "".
Proof.
  destruct (REDIS_present cfg); [|by exists None, w].
  match goal with |- context [try_except ?b ?h] =>
    assert (Hp : preserves same_stores b);
    [|pose proof (preserves_try_except same_stores b h Hp
                    (preserves_ret same_stores None) w) as Hsame;
      assert (Hne : ∀ found w1, b w = (Returns found, w1) → found ≠ Some "");
      [|unfold try_except in *; destruct (b w) as [[found|] w1] eqn:Hb]]
  end.
  - apply preserves_bind; [apply _ | apply REDIS_get_same_stores | intros raw].
    apply preserves_bind;
      [apply _ | apply decode_redis_value_same_stores
      | intros result; apply preserves_ret; apply _].
  - intros found w1. unfold mbind, Py_bind.
    destruct (REDIS_get (single_key doc_id) w) as [[raw|] w0]; [|done].
    destruct (_decode_redis_value cfg raw (Some doc_id) w0) as [[result|] w2];
      [|done].
    intros [= <- _]. by destruct result.
  - exists found, w1. split; [done|]. split; [exact Hsame|]. by apply (Hne found w1).
  - exists None, w1. split; [done|]. split; [exact Hsame | done].
Qed.

Lemma get_doc_text_read_only (doc_id : string) (w : World) :
  ∃ result w', get_doc_text cfg doc_id w = (Returns result, w')
    ∧ kv w' = kv w ∧ clock w' = clock w
    ∧ (DOC_STORE w' = DOC_STORE w
       ∨ result = ""
         ∧ DOC_STORE w' = delete doc_id (DOC_STORE w)
         ∧ ∃ ts txt, DOC_STORE w !! doc_id = Some (ts, txt)
                   ∧ DOC_TTL_SECONDS cfg < clock w - ts).
Proof.
  unfold get_doc_text. destruct (str_empty doc_id).
  { exists "", w. repeat split; by left. }
  destruct (get_from_redis_read_only doc_id w)
    as (found & w1 & Hrun & (Hk & Hd & Hc) & Hne).
  unfold mbind at 1. unfold Py_bind at 1. rewrite Hrun.
  destruct found as [result|].
  { exists result, w1. repeat split; try done. by left. }
  unfold fallback_lookup. py_unfold. rewrite Hd.
  destruct (DOC_STORE w !! doc_id) as [[ts txt]|] eqn:Hentry; py_unfold.
  - rewrite Hc. destruct (Z.ltb_spec (DOC_TTL_SECONDS cfg) (clock w - ts)).
    + eexists _, _. split; [reflexivity|]. cbn. repeat split; try done.
      right. rewrite Hd. repeat split; try done. by exists ts, txt.
    + eexists _, _. split; [reflexivity|]. repeat split; try done. by left.
  - eexists _, _. split; [reflexivity|]. repeat split; try done. by left.
Qed.
End ReadOnly.

(** X6.  [get_doc_text] never raises and never writes to Redis.  Under any
    fault schedule it returns a string and leaves the keyspace and the clock
    as they were; the only change it can make to [DOC_STORE] is to evict the
    entry of its own identifier, which it does only when that entry is older
    than [DOC_TTL_SECONDS], and it then returns the empty string. *)
Theorem get_doc_text_never_raises `{PyLib} (cfg : Config) (doc_id : string)
    (w : World) :
  ∃ result w', get_doc_text cfg doc_id w = (Returns result, w')
    ∧ kv w' = kv w
    ∧ clock w' = clock w
    ∧ (DOC_STORE w' = DOC_STORE w
       ∨ result = ""
         ∧ DOC_STORE w' = delete doc_id (DOC_STORE w)
         ∧ ∃ ts txt, DOC_STORE w !! doc_id = Some (ts, txt)
                   ∧ DOC_TTL_SECONDS cfg < clock w - ts).
Proof. apply get_doc_text_read_only. Qed.

(** X7.  [_decode_redis_value] on a value that is there never raises, sends
    no command and changes nothing.  Its result has three levels: the text
    behind the [gzip:] marker when the value starts with the marker and what
    follows decompresses and decodes; else the UTF-8 decoding of the whole
    value; else the empty string. *)
Theorem decode_redis_value_of_bytes `{PyLib} (cfg : Config) (raw_bytes : bytes)
    (doc_id : option string) (w : World) :
  let marked :=
    if startswith raw_bytes _MARKER_COMPRESSED
    then gzip_decompress (drop (length _MARKER_COMPRESSED) raw_bytes)
           ≫= utf8_decode
    else None in
  _decode_redis_value cfg (Some raw_bytes) doc_id w
  = (Returns (match marked with
              | Some s => s
              | None => default "" (utf8_decode raw_bytes)
              end), w).
Proof. cbn [_decode_redis_value]. apply decode_single_closed. Qed.

(** ** A put undone, and a put described *)

Section PutThen.
Context `{PyLib} (cfg : Config).

(** Clearing what a put has stored for a new identifier gives the keyspace
    back. *)
Lemma clear_stored_keyspace (doc_id text : string) (m m' : gmap string bytes) :
  _CHUNK_SIZE cfg ≠ 0 →
  m !! single_key doc_id = None →
  m !! meta_key doc_id = None →
  (∀ i, m !! chunk_key doc_id i = None) →
  let stored := stored_keyspace cfg doc_id text m in
  (stored !! meta_key doc_id = None ∨ stored !! meta_key doc_id = Some [] →
   m' = delete (single_key doc_id) stored) →
  (∀ meta_raw, stored !! meta_key doc_id = Some meta_raw → meta_raw ≠ [] →
     ∀ meta cnt, parse_meta meta_raw = Some (meta, cnt) →
       m' = delete (meta_key doc_id)
              (delete_all (chunk_key doc_id <$> seqZ 0 cnt)
                 (delete (single_key doc_id) stored))) →
  m' = m.
Proof.
  intros Hc Hsingle Hmeta Hchunks stored Hnometa Hparsed. subst stored.
  unfold stored_keyspace in *.
  destruct (maybe_compress cfg (utf8_encode text)) as [to_store compressed].
  destruct (len to_store <=? _MAX_SINGLE_KEY cfg).
  - rewrite Hnometa by (left; apply lookup_delete_eq).
    apply map_eq. intros key.
    destruct (decide (key = single_key doc_id)) as [->|Hne];
      [by rewrite lookup_delete_eq|].
    rewrite lookup_delete_ne by done.
    destruct (decide (key = meta_key doc_id)) as [->|Hne'];
      [by rewrite lookup_delete_eq|].
    by rewrite lookup_delete_ne, lookup_insert_ne.
  - destruct (ceil_div_pos (len to_store) _ Hc) as [n Hn].
    rewrite Hn in *. change (default 0 (Some n)) with n in *.
    destruct (chunked_write_lookup cfg doc_id to_store (len (utf8_encode text))
                compressed n m) as (Hm & _ & Hout).
    rewrite (Hparsed _ Hm (json_dumps_meta_nonempty _ _ _ _) _ _
               (parse_meta_dumps _ _ _ _)).
    apply map_eq. intros key.
    destruct (decide (key = meta_key doc_id)) as [->|Hne];
      [by rewrite lookup_delete_eq|].
    rewrite lookup_delete_ne, lookup_delete_all by done.
    destruct (decide (key ∈ chunk_key doc_id <$> seqZ 0 n)) as [Hin|Hnotin].
    { apply list_elem_of_fmap in Hin as (i & -> & _). by rewrite Hchunks. }
    destruct (decide (key = single_key doc_id)) as [->|Hne'];
      [by rewrite lookup_delete_eq|].
    rewrite lookup_delete_ne by done. apply Hout; [done|].
    intros i Hi ->. apply Hnotin, list_elem_of_fmap. exists i.
    split; [done|]. apply elem_of_seqZ. lia.
Qed.

Lemma put_then_clear (doc_id text : string) (m : gmap string bytes)
    (d : gmap string (Z * string)) (c : Z) :
  _CHUNK_SIZE cfg ≠ 0 →
  doc_id ≠ "" →
  m !! single_key doc_id = None →
  m !! meta_key doc_id = None →
  (∀ i, m !! chunk_key doc_id i = None) →
  ∃ w1, put_doc_text cfg doc_id text (mkWorld m d c []) = (Returns true, w1)
      ∧ clear_doc cfg (Some doc_id) w1
        = (Returns true, mkWorld m (delete doc_id d) c []).
Proof.
  intros Hc Hid Hsingle Hmeta Hchunks.
  destruct (REDIS_present cfg) eqn:Hredis.
  - rewrite (put_doc_text_healthy cfg Hredis) by done.
    eexists. split; [reflexivity|].
    destruct (clear_doc_healthy cfg Hredis doc_id
                (stored_keyspace cfg doc_id text m) d c Hid)
      as (m' & -> & _ & Hnometa & Hparsed).
    do 3 f_equal.
    apply (clear_stored_keyspace doc_id text m m'); try done.
    intros meta_raw Hm Hne meta cnt Hp.
    destruct (Hparsed meta_raw Hm Hne) as (_ & Hdel & _). by apply (Hdel meta).
  - rewrite (put_fallback cfg Hredis) by done.
    eexists. split; [reflexivity|].
    rewrite (clear_fallback cfg Hredis) by done.
    unfold with_DOC_STORE. cbn. by rewrite delete_insert_eq.
Qed.

(** The sizes the builder reports for a chunked document add up. *)
Lemma stored_bytes_sum (doc_id : string) (preview_chars : Z) (gz : bytes) (n : Z)
    (m : gmap string bytes) :
  0 < _CHUNK_SIZE cfg →
  ceil_div (len gz) (_CHUNK_SIZE cfg) = Some n →
  (∀ i, 0 ≤ i < n → m !! chunk_key doc_id i = Some (chunk_slice cfg gz i)) →
  foldr Z.add 0 (stored_bytes <$> (chunk_entry doc_id preview_chars m <$> seqZ 0 n))
  = len gz.
Proof.
  intros Hc Hn Hm.
  rewrite <- (concat_chunks cfg Hc gz n Hn) at 1.
  assert (Hall : ∀ l : list Z,
            Forall (λ i, 0 ≤ i < n) l →
            foldr Z.add 0 (stored_bytes <$> (chunk_entry doc_id preview_chars m <$> l))
            = len (concat (chunk_slice cfg gz <$> l))).
  { induction 1 as [|i l Hi _ IH]; [done|].
    cbn [fmap list_fmap foldr concat]. fold (concat (chunk_slice cfg gz <$> l)).
    rewrite len_app. f_equal; [|exact IH].
    unfold chunk_entry. cbn [stored_bytes]. by rewrite (Hm i Hi). }
  apply Hall, Forall_forall. intros i Hi%elem_of_seqZ. lia.
Qed.

Lemma build_after_put (doc_id text : string) (preview_chars : Z)
    (m : gmap string bytes) (d : gmap string (Z * string)) (c : Z) :
  REDIS_present cfg = true →
  0 < _CHUNK_SIZE cfg →
  doc_id ≠ "" →
  let to_store := (maybe_compress cfg (utf8_encode text)).1 in
  let compressed := (maybe_compress cfg (utf8_encode text)).2 in
  (_MAX_SINGLE_KEY cfg < len to_store → m !! single_key doc_id = None) →
  ∃ w' out,
    put_doc_text cfg doc_id text (mkWorld m d c []) = (Returns true, w')
    ∧ build_chunks_from_redis cfg doc_id preview_chars w' = (Returns out, w')
    ∧ chunk_index <$> out = seqZ 0 (len out)
    ∧ foldr Z.add 0 (stored_bytes <$> out)
      = if len to_store <=? _MAX_SINGLE_KEY cfg
        then len (single_payload to_store compressed)
        else len to_store.
Proof.
  intros Hredis Hc Hid to_store compressed Hfresh.
  rewrite (put_doc_text_healthy cfg Hredis) by (done || lia).
  subst to_store compressed. unfold stored_keyspace in *.
  destruct (maybe_compress cfg (utf8_encode text)) as [to_store compressed].
  cbn [fst snd] in *.
  destruct (Z.leb_spec (len to_store) (_MAX_SINGLE_KEY cfg)) as [Hle|Hgt].
  - eexists _, _. split; [reflexivity|].
    rewrite (build_chunks_single cfg Hredis _ _
               (single_payload to_store compressed)) by
      (done || by rewrite lookup_delete_ne, lookup_insert_eq by
                    (apply not_eq_sym, single_key_ne_meta_key)).
    split; [reflexivity|]. split; [done|]. cbn. lia.
  - destruct (ceil_div_pos (len to_store) (_CHUNK_SIZE cfg)) as [n Hn]; [lia|].
    rewrite Hn. change (default 0 (Some n)) with n.
    destruct (chunked_write_lookup cfg doc_id to_store (len (utf8_encode text))
                compressed n m) as (Hm & Hin & Hout).
    pose proof (ceil_div_spec _ _ _ Hn Hc) as Hbound.
    pose proof (len_nonneg to_store) as Hlen.
    assert (0 ≤ n) as Hn0 by nia.
    eexists _, _. split; [reflexivity|].
    rewrite (build_chunks_chunked cfg Hredis); [|done|].
    2: { rewrite Hout; [by apply Hfresh | apply single_key_ne_meta_key|].
         intros i _. apply single_key_ne_chunk_key. }
    rewrite Hm. unfold try_except.
    rewrite chunked_entries_meta by apply json_dumps_meta_nonempty.
    rewrite parse_meta_dumps. cbn [fmap option_fmap option_map snd default].
    split; [reflexivity|]. split.
    + unfold len. rewrite !length_fmap, length_seqZ, Z2Nat.id by done.
      rewrite <- list_fmap_compose.
      etransitivity; [|apply list_fmap_id]. apply list_fmap_ext. by intros.
    + by apply stored_bytes_sum.
Qed.
End PutThen.

(** X8.  A put undone leaves no residue.  On a healthy backend with a
    non-zero chunk size, for an identifier that owns no key yet,
    [put_doc_text] followed by [clear_doc] gives back the keyspace exactly as
    it was, whichever form the put chose, and no fallback entry for the
    identifier remains. *)
Theorem put_then_clear_leaves_nothing `{PyLib} (cfg : Config)
    (doc_id text : string) (w : World) :
  faults w = [] →
  _CHUNK_SIZE cfg ≠ 0 →
  doc_id ≠ "" →
  kv w !! single_key doc_id = None →
  kv w !! meta_key doc_id = None →
  (∀ i, kv w !! chunk_key doc_id i = None) →
  ∃ w1 w2, put_doc_text cfg doc_id text w = (Returns true, w1)
         ∧ clear_doc cfg (Some doc_id) w1 = (Returns true, w2)
         ∧ kv w2 = kv w
         ∧ DOC_STORE w2 = delete doc_id (DOC_STORE w).
Proof.
  intros Hf Hc Hid Hsingle Hmeta Hchunks.
  destruct w as [m d c fs]. cbn in *. subst fs.
  destruct (put_then_clear cfg doc_id text m d c) as (w1 & Hput & Hclear);
    try done.
  by exists w1, (mkWorld m (delete doc_id d) c []).
Qed.

Lemma put_then_clear_leaves_nothing_witness :
  ∃ w1 w2, put_doc_text Examples.small_chunks "d" "abcdefg" Examples.fresh
           = (Returns true, w1)
         ∧ clear_doc Examples.small_chunks (Some "d") w1 = (Returns true, w2)
         ∧ kv w2 = kv Examples.fresh
         ∧ DOC_STORE w2 = delete "d" (DOC_STORE Examples.fresh).
Proof.
  apply (put_then_clear_leaves_nothing Examples.small_chunks "d" "abcdefg"
           Examples.fresh);
    [reflexivity | discriminate | discriminate | reflexivity | reflexivity
    | intros i; reflexivity].
Defined.

(** X9.  The builder accounts for every stored byte.  On a healthy backend
    with a positive chunk size, when no older single-key value is in the way
    of a chunked write, the entries [build_chunks_from_redis] returns right
    after [put_doc_text] are numbered [0, 1, 2, ...] without a gap and their
    [stored_bytes] add up to the length of what was stored: the payload with
    its marker under the single key, or the payload across the chunks. *)
Theorem builder_accounts_for_stored_bytes `{PyLib} (cfg : Config)
    (doc_id text : string) (preview_chars : Z) (w : World) :
  REDIS_present cfg = true →
  faults w = [] →
  0 < _CHUNK_SIZE cfg →
  doc_id ≠ "" →
  let to_store := (maybe_compress cfg (utf8_encode text)).1 in
  let compressed := (maybe_compress cfg (utf8_encode text)).2 in
  (_MAX_SINGLE_KEY cfg < len to_store → kv w !! single_key doc_id = None) →
  ∃ w' out,
    put_doc_text cfg doc_id text w = (Returns true, w')
    ∧ build_chunks_from_redis cfg doc_id preview_chars w' = (Returns out, w')
    ∧ chunk_index <$> out = seqZ 0 (len out)
    ∧ foldr Z.add 0 (stored_bytes <$> out)
      = if len to_store <=? _MAX_SINGLE_KEY cfg
        then len (single_payload to_store compressed)
        else len to_store.
Proof.
  intros Hredis Hf Hc Hid. destruct w as [m d c fs]. cbn in Hf. subst fs.
  by apply build_after_put.
Qed.

Lemma builder_accounts_for_stored_bytes_witness :
  ∃ w' out,
    put_doc_text Examples.small_chunks "d" "abcdefg" Examples.fresh
    = (Returns true, w')
    ∧ build_chunks_from_redis Examples.small_chunks "d" 256 w' = (Returns out, w')
    ∧ chunk_index <$> out = seqZ 0 (len out)
    ∧ foldr Z.add 0 (stored_bytes <$> out) = 7.
Proof.
  apply (builder_accounts_for_stored_bytes Examples.small_chunks "d" "abcdefg"
           256 Examples.fresh);
    [reflexivity | reflexivity | reflexivity | discriminate
    | intros _; reflexivity].
Defined.

(** ** Health *)

Lemma redis_healthy_run (cfg : Config) (w : World) :
  ∃ fs, redis_healthy cfg w
        = (Returns (REDIS_present cfg
                    && negb (bool_decide (head (faults w) = Some true))),
           with_faults fs w).
Proof.
  unfold redis_healthy. destruct (REDIS_present cfg); cbn [negb andb].
  - destruct w as [m d c [|[] fs]]; py_unfold; by eexists.
  - exists (faults w). by rewrite with_faults_id.
Qed.

(** X10.  The health check never raises and changes nothing.  [redis_healthy]
    answers [True] exactly when a client is configured and its [ping] does
    not raise, and [healthz] reports [ok: false] exactly when Redis is not
    healthy although [REDIS_URL] is set; without [REDIS_URL] an application
    running on the in-process fallback reports [ok: true]. *)
Theorem healthz_reports (cfg : Config) (redis_url_set : bool) (w : World) :
  ∃ status w',
    healthz cfg redis_url_set w = (Returns status, w')
    ∧ redis_healthy cfg w = (Returns (status_redis status), w')
    ∧ same_stores w w'
    ∧ (status_redis status = true
       ↔ REDIS_present cfg = true ∧ head (faults w) ≠ Some true)
    ∧ (status_ok status = false
       ↔ redis_url_set = true ∧ status_redis status = false).
Proof.
  destruct (redis_healthy_run cfg w) as [fs Hrun].
  unfold healthz, mbind, Py_bind. rewrite Hrun.
  set (r := REDIS_present cfg && _) in *.
  assert (Hr : r = true ↔ REDIS_present cfg = true ∧ head (faults w) ≠ Some true).
  { subst r. rewrite andb_true_iff, negb_true_iff, bool_decide_eq_false. tauto. }
  cbn [status_redis]. destruct r, redis_url_set; cbn [negb];
    eexists _, _; (split; [reflexivity|]); (split; [reflexivity|]);
    (split; [done|]); (split; [exact Hr|]); cbn; intuition congruence.
Qed.

(** ** Identifiers that share a key *)

Section Suffix.
Context `{PyLib} (cfg : Config).

Lemma single_key_of_meta_suffix (doc_id : string) :
  single_key (doc_id +:+ _META_SUFFIX) = meta_key doc_id.
Proof. reflexivity. Qed.

Lemma single_key_not_own_suffixed (doc_id : string) :
  ¬ own_key (doc_id +:+ _META_SUFFIX) (single_key doc_id).
Proof.
  intros [Heq | [Heq | [i Heq]]];
    unfold single_key, meta_key, chunk_key in Heq;
    apply (f_equal String.length) in Heq;
    rewrite !string_app_length in Heq; simpl in Heq; lia.
Qed.
End Suffix.

(** X11.  Identifiers share keys: the single key of [{id}:meta] is the meta
    key of [{id}].  So on a healthy backend, after a text has been stored in
    chunked form under [doc_id], clearing the identifier [doc_id + ":meta"]
    removes its meta record, and [get_doc_text doc_id] returns the empty
    string from then on. *)
Theorem clearing_suffixed_identifier `{PyLib} (cfg : Config)
    (doc_id text : string) (w : World) :
  REDIS_present cfg = true →
  faults w = [] →
  0 < _CHUNK_SIZE cfg →
  doc_id ≠ "" →
  kv w !! single_key doc_id = None →
  DOC_STORE w !! doc_id = None →
  _MAX_SINGLE_KEY cfg < len (maybe_compress cfg (utf8_encode text)).1 →
  ∃ w1 w2,
    put_doc_text cfg doc_id text w = (Returns true, w1)
    ∧ is_Some (kv w1 !! meta_key doc_id)
    ∧ clear_doc cfg (Some (doc_id +:+ _META_SUFFIX)) w1 = (Returns true, w2)
    ∧ kv w2 !! meta_key doc_id = None
    ∧ get_doc_text cfg doc_id w2 = (Returns "", w2).
Proof.
  intros Hredis Hf Hc Hid Hsingle Hd Hlarge.
  destruct w as [m d c fs]. cbn in Hf, Hsingle, Hd. subst fs.
  rewrite (put_doc_text_healthy cfg Hredis) by (done || lia).
  assert (Hid' : doc_id +:+ _META_SUFFIX ≠ "") by by destruct doc_id.
  pose proof (clear_doc_elsewhere (doc_id +:+ _META_SUFFIX) cfg
                (mkWorld (stored_keyspace cfg doc_id text m) d c []))
    as (Hk & _ & _).
  destruct (clear_doc_healthy cfg Hredis (doc_id +:+ _META_SUFFIX)
              (stored_keyspace cfg doc_id text m) d c Hid')
    as (m' & Hclear & Hgone & _).
  rewrite Hclear in Hk. cbn [snd kv] in Hk.
  rewrite single_key_of_meta_suffix in Hgone.
  assert (Hstored : stored_keyspace cfg doc_id text m !! single_key doc_id = None
                    ∧ is_Some (stored_keyspace cfg doc_id text m !! meta_key doc_id)).
  { unfold stored_keyspace.
    destruct (maybe_compress cfg (utf8_encode text)) as [to_store compressed].
    cbn [fst] in Hlarge.
    destruct (Z.leb_spec (len to_store) (_MAX_SINGLE_KEY cfg)); [lia|].
    destruct (chunked_write_lookup cfg doc_id to_store (len (utf8_encode text))
                compressed
                (default 0 (ceil_div (len to_store) (_CHUNK_SIZE cfg))) m)
      as (Hm & _ & Hout).
    split; [|by rewrite Hm].
    rewrite Hout; [done | apply single_key_ne_meta_key|].
    intros i _. apply single_key_ne_chunk_key. }
  destruct Hstored as [Hs Hm].
  eexists _, _. split; [reflexivity|]. split; [exact Hm|].
  split; [exact Hclear|]. split; [exact Hgone|].
  apply (get_doc_text_absent cfg Hredis); [done | | by left |].
  - rewrite Hk by apply single_key_not_own_suffixed. exact Hs.
  - rewrite lookup_delete_ne; [done|].
    intros Heq. apply (f_equal String.length) in Heq.
    rewrite string_app_length in Heq. simpl in Heq. lia.
Qed.

Lemma clearing_suffixed_identifier_witness :
  ∃ w1 w2,
    put_doc_text Examples.small_chunks "d" "abcdefg" Examples.fresh
    = (Returns true, w1)
    ∧ is_Some (kv w1 !! meta_key "d")
    ∧ clear_doc Examples.small_chunks (Some "d:meta") w1 = (Returns true, w2)
    ∧ kv w2 !! meta_key "d" = None
    ∧ get_doc_text Examples.small_chunks "d" w2 = (Returns "", w2).
Proof.
  apply (clearing_suffixed_identifier Examples.small_chunks "d" "abcdefg"
           Examples.fresh);
    [reflexivity | reflexivity | reflexivity | discriminate | reflexivity
    | reflexivity | reflexivity].
Defined.

(** ** Text files *)

Lemma latin1_char_valid (x : byte) (rest : bytes) :
  utf8_valid (utf8_encode (latin1_char x) ++ rest) = utf8_valid rest.
Proof. destruct x; reflexivity. Qed.

Lemma latin1_char_one (x : byte) (rest : bytes) :
  length (List.filter (λ b, negb (continuation b))
            (utf8_encode (latin1_char x) ++ rest))
  = S (length (List.filter (λ b, negb (continuation b)) rest)).
Proof. destruct x; reflexivity. Qed.

Lemma latin1_decode_cons (x : byte) (b : bytes) :
  utf8_encode (latin1_decode (x :: b))
  = utf8_encode (latin1_char x) ++ utf8_encode (latin1_decode b).
Proof. cbn [latin1_decode foldr]. apply utf8_encode_app. Qed.

Lemma latin1_decode_is_text (b : bytes) : is_text (latin1_decode b).
Proof.
  unfold is_text. induction b as [|x b IH]; [done|].
  by rewrite latin1_decode_cons, latin1_char_valid.
Qed.

Lemma latin1_decode_len (b : bytes) : str_len (latin1_decode b) = len b.
Proof.
  unfold str_len, len. f_equal. induction b as [|x b IH]; [done|].
  by rewrite latin1_decode_cons, latin1_char_one, IH.
Qed.

(** X12.  [read_text_file] always yields a text.  Bytes that are well-formed
    UTF-8 are decoded as such, so encoding the result gives the bytes of the
    file back; any other bytes are read as Latin-1, one character per byte,
    none dropped.  When [f.read()] raises, the result is the message with
    [[Text read error] ] in front. *)
Theorem read_text_file_decodes (b : bytes) (e : string) :
  is_text (read_text_file (inl b))
  ∧ (utf8_valid b = true → utf8_encode (read_text_file (inl b)) = b)
  ∧ (utf8_valid b = false →
       read_text_file (inl b) = latin1_decode b
       ∧ str_len (read_text_file (inl b)) = len b)
  ∧ read_text_file (inr e) = "[Text read error] " +:+ e.
Proof.
  unfold read_text_file, utf8_decode.
  destruct (utf8_valid b) eqn:Hvalid.
  - split; [|split; [|split]]; try done.
    + unfold is_text, utf8_encode.
      by rewrite list_byte_of_string_of_list_byte.
    + intros _. apply list_byte_of_string_of_list_byte.
  - split; [apply latin1_decode_is_text|]. split; [done|].
    split; [|done]. intros _. split; [done | apply latin1_decode_len].
Qed.

(** ** File names *)

Lemma has_dot_cons (a : ascii) (s : string) :
  has_dot (String a s) = Ascii.eqb "."%char a || has_dot s.
Proof. reflexivity. Qed.

Lemma has_dot_app_dot (stem e : string) : has_dot (stem +:+ "." +:+ e) = true.
Proof.
  induction stem as [|a stem IH]; [done|].
  change (String a stem +:+ "." +:+ e) with (String a (stem +:+ "." +:+ e)).
  rewrite has_dot_cons, IH. apply orb_true_r.
Qed.

Lemma rsplit_last_app (stem e : string) :
  has_dot e = false → rsplit_last (stem +:+ "." +:+ e) = e.
Proof.
  intros He. induction stem as [|a stem IH].
  - change ("" +:+ "." +:+ e) with (String "."%char e).
    cbn [rsplit_last]. by rewrite He.
  - change (String a stem +:+ "." +:+ e) with (String a (stem +:+ "." +:+ e)).
    cbn [rsplit_last]. by rewrite has_dot_app_dot.
Qed.

Lemma lower_char_ascii (a : ascii) :
  in_range 0 127 (byte_of_ascii a) = true →
  in_range 0 127 (byte_of_ascii (lower_char a)) = true.
Proof. destruct a as [[] [] [] [] [] [] [] []]; intros Ha; exact Ha || reflexivity. Qed.

Lemma ascii_lower_is_ascii (s : string) :
  is_ascii s = true → is_ascii (ascii_lower s) = true.
Proof.
  unfold is_ascii. induction s as [|a s IH]; [done|].
  cbn [ascii_lower]. rewrite !utf8_encode_cons. cbn [forallb].
  intros [Ha Hs]%andb_true_iff. by rewrite lower_char_ascii, IH.
Qed.

Section FileNames.
Context `{PyStr}.

Lemma ext_of_no_dot (filename : string) :
  has_dot filename = false → ext_of filename = "".
Proof.
  intros Hdot. unfold ext_of. rewrite Hdot.
  by rewrite str_strip_ascii by done.
Qed.

Lemma ext_of_app (stem e : string) :
  has_dot e = false → is_ascii e = true →
  ext_of (stem +:+ "." +:+ e) = ascii_strip (ascii_lower e).
Proof.
  intros Hdot Hascii. unfold ext_of.
  rewrite has_dot_app_dot, rsplit_last_app by done.
  rewrite str_lower_ascii by done.
  by rewrite str_strip_ascii by by apply ascii_lower_is_ascii.
Qed.
End FileNames.

(** X13.  [ext_of] looks at what follows the last dot only, and [is_allowed]
    at nothing else: for an ASCII extension [e] without a dot, the file name
    [stem.e] has the extension [e] in lower case with surrounding white
    space removed, whatever the stem is (it may contain dots), so it is
    allowed exactly when that is one of the eleven known extensions, in
    whatever case it is written.  A name without a dot has the empty
    extension and is never allowed. *)
Theorem is_allowed_by_last_extension `{PyStr} (stem e : string) :
  has_dot e = false →
  is_ascii e = true →
  ext_of (stem +:+ "." +:+ e) = ascii_strip (ascii_lower e)
  ∧ is_allowed (stem +:+ "." +:+ e)
    = bool_decide (ascii_strip (ascii_lower e) ∈ ALLOWED_EXT)
  ∧ (∀ stem' e', has_dot e' = false → is_ascii e' = true →
       ascii_lower e' = ascii_lower e →
       is_allowed (stem' +:+ "." +:+ e') = is_allowed (stem +:+ "." +:+ e))
  ∧ (∀ filename, has_dot filename = false →
       ext_of filename = "" ∧ is_allowed filename = false).
Proof.
  intros Hdot Hascii. split; [by apply ext_of_app|].
  split; [unfold is_allowed; by rewrite ext_of_app|]. split.
  - intros stem' e' Hdot' Hascii' Hlow. unfold is_allowed.
    by rewrite !ext_of_app, Hlow.
  - intros filename Hnodot. unfold is_allowed.
    by rewrite ext_of_no_dot.
Qed.

Lemma is_allowed_by_last_extension_witness :
  ext_of "report.final.PDF " = "pdf"
  ∧ is_allowed "report.final.PDF " = true.
Proof.
  destruct (is_allowed_by_last_extension "report.final" "PDF ")
    as (Hext & Hallowed & _); [reflexivity | reflexivity|].
  split; [exact Hext | exact Hallowed].
Defined.

(** ** The keyword search *)

Section Search.
Context `{PyStr}.

Lemma search_loop_take (q_words lines hits : list string) :
  len hits < 8 →
  search_loop q_words lines hits
  = take 8 (hits ++ List.filter (line_matches q_words) lines).
Proof.
  revert hits. induction lines as [|ln lines IH]; intros hits Hlen.
  - cbn [search_loop List.filter]. rewrite app_nil_r.
    symmetry. apply take_ge. unfold len in Hlen. lia.
  - cbn [search_loop List.filter]. destruct (line_matches q_words ln).
    + destruct (Z.leb_spec 8 (len (hits ++ [ln]))) as [Hfull|Hroom].
      * rewrite len_app in Hfull. unfold len in *. cbn [length] in Hfull.
        replace (hits ++ ln :: List.filter (line_matches q_words) lines)
          with ((hits ++ [ln]) ++ List.filter (line_matches q_words) lines)
          by (by rewrite <- app_assoc).
        symmetry. apply take_app_length'. rewrite length_app. cbn [length]. lia.
      * by rewrite IH, <- app_assoc.
    + destruct (Z.leb_spec 8 (len hits)); [lia | by apply IH].
Qed.

Lemma search_loop_hits (q_words lines : list string) :
  search_loop q_words lines []
  = take 8 (List.filter (line_matches q_words) lines).
Proof. by rewrite search_loop_take. Qed.

Lemma filter_all {A : Type} (f : A → bool) (l : list A) :
  (∀ x, f x = true) → List.filter f l = l.
Proof.
  intros Hf. induction l as [|x l IH]; [done|].
  cbn [List.filter]. by rewrite Hf, IH.
Qed.
End Search.

(** X14.  The keyword search returns the first eight matching lines.  The
    loop with its [break] collects, in document order, the first eight of
    the stripped non-blank lines that contain every query word of more than
    two characters (compared in lower case); the answer is the fixed
    no-match message exactly when no line matches, and otherwise the header
    followed by the hits, one per line.  A query with no word longer than
    two characters matches every line, so the answer is then the first eight
    lines of the document. *)
Theorem naive_search_answer_hits `{PyStr} (haystack query : string) :
  let lines := search_lines haystack in
  let q_words := search_words query in
  let hits := take 8 (List.filter (line_matches q_words) lines) in
  (hits = [] ↔ ∀ ln, ln ∈ lines → line_matches q_words ln = false)
  ∧ (hits = [] → naive_search_answer haystack query = no_match_message)
  ∧ (hits ≠ [] →
       naive_search_answer haystack query
       = "Here are some lines that look relevant:" +:+ nl +:+ nl
         +:+ str_join nl ((λ h, bullet +:+ h) <$> hits))
  ∧ (q_words = [] → hits = take 8 lines).
Proof.
  intros lines q_words hits. split; [|split; [|split]].
  - subst hits. split.
    + intros Hnone ln Hin.
      destruct (line_matches q_words ln) eqn:Hm; [|done].
      assert (Hf : ln ∈ List.filter (line_matches q_words) lines).
      { apply list_elem_of_In, filter_In. by rewrite <- list_elem_of_In. }
      destruct (List.filter (line_matches q_words) lines) as [|x l];
        [by apply not_elem_of_nil in Hf | discriminate Hnone].
    + intros Hall.
      destruct (List.filter (line_matches q_words) lines) as [|x l] eqn:Hf;
        [done|].
      assert (Hx : In x (List.filter (line_matches q_words) lines))
        by (rewrite Hf; by left).
      apply filter_In in Hx as [Hin Hm].
      rewrite Hall in Hm by by apply list_elem_of_In. discriminate Hm.
  - intros Hnone. unfold naive_search_answer.
    fold lines q_words. rewrite search_loop_hits. fold hits. by rewrite Hnone.
  - intros Hsome. unfold naive_search_answer.
    fold lines q_words. rewrite search_loop_hits. fold hits.
    by destruct hits.
  - intros Hq. subst hits. rewrite Hq. f_equal. by apply filter_all.
Qed.

(** ** Uploads *)

Section Uploading.
Context `{PyLib} `{PyStr} (cfg : Config).
Context (pdf_page_count : bytes → option Z).
Context (insert_document : DocumentRow → Py unit).
Context (extract_pdf_text extract_docx_text ocr_image_to_text : bytes → string).




Lemma upload_file_unbound (uuid4 : string) (user_id : option string)
    (filename : string) (data : bytes) (w : World) :
  is_allowed filename = true →
  ext_of filename ≠ "pdf" →
  upload_file cfg pdf_page_count insert_document extract_pdf_text
    extract_docx_text ocr_image_to_text uuid4 user_id filename data w
  = (Raises, w).
Proof.
  intros Hallowed Hext. unfold upload_file. rewrite Hallowed. cbn [negb].
  destruct (String.eqb_spec (ext_of filename) "pdf") as [|_]; [done|].
  by repeat case_match; simplify_eq.
Qed.

End Uploading.



(** X16.  The multipart upload of anything but a PDF fails before it stores
    anything.  The route binds its local [pdf_bytes] in the PDF branch only
    and reads it in the call of [handle_text_upload]: for an allowed file
    name whose extension is not [pdf] (a Word file, an image, a text file)
    the read raises, and neither the store nor the database has been
    touched. *)
Theorem upload_of_non_pdf_raises `{PyLib} `{PyStr} (cfg : Config)
    (pdf_page_count : bytes → option Z)
    (insert_document : DocumentRow → Py unit)
    (extract_pdf_text extract_docx_text ocr_image_to_text : bytes → string)
    (uuid4 : string) (user_id : option string) (filename : string)
    (data : bytes) (w : World) :
  is_allowed filename = true →
  ext_of filename ≠ "pdf" →
  upload_file cfg pdf_page_count insert_document extract_pdf_text
    extract_docx_text ocr_image_to_text uuid4 user_id filename data w
  = (Raises, w).
Proof. apply upload_file_unbound. Qed.

Lemma upload_of_non_pdf_raises_witness :
  upload_file Examples.small_chunks (λ _, None) (λ _, mret ())
    (λ _, "pdf text") (λ _, "docx text") (λ _, "image text")
    "0f8fad5b" None "notes.txt" (utf8_encode "abc") Examples.fresh
  = (Raises, Examples.fresh).
Proof.
  apply (upload_of_non_pdf_raises Examples.small_chunks (λ _, None)
           (λ _, mret ()) (λ _, "pdf text") (λ _, "docx text")
           (λ _, "image text") "0f8fad5b" None "notes.txt" (utf8_encode "abc")
           Examples.fresh);
    [reflexivity | discriminate].
Defined.



(** ** Writing twice, and writing one key *)

Section Again.
Context `{PyLib} (cfg : Config).

Lemma chunked_write_twice (doc_id : string) (gz : bytes) (size : Z)
    (compressed : bool) (n : Z) (m : gmap string bytes) :
  chunked_write cfg doc_id gz size compressed n
    (chunked_write cfg doc_id gz size compressed n m)
  = chunked_write cfg doc_id gz size compressed n m.
Proof.
  destruct (chunked_write_lookup cfg doc_id gz size compressed n m)
    as (Hm & Hin & Hout).
  destruct (chunked_write_lookup cfg doc_id gz size compressed n
              (chunked_write cfg doc_id gz size compressed n m))
    as (Hm' & Hin' & Hout').
  apply map_eq. intros key.
  destruct (decide (key = meta_key doc_id)) as [->|Hne]; [by rewrite Hm', Hm|].
  destruct (decide (key ∈ chunk_key doc_id <$> seqZ 0 n)) as [Hchunk|Hother].
  - apply list_elem_of_fmap in Hchunk as (i & -> & Hi%elem_of_seqZ).
    by rewrite Hin', Hin by lia.
  - apply Hout'; [done|]. intros i Hi ->. apply Hother, list_elem_of_fmap.
    exists i. split; [done|]. apply elem_of_seqZ. lia.
Qed.

Lemma stored_keyspace_twice (doc_id text : string) (m : gmap string bytes) :
  stored_keyspace cfg doc_id text (stored_keyspace cfg doc_id text m)
  = stored_keyspace cfg doc_id text m.
Proof.
  unfold stored_keyspace.
  destruct (maybe_compress cfg (utf8_encode text)) as [to_store compressed].
  destruct (len to_store <=? _MAX_SINGLE_KEY cfg);
    [|apply chunked_write_twice].
  apply map_eq. intros key.
  destruct (decide (key = meta_key doc_id)) as [->|Hne];
    [by rewrite !lookup_delete_eq|].
  rewrite !lookup_delete_ne by done.
  destruct (decide (key = single_key doc_id)) as [->|Hne'];
    [by rewrite !lookup_insert_eq|].
  by rewrite lookup_insert_ne, lookup_delete_ne by done.
Qed.

Lemma put_doc_text_twice (doc_id text : string) (m : gmap string bytes)
    (d : gmap string (Z * string)) (c : Z) :
  _CHUNK_SIZE cfg ≠ 0 →
  doc_id ≠ "" →
  ∃ w1, put_doc_text cfg doc_id text (mkWorld m d c []) = (Returns true, w1)
      ∧ put_doc_text cfg doc_id text w1 = (Returns true, w1).
Proof.
  intros Hc Hid. destruct (REDIS_present cfg) eqn:Hredis.
  - rewrite (put_doc_text_healthy cfg Hredis) by done.
    eexists. split; [reflexivity|].
    rewrite (put_doc_text_healthy cfg Hredis) by done.
    by rewrite stored_keyspace_twice.
  - rewrite (put_fallback cfg Hredis) by done.
    eexists. split; [reflexivity|].
    rewrite (put_fallback cfg Hredis) by done.
    unfold with_DOC_STORE. cbn. by rewrite insert_insert_eq.
Qed.

Lemma store_in_redis_raw_run (key : string) (value : bytes) (ttl : Z) (w : World) :
  ∃ fs,
    (_store_in_redis_raw cfg key value ttl w
     = (Returns true, mkWorld (<[key := value]> (kv w)) (DOC_STORE w) (clock w) fs)
     ∧ REDIS_present cfg = true ∧ head (faults w) ≠ Some true)
    ∨ (_store_in_redis_raw cfg key value ttl w = (Returns false, with_faults fs w)
       ∧ (REDIS_present cfg = false ∨ head (faults w) = Some true)).
Proof.
  unfold _store_in_redis_raw. destruct (REDIS_present cfg); cbn [negb].
  - destruct w as [m d c [|[] fs]]; py_unfold.
    + exists []. by left.
    + exists fs. right. split; [done|]. by right.
    + exists fs. by left.
  - exists (faults w). right. rewrite with_faults_id. split; [done|]. by left.
Qed.
End Again.

(** X18.  Storing the same text again changes nothing.  On a healthy backend
    (or with none configured) and a non-zero chunk size, a second
    [put_doc_text] of the same text under the same identifier, at the same
    time, returns [True] and leaves the world exactly as the first one left
    it. *)
Theorem put_doc_text_idempotent `{PyLib} (cfg : Config) (doc_id text : string)
    (w : World) :
  faults w = [] →
  _CHUNK_SIZE cfg ≠ 0 →
  doc_id ≠ "" →
  ∃ w1, put_doc_text cfg doc_id text w = (Returns true, w1)
      ∧ put_doc_text cfg doc_id text w1 = (Returns true, w1).
Proof.
  intros Hf Hc Hid. destruct w as [m d c fs]. cbn in Hf. subst fs.
  by apply put_doc_text_twice.
Qed.

Lemma put_doc_text_idempotent_witness :
  ∃ w1, put_doc_text Examples.small_chunks "d" "abcdefg" Scenario.small_written
        = (Returns true, w1)
      ∧ put_doc_text Examples.small_chunks "d" "abcdefg" w1 = (Returns true, w1).
Proof.
  apply (put_doc_text_idempotent Examples.small_chunks "d" "abcdefg"
           Scenario.small_written);
    [reflexivity | discriminate | discriminate].
Defined.

(** X19.  [_store_in_redis_raw] never raises.  It returns [True] exactly
    when a client is configured and [setex] does not raise, and the key then
    holds the value; when it returns [False] the keyspace is as it was.  The
    fallback map and the clock are never touched. *)
Theorem store_in_redis_raw_reports `{PyLib} (cfg : Config) (key : string)
    (value : bytes) (ttl : Z) (w : World) :
  ∃ ok w',
    _store_in_redis_raw cfg key value ttl w = (Returns ok, w')
    ∧ (ok = true ↔ REDIS_present cfg = true ∧ head (faults w) ≠ Some true)
    ∧ kv w' = (if ok then <[key := value]> (kv w) else kv w)
    ∧ DOC_STORE w' = DOC_STORE w
    ∧ clock w' = clock w.
Proof.
  destruct (store_in_redis_raw_run cfg key value ttl w)
    as [fs [(-> & Hredis & Hfault) | (-> & Hwhy)]].
  - eexists _, _. split; [reflexivity|]. by repeat split.
  - eexists _, _. split; [reflexivity|]. repeat split; try done.
    intros [Hredis Hfault]. destruct Hwhy; congruence.
Qed.

(** ** The shape of the builder's entries *)

Section Ensures.
Context {A B : Type}.

Lemma ensures_ret (P : A → Prop) (a : A) : P a → ensures P (mret a).
Proof. intros Ha w a' w' [= <- _]. exact Ha. Qed.

Lemma ensures_bind (Q : A → Prop) (P : B → Prop) (m : Py A) (f : A → Py B) :
  ensures Q m → (∀ a, Q a → ensures P (f a)) → ensures P (m ≫= f).
Proof.
  intros Hm Hf w b w'. unfold mbind, Py_bind.
  destruct (m w) as [[a|] w1] eqn:Hrun; [|done].
  apply (Hf a (Hm w a w1 Hrun)).
Qed.

Lemma ensures_bind_any (P : B → Prop) (m : Py A) (f : A → Py B) :
  (∀ a, ensures P (f a)) → ensures P (m ≫= f).
Proof. intros Hf. apply (ensures_bind (λ _, True)); [done | auto]. Qed.

Lemma ensures_try_except (P : A → Prop) (body handler : Py A) :
  ensures P body → ensures P handler → ensures P (try_except body handler).
Proof.
  intros Hb Hh w a w'. unfold try_except.
  destruct (body w) as [[a'|] w1] eqn:Hrun.
  - intros [= <- <-]. by apply (Hb w a' w1).
  - apply Hh.
Qed.
End Ensures.

Section Entries.
Context `{PyLib} (cfg : Config) (doc_id : string) (preview_chars : Z).

Lemma single_preview_tokens (raw : bytes) :
  (single_preview raw preview_chars).1 = None →
  (single_preview raw preview_chars).2 = None.
Proof.
  unfold single_preview. destruct (startswith raw _MARKER_COMPRESSED); [|done].
  by destruct (gzip_decompress _).
Qed.

Lemma chunk_preview_tokens (val : option bytes) :
  (chunk_preview val preview_chars).1 = None →
  (chunk_preview val preview_chars).2 = None.
Proof. by destruct val as [[|b val]|]. Qed.

Lemma chunk_entries_shape (indices : list Z) :
  ensures (λ out, chunk_index <$> out = indices ∧ Forall (entry_of doc_id) out)
    (chunk_entries doc_id indices preview_chars).
Proof.
  induction indices as [|i indices IH]; cbn [chunk_entries].
  { apply ensures_ret. by split. }
  apply ensures_bind_any. intros val.
  pose proof (chunk_preview_tokens val) as Htokens.
  destruct (chunk_preview val preview_chars) as [preview tokens].
  eapply ensures_bind; [exact IH|]. intros out [Hindex Hall].
  apply ensures_ret. split; [cbn; by rewrite Hindex|].
  constructor; [|done]. unfold entry_of. cbn.
  split; [by right|]. split; [|done].
  destruct val; [apply len_nonneg | done].
Qed.

Lemma seqZ_of_indices (out : list ChunkInfo) (n : Z) :
  chunk_index <$> out = seqZ 0 n → chunk_index <$> out = seqZ 0 (len out).
Proof.
  intros Hout. rewrite Hout. unfold len.
  rewrite <- (length_fmap chunk_index), Hout, length_seqZ.
  destruct (Z.le_gt_cases n 0); [by rewrite !seqZ_nil by lia|].
  by rewrite Z2Nat.id by lia.
Qed.

Lemma build_chunks_shape :
  ensures (λ out, chunk_index <$> out = seqZ 0 (len out)
                  ∧ Forall (entry_of doc_id) out)
    (build_chunks_from_redis cfg doc_id preview_chars).
Proof.
  unfold build_chunks_from_redis.
  destruct (str_empty doc_id); [by apply ensures_ret|].
  destruct (negb (REDIS_present cfg)); [by apply ensures_ret|].
  apply ensures_try_except; [|by apply ensures_ret].
  apply ensures_bind_any. intros [raw|].
  - pose proof (single_preview_tokens raw) as Htokens.
    destruct (single_preview raw preview_chars) as [preview tokens].
    apply ensures_ret. split; [done|].
    constructor; [|done]. unfold entry_of. cbn.
    split; [by left|]. split; [apply len_nonneg | done].
  - apply ensures_bind_any. intros meta_raw. unfold chunked_entries.
    apply ensures_bind_any. intros [n|]; [|by apply ensures_ret].
    intros w out w' Hrun.
    destruct (chunk_entries_shape (seqZ 0 n) w out w' Hrun) as [Hindex Hall].
    split; [by apply (seqZ_of_indices out n) | done].
Qed.
End Entries.

(** X20.  The entries of the builder are well-formed whatever the backend
    does.  Under any fault schedule [build_chunks_from_redis] returns a list
    whose entries are numbered [0, 1, 2, ...] in order; each names a key of
    the document (the single key with index 0, or the chunk key of its own
    index), has a non-negative size, leaves [chunk_id], [start_token] and
    [end_token] unset, and has a token count only when it has a preview. *)
Theorem build_chunks_entries_well_formed `{PyLib} (cfg : Config)
    (doc_id : string) (preview_chars : Z) (w : World) :
  ∃ out w',
    build_chunks_from_redis cfg doc_id preview_chars w = (Returns out, w')
    ∧ chunk_index <$> out = seqZ 0 (len out)
    ∧ ∀ e, e ∈ out →
        (redis_key e = single_key doc_id ∧ chunk_index e = 0
         ∨ redis_key e = chunk_key doc_id (chunk_index e))
        ∧ 0 ≤ stored_bytes e
        ∧ chunk_id e = None ∧ start_token e = None ∧ end_token e = None
        ∧ (text_preview e = None → token_count e = None).
Proof.
  destruct (build_chunks_read_only cfg doc_id preview_chars w)
    as (out & w' & Hrun & _).
  exists out, w'. split; [done|].
  destruct (build_chunks_shape cfg doc_id preview_chars w out w' Hrun)
    as [Hindex Hall].
  split; [done|]. intros e He. rewrite Forall_forall in Hall. by apply Hall.
Qed.

(** ** Reading during an outage *)

Section Degrades.
Context {A B : Type}.

Lemma degrades_pure (d : option A) (m : Py A) (o : outcome A) :
  (∀ w, m w = (o, w)) → degrades d m.
Proof. intros Hm w fs. exists o, o, fs. rewrite !Hm. by repeat split; left. Qed.

Lemma degrades_ret (d : option A) (a : A) : degrades d (mret a).
Proof. by apply (degrades_pure d _ (Returns a)). Qed.

Lemma degrades_or_raise (d : option A) (x : option A) : degrades d (or_raise x).
Proof.
  destruct x as [a|]; [apply degrades_ret|].
  by apply (degrades_pure d _ Raises).
Qed.

Lemma degrades_bind (dA : option A) (dB : option B) (m : Py A) (f : A → Py B) :
  degrades dA m →
  (∀ a, degrades dB (f a)) →
  (∀ x w, dA = Some x →
     (f x (with_faults [] w)).1 = Raises
     ∨ ∃ y, dB = Some y ∧ (f x (with_faults [] w)).1 = Returns y) →
  degrades dB (m ≫= f).
Proof.
  intros Hm Hf Hd w fs. unfold mbind, Py_bind.
  destruct (Hm w fs) as (o & o' & fs' & -> & -> & Ho).
  assert (Hdeg : ∀ x, dA = Some x →
            ∃ o2 fs2, f x (with_faults fs' w) = (o2, with_faults fs2 w)
                    ∧ (o2 = Raises ∨ ∃ y, dB = Some y ∧ o2 = Returns y)).
  { intros x Hx. destruct (Hf x w fs') as (p & p' & fs2 & Hp & Hp' & Hcases).
    exists p', fs2. split; [done|].
    destruct (Hd x w Hx) as [Hr | (y & Hy & Hr)]; rewrite Hp in Hr; cbn in Hr;
      destruct Hcases as [-> | [-> | (z & Hz & ->)]]; eauto. }
  destruct o as [a|].
  - destruct (Hf a w fs') as (p & p' & fs2 & Hp & Hp' & Hcases).
    destruct Ho as [-> | [-> | (x & Hx & ->)]].
    + exists p, p', fs2. by rewrite Hp, Hp'.
    + exists p, Raises, fs'. rewrite Hp. repeat split. right. by left.
    + destruct (Hdeg x Hx) as (o2 & fs3 & Hrun & Ho2).
      exists p, o2, fs3. rewrite Hp, Hrun. repeat split. by right.
  - destruct Ho as [-> | [-> | (x & Hx & ->)]].
    + exists Raises, Raises, fs'. repeat split. by left.
    + exists Raises, Raises, fs'. repeat split. by left.
    + destruct (Hdeg x Hx) as (o2 & fs3 & Hrun & Ho2).
      exists Raises, o2, fs3. rewrite Hrun. repeat split. by right.
Qed.

(** After a step that can only raise, nothing is asked of what follows. *)
Lemma degrades_bind_none (dB : option B) (m : Py A) (f : A → Py B) :
  degrades None m → (∀ a, degrades dB (f a)) → degrades dB (m ≫= f).
Proof. intros Hm Hf. by apply (degrades_bind None). Qed.

(** A [try] whose handler returns [d] turns every failure into [d]. *)
Lemma degrades_try_except (d : A) (body : Py A) (w : World) (fs : list bool) :
  degrades (Some d) body →
  ∃ o fs',
    try_except body (mret d) (with_faults [] w) = (o, with_faults [] w)
    ∧ (try_except body (mret d) (with_faults fs w) = (o, with_faults fs' w)
       ∨ try_except body (mret d) (with_faults fs w)
         = (Returns d, with_faults fs' w)).
Proof.
  intros Hbody. unfold try_except.
  destruct (Hbody w fs) as (o & o' & fs' & -> & -> & Ho).
  destruct o as [a|], Ho as [-> | [-> | (x & [= <-] & ->)]];
    eexists _, fs'; (split; [reflexivity|]); auto.
Qed.

Lemma degrades_try (d : A) (body : Py A) :
  degrades (Some d) body → degrades (Some d) (try_except body (mret d)).
Proof.
  intros Hbody w fs.
  destruct (degrades_try_except d body w fs Hbody) as (o & fs' & -> & [-> | ->]).
  - exists o, o, fs'. repeat split. by left.
  - exists o, (Returns d), fs'. repeat split. right; right. by exists d.
Qed.
End Degrades.

Lemma degrades_REDIS_get (key : string) :
  degrades None (REDIS_get key).
Proof.
  intros [m d c fs0] fs. unfold with_faults. cbn [kv DOC_STORE clock].
  exists (Returns (m !! key)).
  destruct fs as [|[] fs].
  - exists (Returns (m !! key)), []. repeat split. by left.
  - exists Raises, fs. repeat split. right. by left.
  - exists (Returns (m !! key)), fs. repeat split. by left.
Qed.

Lemma degrades_weaken {A : Type} (d : option A) (m : Py A) :
  degrades None m → degrades d m.
Proof.
  intros Hm w fs. destruct (Hm w fs) as (o & o' & fs' & H1 & H2 & Ho).
  exists o, o', fs'. repeat split; try done.
  destruct Ho as [-> | [-> | (x & [=] & _)]]; auto.
Qed.

Section Outages.
Context `{PyLib} (cfg : Config).

Lemma degrades_read_chunks (doc_id : string) (indices : list Z)
    (chunks : list bytes) :
  degrades None (read_chunks doc_id indices chunks).
Proof.
  revert chunks. induction indices as [|i indices IH]; intros chunks;
    cbn [read_chunks]; [apply degrades_ret|].
  apply degrades_bind_none; [apply degrades_REDIS_get|].
  intros [c|]; [apply IH | apply degrades_ret].
Qed.

Lemma degrades_decode_chunked (doc_id : string) :
  degrades (Some "") (decode_chunked doc_id).
Proof.
  unfold decode_chunked, _gzip_decompress_bytes.
  apply degrades_try, degrades_weaken.
  apply degrades_bind_none; [apply degrades_REDIS_get|].
  intros [meta_raw|]; [|apply degrades_ret].
  destruct (bytes_empty meta_raw); [apply degrades_ret|].
  apply degrades_bind_none; [apply degrades_or_raise | intros [meta n]].
  apply degrades_bind_none; [apply degrades_read_chunks | intros [chunks|]];
    [|apply degrades_ret].
  apply degrades_bind_none; [apply degrades_or_raise | intros c].
  destruct (truthy c); [|apply degrades_or_raise].
  apply degrades_bind_none; [apply degrades_or_raise | intros raw].
  apply degrades_or_raise.
Qed.

Lemma degrades_decode_redis_value (raw : option bytes) (doc_id : string) :
  degrades (Some "") (_decode_redis_value cfg raw (Some doc_id)).
Proof.
  destruct raw as [raw|]; cbn [_decode_redis_value].
  - eapply degrades_pure. intros w. apply decode_single_closed.
  - destruct (str_empty doc_id || negb (REDIS_present cfg));
      [apply degrades_ret | apply degrades_decode_chunked].
Qed.

Lemma fallback_lookup_faults (doc_id : string) (fs : list bool) (w : World) :
  (fallback_lookup cfg doc_id (with_faults fs w)).1
  = (fallback_lookup cfg doc_id w).1.
Proof.
  unfold fallback_lookup. py_unfold.
  destruct (DOC_STORE w !! doc_id) as [[ts txt]|]; py_unfold; [|done].
  by destruct (DOC_TTL_SECONDS cfg <? clock w - ts).
Qed.

(** An outage can only send [get_doc_text] to the fallback map. *)
Lemma get_doc_text_under_faults (doc_id : string) (fs : list bool) (w : World) :
  (get_doc_text cfg doc_id (with_faults fs w)).1
  = (get_doc_text cfg doc_id (with_faults [] w)).1
  ∨ (get_doc_text cfg doc_id (with_faults fs w)).1
    = (fallback_lookup cfg doc_id w).1.
Proof.
  unfold get_doc_text. destruct (str_empty doc_id); [by left|].
  destruct (REDIS_present cfg).
  2: { left. unfold mbind, Py_bind, mret, Py_ret.
       by rewrite !fallback_lookup_faults. }
  match goal with |- context [try_except ?b (mret None)] =>
    assert (Hbody : degrades (Some None) b); [|set (body := b) in *]
  end.
  { apply degrades_bind_none; [apply degrades_REDIS_get|].
    intros raw.
    apply (degrades_bind (Some "") (Some None));
      [apply degrades_decode_redis_value | intros result; apply degrades_ret|].
    intros x w0 [= <-]. right. by exists None. }
  destruct (degrades_try_except None body w fs Hbody)
    as (o & fs' & Hhealthy & Hfaulty).
  unfold mbind, Py_bind. rewrite Hhealthy.
  destruct Hfaulty as [-> | ->].
  - left. destruct o as [[result|]|]; [done | | done].
    by rewrite !fallback_lookup_faults.
  - right. apply fallback_lookup_faults.
Qed.
End Outages.

(** X21.  An outage never corrupts a read.  Whatever commands fail while
    [get_doc_text] runs, it returns what it would have returned on a healthy
    backend or what the fallback map holds for the identifier; it never
    returns part of a document or the text of another one. *)
Theorem get_doc_text_degrades_to_fallback `{PyLib} (cfg : Config)
    (doc_id : string) (fs : list bool) (w : World) :
  (get_doc_text cfg doc_id (with_faults fs w)).1
  = (get_doc_text cfg doc_id (with_faults [] w)).1
  ∨ (get_doc_text cfg doc_id (with_faults fs w)).1
    = (fallback_lookup cfg doc_id w).1.
Proof. apply get_doc_text_under_faults. Qed.

(** X22.  All or nothing.  After a text has been stored on a healthy backend
    for a new identifier, a read during any later outage returns the whole
    text or the empty string. *)
Theorem read_is_all_or_nothing `{PyLib} (cfg : Config) (doc_id t : string)
    (w : World) :
  REDIS_present cfg = true →
  faults w = [] →
  0 < _CHUNK_SIZE cfg →
  doc_id ≠ "" →
  is_text t →
  startswith (utf8_encode t) _MARKER_COMPRESSED = false →
  kv w !! single_key doc_id = None →
  DOC_STORE w !! doc_id = None →
  ∃ w', put_doc_text cfg doc_id t w = (Returns true, w')
      ∧ ∀ fs, (get_doc_text cfg doc_id (with_faults fs w')).1 = Returns t
              ∨ (get_doc_text cfg doc_id (with_faults fs w')).1 = Returns "".
Proof.
  intros Hredis Hf Hc Hid Ht Hmarker Hsingle Hd.
  destruct (put_get_roundtrip cfg Hredis doc_id t w) as (w' & Hput & Hget);
    try done.
  { intros _ Hstarts. congruence. }
  exists w'. split; [done|]. intros fs.
  assert (Hfaults : faults w' = [] ∧ DOC_STORE w' !! doc_id = None).
  { destruct w as [m d c fs0]. cbn in Hf. subst fs0.
    rewrite (put_doc_text_healthy cfg Hredis) in Hput by (done || lia).
    injection Hput as <-. by split. }
  destruct Hfaults as [Hf' Hd'].
  assert (Hw' : with_faults [] w' = w') by (rewrite <- Hf'; apply with_faults_id).
  destruct (get_doc_text_under_faults cfg doc_id fs w') as [-> | ->].
  - left. by rewrite Hw', Hget.
  - right. unfold fallback_lookup. py_unfold. by rewrite Hd'.
Qed.

Lemma read_is_all_or_nothing_witness :
  ∃ w', put_doc_text Examples.small_chunks "d" "abcdefg" Examples.fresh
        = (Returns true, w')
      ∧ ((get_doc_text Examples.small_chunks "d"
            (with_faults [false; false; true] w')).1 = Returns "abcdefg"
         ∨ (get_doc_text Examples.small_chunks "d"
              (with_faults [false; false; true] w')).1 = Returns "").
Proof.
  destruct (read_is_all_or_nothing Examples.small_chunks "d" "abcdefg"
              Examples.fresh) as (w' & Hput & Hget);
    [reflexivity | reflexivity | reflexivity | discriminate | reflexivity
    | reflexivity | reflexivity | reflexivity|].
  exists w'. split; [exact Hput | apply Hget].
Defined.

(** ** Questions *)


(** ** The earlier store *)

(** X24.  The store of the earlier application returns what was put.  With a
    healthy backend, or with none configured, [get_doc_text] after
    [put_doc_text] returns the text for every non-empty identifier and every
    text, of any size and with any first bytes, and leaves the world alone;
    after [clear_doc] it returns the empty string. *)
Theorem legacy_round_trip (redis : bool) (doc_id text : string)
    (w : Legacy.World) :
  doc_id ≠ "" →
  Legacy.faults w = [] →
  ∃ w1 w2,
    Legacy.put_doc_text redis doc_id text w = (Returns (), w1)
    ∧ Legacy.get_doc_text redis doc_id w1 = (Returns text, w1)
    ∧ Legacy.clear_doc redis (Some doc_id) w1 = (Returns (), w2)
    ∧ Legacy.get_doc_text redis doc_id w2 = (Returns "", w2).
Proof.
  intros Hid Hf. destruct w as [m d fs]. cbn in Hf. subst fs.
  unfold Legacy.put_doc_text, Legacy.get_doc_text, Legacy.clear_doc,
    Legacy.redis_call.
  rewrite (str_empty_false _ Hid). destruct redis.
  - exists (Legacy.mkWorld (<[single_key doc_id := text]> m) d []),
      (Legacy.mkWorld (delete (single_key doc_id) (<[single_key doc_id := text]> m))
         d []).
    cbn [Legacy.faults Legacy.kv Legacy.DOC_STORE].
    by rewrite lookup_insert_eq, lookup_delete_eq.
  - exists (Legacy.mkWorld m (<[doc_id := text]> d) []),
      (Legacy.mkWorld m (delete doc_id (<[doc_id := text]> d)) []).
    cbn [Legacy.faults Legacy.kv Legacy.DOC_STORE].
    by rewrite lookup_insert_eq, lookup_delete_eq.
Qed.

Lemma legacy_round_trip_witness :
  ∃ w1 w2,
    Legacy.put_doc_text true "d" "gzip:" (Legacy.mkWorld ∅ ∅ []) = (Returns (), w1)
    ∧ Legacy.get_doc_text true "d" w1 = (Returns "gzip:", w1)
    ∧ Legacy.clear_doc true (Some "d") w1 = (Returns (), w2)
    ∧ Legacy.get_doc_text true "d" w2 = (Returns "", w2).
Proof.
  apply (legacy_round_trip true "d" "gzip:" (Legacy.mkWorld ∅ ∅ []));
    [discriminate | reflexivity].
Defined.

(** X25.  The earlier store has no fallback during an outage.  With a client
    configured, when the command of [put_doc_text] or of [get_doc_text]
    raises, the function raises, and nothing is stored anywhere: the
    fallback map is used only when no client is configured.  [clear_doc]
    swallows the failure and returns. *)
Theorem legacy_outage_raises (doc_id text : string) (fs : list bool)
    (w : Legacy.World) :
  doc_id ≠ "" →
  Legacy.faults w = true :: fs →
  let w' := Legacy.mkWorld (Legacy.kv w) (Legacy.DOC_STORE w) fs in
  Legacy.put_doc_text true doc_id text w = (Raises, w')
  ∧ Legacy.get_doc_text true doc_id w = (Raises, w')
  ∧ Legacy.clear_doc true (Some doc_id) w = (Returns (), w').
Proof.
  intros Hid Hf w'. subst w'.
  unfold Legacy.put_doc_text, Legacy.get_doc_text, Legacy.clear_doc,
    Legacy.redis_call.
  by rewrite (str_empty_false _ Hid), Hf.
Qed.

Lemma legacy_outage_raises_witness :
  Legacy.put_doc_text true "d" "abc" (Legacy.mkWorld ∅ ∅ [true])
  = (Raises, Legacy.mkWorld ∅ ∅ []).
Proof.
  exact (proj1 (legacy_outage_raises "d" "abc" [] (Legacy.mkWorld ∅ ∅ [true])
                  ltac:(discriminate) eq_refl)).
Defined.
